(** * rick_ai: the query-safety pipeline, the memory store and the chat
      orchestrator, embedded from the JavaScript sources.

    - [backend/config/rickConfig.js]      : the allow-list policy
    - [backend/utils/sqlValidator.js]     : validateSQL, injectTeacherFilter,
                                            sanitizeSQL, validateAndPrepareSQL
    - [backend/utils/contextBuilder.js]   : extractStudentNames
    - [backend/services/memoryService.js] : the memory store
    - [backend/controllers/rickController.js] : handleChat

    Strings.  A JavaScript string is a sequence of UTF-16 code units; the
    embedding works on sequences of 7-bit ASCII code units, carried by
    [string].  On that range [toUpperCase]/[toLowerCase] are the ASCII case
    maps, the regular-expression class [\s] is tab, line feed, vertical tab,
    form feed, carriage return and space, and [\w] is [A-Za-z0-9_]; the
    [i] flag of a regular expression without the [u] flag compares the
    upper-case images of code units.  Code units from 128 on are treated as
    caseless, non-space, non-word characters.

    Tenants.  [teacherId] is an integer ([teacher_id: integer] in the
    persisted record); a template literal prints it as its decimal
    numeral. *)

From Stdlib Require Import Bool Arith ZArith List Ascii String Lia.
From Stdlib Require Import Numbers.DecimalString Sorting.Sorted.
Import ListNotations.

Open Scope string_scope.

(** ** JavaScript string primitives *)

Module JS.

Definition code (c : ascii) : nat := nat_of_ascii c.

Definition between (lo hi n : nat) : bool := Nat.leb lo n && Nat.leb n hi.

Definition isUpper (c : ascii) : bool := between 65 90 (code c).
Definition isLower (c : ascii) : bool := between 97 122 (code c).
Definition isDigit (c : ascii) : bool := between 48 57 (code c).

(** [\s] restricted to ASCII. *)
Definition isSpace (c : ascii) : bool :=
  between 9 13 (code c) || Nat.eqb (code c) 32.

(** [\w] is [A-Za-z0-9_]. *)
Definition isWord (c : ascii) : bool :=
  isUpper c || isLower c || isDigit c || Nat.eqb (code c) 95.

Definition upper (c : ascii) : ascii :=
  if isLower c then ascii_of_nat (code c - 32) else c.

Definition lower (c : ascii) : ascii :=
  if isUpper c then ascii_of_nat (code c + 32) else c.

(** [String.prototype.toUpperCase] and [toLowerCase]. *)
Fixpoint toUpperCase (s : string) : string :=
  match s with
  | EmptyString => EmptyString
  | String c r => String (upper c) (toUpperCase r)
  end.

Fixpoint toLowerCase (s : string) : string :=
  match s with
  | EmptyString => EmptyString
  | String c r => String (lower c) (toLowerCase r)
  end.

(** [s.startsWith(p)]. *)
Fixpoint startsWith (s p : string) {struct p} : bool :=
  match p with
  | EmptyString => true
  | String b p' =>
      match s with
      | EmptyString => false
      | String a s' => Ascii.eqb a b && startsWith s' p'
      end
  end.

(** [s.includes(p)]: [p] occurs at some position of [s]. *)
Fixpoint includes (s p : string) : bool :=
  startsWith s p ||
  match s with
  | EmptyString => false
  | String _ r => includes r p
  end.

(** The [n] first code units removed ([s.slice(n)]). *)
Fixpoint drop (n : nat) (s : string) : string :=
  match n, s with
  | O, _ => s
  | S _, EmptyString => EmptyString
  | S n', String _ r => drop n' r
  end.

(** Longest prefix of [s] whose code units satisfy [p], and what follows it:
    what a greedy [\s+] or [\w+] consumes. *)
Fixpoint span (p : ascii -> bool) (s : string) : string * string :=
  match s with
  | EmptyString => (EmptyString, EmptyString)
  | String c r =>
      if p c then let (a, b) := span p r in (String c a, b)
      else (EmptyString, s)
  end.

Fixpoint trimStart (s : string) : string :=
  match s with
  | EmptyString => EmptyString
  | String c r => if isSpace c then trimStart r else s
  end.

Fixpoint trimEnd (s : string) : string :=
  match s with
  | EmptyString => EmptyString
  | String c r =>
      match trimEnd r with
      | EmptyString => if isSpace c then EmptyString else String c EmptyString
      | t => String c t
      end
  end.

(** [s.trim()]. *)
Definition trim (s : string) : string := trimEnd (trimStart s).

(** Truthiness of a string value: the empty string is falsy. *)
Definition truthy (s : string) : bool :=
  match s with EmptyString => false | _ => true end.

(** [s.split(sep)] for a one-character separator: always at least one
    piece, empty pieces are kept. *)
Fixpoint split (sep : ascii) (s : string) : list string :=
  match s with
  | EmptyString => [EmptyString]
  | String c r =>
      if Ascii.eqb c sep then EmptyString :: split sep r
      else match split sep r with
           | [] => [String c EmptyString]
           | p :: ps => String c p :: ps
           end
  end.

(** [s.split(/\s+/)]: the separator is a maximal run of white space; a run
    at either end of [s] leaves an empty piece there.  [in_run] records that
    the previous code unit was white space, i.e. that the current separator
    has already been opened. *)
Fixpoint splitWs (in_run : bool) (s : string) : list string :=
  match s with
  | EmptyString => [EmptyString]
  | String c r =>
      if isSpace c then
        if in_run then splitWs true r else EmptyString :: splitWs true r
      else match splitWs false r with
           | [] => [String c EmptyString]
           | p :: ps => String c p :: ps
           end
  end.

(** Every code unit of [s] satisfies [p]. *)
Fixpoint all (p : ascii -> bool) (s : string) : bool :=
  match s with
  | EmptyString => true
  | String c r => p c && all p r
  end.

(** Template-literal interpolation of an integer: its decimal numeral. *)
Definition ofZ (z : Z) : string := NilZero.string_of_int (Z.to_int z).

End JS.

(** ** backend/config/rickConfig.js *)

Module config.

Definition allowedTables : list string :=
  ["students"; "grades"; "assignments"; "attendance"; "courses"; "classes"].

Definition blockedKeywords : list string :=
  ["DROP"; "DELETE"; "UPDATE"; "INSERT"; "ALTER"; "TRUNCATE"; "GRANT";
   "REVOKE"; "CREATE"; "REPLACE"; "EXEC"; "EXECUTE"].

End config.

(** [array.includes(x)] on an array of strings. *)
Definition arrayIncludes (l : list string) (x : string) : bool :=
  existsb (String.eqb x) l.

(** ** backend/utils/sqlValidator.js *)

(** *** The regular expressions of the file

    [/where/i] and the [FROM] of [/from\s+(\w+)/i]: a literal compared
    code unit by code unit on upper-case images. *)
Definition startsWithCI (s lit : string) : bool :=
  JS.startsWith (JS.toUpperCase s) (JS.toUpperCase lit).

(** A match of [/from\s+(\w+)/i] anchored at the start of [s]: the captured
    group and the text after the match.  Both quantifiers are greedy and the
    classes [\s] and [\w] are disjoint, so backtracking cannot produce a
    match that the maximal runs do not: giving back white space leaves a
    white-space code unit where [\w] is wanted. *)
Definition matchFromHere (s : string) : option (string * string) :=
  if startsWithCI s "from" then
    let (ws, r1) := JS.span JS.isSpace (JS.drop 4 s) in
    match ws with
    | EmptyString => None
    | _ =>
        let (w, r2) := JS.span JS.isWord r1 in
        match w with
        | EmptyString => None
        | _ => Some (w, r2)
        end
    end
  else None.

(** Length of the match anchored at the start of [s] that left [rest]
    unread. *)
Definition matchLength (s rest : string) : nat :=
  String.length s - String.length rest.

(** [[...sql.matchAll(/FROM\s+(\w+)/gi)].map(m => m[1])]: the captures of
    the successive matches, each search resuming where the previous match
    ended.  [skip] counts the code units of the current match still to be
    stepped over. *)
Fixpoint matchAllFrom (skip : nat) (s : string) : list string :=
  match s with
  | EmptyString => []
  | String _ r =>
      match skip with
      | S k => matchAllFrom k r
      | O =>
          match matchFromHere s with
          | Some (w, rest) => w :: matchAllFrom (matchLength s rest - 1) r
          | None => matchAllFrom 0 r
          end
      end
  end.

(** [sql.replace(/where/i, repl)]: the leftmost match is replaced, the
    string is returned as it is when there is none.  [repl] holds no [$]
    pattern. *)
Fixpoint replaceWhere (s repl : string) : string :=
  match s with
  | EmptyString => EmptyString
  | String c r =>
      if startsWithCI s "where" then repl ++ JS.drop 5 s
      else String c (replaceWhere r repl)
  end.

(** [sql.replace(/from\s+(\w+)/i, `FROM $1 WHERE teacher_id = ${teacherId}`)]:
    [before ++ $1 ++ after] stands for the leftmost match. *)
Fixpoint replaceFrom (s before after : string) : string :=
  match s with
  | EmptyString => EmptyString
  | String c r =>
      match matchFromHere s with
      | Some (w, rest) => before ++ w ++ after ++ rest
      | None => String c (replaceFrom r before after)
      end
  end.

(** *** The functions of the file *)

(** [{ valid, error }]. *)
Record Validation := mkValidation {
  valid : bool;
  error : option string
}.

(** First keyword of [kws] that occurs in [upperSQL] (the [for ... of] loop
    of check 2). *)
Definition firstBlocked (kws : list string) (upperSQL : string) : option string :=
  find (fun keyword => JS.includes upperSQL keyword) kws.

(** First extracted table that is not allowed (the loop of check 3). *)
Definition firstForbidden (tables : list string) : option string :=
  find (fun table => negb (arrayIncludes config.allowedTables table)) tables.

Definition validateSQL (sql : string) (teacherId : Z) : Validation :=
  let upperSQL := JS.toUpperCase sql in
  (* Check 1: Must be a SELECT statement *)
  if negb (JS.startsWith (JS.trim upperSQL) "SELECT") then
    mkValidation false (Some "Only SELECT queries are allowed")
  else
  (* Check 2: No dangerous keywords *)
  match firstBlocked config.blockedKeywords upperSQL with
  | Some keyword =>
      mkValidation false (Some ("Blocked keyword detected: " ++ keyword))
  | None =>
  (* Check 3: Must query from allowed tables only *)
  let tables := map JS.toLowerCase (matchAllFrom 0 sql) in
  match firstForbidden tables with
  | Some table =>
      mkValidation false (Some ("Table '" ++ table ++ "' is not allowed"))
  | None =>
  (* Check 4: Must include teacher_id filter (basic check) *)
  if negb (JS.includes (JS.toLowerCase sql) "teacher_id") then
    mkValidation false (Some "Query must filter by teacher_id")
  else
    mkValidation true None
  end
  end.

Definition injectTeacherFilter (sql : string) (teacherId : Z) : string :=
  let lowerSQL := JS.toLowerCase sql in
  if JS.includes lowerSQL "where" then
    replaceWhere sql ("WHERE teacher_id = " ++ JS.ofZ teacherId ++ " AND")
  else if JS.includes lowerSQL "from" then
    replaceFrom sql "FROM " (" WHERE teacher_id = " ++ JS.ofZ teacherId)
  else sql.

(** [sql.split(';').filter(s => s.trim())]. *)
Definition statementsOf (sql : string) : list string :=
  filter (fun s => JS.truthy (JS.trim s)) (JS.split ";" sql).

Definition sanitizeSQL (sql : string) : string :=
  let statements := statementsOf sql in
  match statements with
  | first :: _ :: _ => first (* Only allow first statement *)
  | _ => JS.trim sql
  end.

(** [{ success, error, sql }]. *)
Record Prepared := mkPrepared {
  success : bool;
  prep_error : option string;
  prep_sql : option string
}.

Definition validateAndPrepareSQL (sql : string) (teacherId : Z) : Prepared :=
  let cleanSQL := sanitizeSQL sql in
  let validation := validateSQL cleanSQL teacherId in
  if negb (valid validation) then
    mkPrepared false (error validation) None
  else
    let cleanSQL := injectTeacherFilter cleanSQL teacherId in
    mkPrepared true None (Some cleanSQL).

(** ** backend/utils/contextBuilder.js *)

(** [/^[A-Z][a-z]+$/.test(word)]. *)
Definition testCapitalized (word : string) : bool :=
  match word with
  | EmptyString => false
  | String c r => JS.isUpper c && JS.truthy r && JS.all JS.isLower r
  end.

Definition extractStudentNames (message : string) : list string :=
  let words := JS.splitWs false message in
  filter (fun word => Nat.ltb 2 (String.length word) && testCapitalized word) words.

(** ** Asynchronous code over the backing store

    An [async] function either returns a value or rejects with an error; the
    error is kept by its [message].  The store is threaded explicitly. *)

Inductive Completion (A : Type) : Type :=
| Normal (value : A)
| Throw (message : string).
Arguments Normal {A} value.
Arguments Throw {A} message.

Definition Task (St A : Type) : Type := St -> Completion A * St.

Definition ret {St A} (a : A) : Task St A := fun st => (Normal a, st).

Definition throw {St A} (message : string) : Task St A :=
  fun st => (Throw message, st).

Definition bind {St A B} (m : Task St A) (k : A -> Task St B) : Task St B :=
  fun st =>
    match m st with
    | (Normal a, st') => k a st'
    | (Throw e, st') => (Throw e, st')
    end.

(** [try { body } catch (error) { handler }]. *)
Definition tryCatch {St A} (body : Task St A) (handler : string -> Task St A)
  : Task St A :=
  fun st =>
    match body st with
    | (Normal a, st') => (Normal a, st')
    | (Throw e, st') => handler e st'
    end.

Declare Scope task_scope.
Delimit Scope task_scope with task.
Notation "'await' x <- m ;; k" := (bind m (fun x => k))
  (at level 100, x name, m at next level, right associativity) : task_scope.

(** ** backend/services/memoryService.js *)

Module memoryService.

(** A row of [rick_memory]. *)
Record MemoryRow := mkMemoryRow {
  id : Z;
  teacher_id : Z;
  student_id : option Z;
  memory_content : string;
  tags : option string;
  created_at : Z;
  updated_at : option Z
}.

(** The columns of [students] that the store reads. *)
Record StudentRow := mkStudentRow {
  s_id : Z;
  s_name : string
}.

(** The database behind [pool]: the two tables, the AUTO_INCREMENT counter
    of [rick_memory], the value of [NOW()], and the error with which every
    statement fails while the store is unavailable. *)
Record Db := mkDb {
  rick_memory : list MemoryRow;
  students : list StudentRow;
  auto_increment : Z;
  now : Z;
  outage : option string
}.

(** A row of [SELECT m.*, s.name as student_name ... LEFT JOIN students s]. *)
Record Joined := mkJoined {
  m : MemoryRow;
  student_name : option string
}.

(** The objects built by [memories.map(m => ({...}))]. *)
Record Memory := mkMemory {
  mem_id : Z;
  content : string;
  studentName : option string;
  mem_tags : list string;
  createdAt : Z
}.

(** The result objects of the service; a field that an object literal does
    not set is [None]. *)
Record Result := mkResult {
  success : bool;
  memoryId : option Z;
  message : option string;
  error : option string;
  memories : option (list Memory)
}.

Definition optZ_eqb (a : option Z) (b : Z) : bool :=
  match a with Some x => Z.eqb x b | None => false end.

(** [rick_memory m LEFT JOIN students s ON m.student_id = s.id]. *)
Definition leftJoin (ms : list MemoryRow) (ss : list StudentRow) : list Joined :=
  flat_map
    (fun r =>
       match filter (fun s => optZ_eqb (student_id r) (s_id s)) ss with
       | [] => [mkJoined r None]
       | hits => map (fun s => mkJoined r (Some (s_name s))) hits
       end)
    ms.

(** [ORDER BY m.created_at DESC], by insertion. *)
Fixpoint insertDesc (x : Joined) (l : list Joined) : list Joined :=
  match l with
  | [] => [x]
  | y :: r =>
      if Z.leb (created_at (m y)) (created_at (m x)) then x :: l
      else y :: insertDesc x r
  end.

Definition orderByCreatedDesc (l : list Joined) : list Joined :=
  fold_right insertDesc [] l.

(** [JSON.stringify] of an array of strings that need no escaping, which is
    what [extractStudentNames] returns (letters only). *)
Definition dquote : ascii := ascii_of_nat 34.

Definition JSON_stringify (l : list string) : string :=
  "[" ++ String.concat ","
           (map (fun s => String dquote (s ++ String dquote "")) l) ++ "]".

Section Store.

(** [value LIKE pattern] as the collation of the store decides it. *)
Variable LIKE : string -> string -> bool.

(** [JSON.parse] on a serialized array of strings; [inl] is the message of
    the [SyntaxError] it throws. *)
Variable JSON_parse : string -> string + list string.

Definition execute {A} (run : Db -> A * Db) : Task Db A :=
  fun db =>
    match outage db with
    | Some e => (Throw e, db)
    | None => let (a, db') := run db in (Normal a, db')
    end.

(** [INSERT INTO rick_memory (teacher_id, student_id, memory_content, tags,
    created_at) VALUES (?, ?, ?, ?, NOW())]; the result is [insertId]. *)
Definition insertMemory (teacherId : Z) (studentId : option Z)
    (memoryContent tagsJson : string) : Task Db Z :=
  execute (fun db =>
    let row := mkMemoryRow (auto_increment db) teacherId studentId
                 memoryContent (Some tagsJson) (now db) None in
    (auto_increment db,
     mkDb (rick_memory db ++ [row]) (students db)
          (auto_increment db + 1) (now db) (outage db))).

(** The [SELECT] of [getMemories]; [filterPattern] is the parameter bound to
    both [LIKE ?] when the name filter was appended. *)
Definition selectMemories (teacherId : Z) (filterPattern : option string)
    (limit : nat) : Task Db (list Joined) :=
  execute (fun db =>
    let rows := leftJoin (rick_memory db) (students db) in
    let kept :=
      filter (fun j =>
        Z.eqb (teacher_id (m j)) teacherId &&
        match filterPattern with
        | None => true
        | Some p =>
            match student_name j with
            | Some n => LIKE n p
            | None => false
            end || LIKE (memory_content (m j)) p
        end) rows in
    (firstn limit (orderByCreatedDesc kept), db)).

(** The [SELECT] of [getRelevantMemories]:
    [WHERE m.teacher_id = ? AND (memory_content LIKE ? OR ...)]. *)
Definition selectRelevant (teacherId : Z) (nameParams : list string)
    (limit : nat) : Task Db (list Joined) :=
  execute (fun db =>
    let rows := leftJoin (rick_memory db) (students db) in
    let kept :=
      filter (fun j =>
        Z.eqb (teacher_id (m j)) teacherId &&
        existsb (fun p => LIKE (memory_content (m j)) p) nameParams) rows in
    (firstn limit (orderByCreatedDesc kept), db)).

Definition targets (memoryId teacherId : Z) (r : MemoryRow) : bool :=
  Z.eqb (id r) memoryId && Z.eqb (teacher_id r) teacherId.

(** [DELETE FROM rick_memory WHERE id = ? AND teacher_id = ?]; the result is
    [affectedRows]. *)
Definition deleteRow (memoryId teacherId : Z) : Task Db nat :=
  execute (fun db =>
    (List.length (filter (targets memoryId teacherId) (rick_memory db)),
     mkDb (filter (fun r => negb (targets memoryId teacherId r)) (rick_memory db))
          (students db) (auto_increment db) (now db) (outage db))).

(** [UPDATE rick_memory SET memory_content = ?, tags = ?, updated_at = NOW()
    WHERE id = ? AND teacher_id = ?]; the result is [affectedRows]. *)
Definition updateRow (newContent tagsJson : string) (memoryId teacherId : Z)
  : Task Db nat :=
  execute (fun db =>
    (List.length (filter (targets memoryId teacherId) (rick_memory db)),
     mkDb (map (fun r =>
                  if targets memoryId teacherId r
                  then mkMemoryRow (id r) (teacher_id r) (student_id r)
                         newContent (Some tagsJson) (created_at r)
                         (Some (now db))
                  else r) (rick_memory db))
          (students db) (auto_increment db) (now db) (outage db))).

(** [JSON.parse(m.tags || '[]')]. *)
Definition parseTags (t : option string) : string + list string :=
  match t with
  | Some s => if JS.truthy s then JSON_parse s else JSON_parse "[]"
  | None => JSON_parse "[]"
  end.

(** [memories.map(m => ({ id, content, studentName, tags, createdAt }))]:
    the first [JSON.parse] that throws aborts the map. *)
Fixpoint toMemories (rows : list Joined) : Task Db (list Memory) :=
  match rows with
  | [] => ret []
  | j :: rest =>
      match parseTags (tags (m j)) with
      | inl e => throw e
      | inr ts =>
          bind (toMemories rest) (fun ms =>
          ret (mkMemory (id (m j)) (memory_content (m j)) (student_name j)
                 ts (created_at (m j)) :: ms))
      end
  end.

Local Open Scope task_scope.

Definition saveMemory (teacherId : Z) (memoryContent : string)
    (studentId : option Z) : Task Db Result :=
  tryCatch
    (let tags := extractStudentNames memoryContent in
     await insertId <- insertMemory teacherId studentId memoryContent
                         (JSON_stringify tags) ;;
     ret (mkResult true (Some insertId) (Some "Memory saved successfully")
            None None))
    (fun error => ret (mkResult false None None (Some error) None)).

Definition getMemories (teacherId : Z) (studentName : option string)
    (limit : nat) : Task Db Result :=
  tryCatch
    (let pattern :=
       match studentName with
       | Some n => if JS.truthy n then Some ("%" ++ n ++ "%") else None
       | None => None
       end in
     await rows <- selectMemories teacherId pattern limit ;;
     await ms <- toMemories rows ;;
     ret (mkResult true None None None (Some ms)))
    (fun error => ret (mkResult false None None (Some error) (Some []))).

(** The source computes [studentNames] and returns the promise of
    [getMemories] inside its [try]; [extractStudentNames] cannot throw and a
    returned promise that is not awaited is not covered by the [catch], so
    the [try] is placed around the remaining branch. *)
Definition getRelevantMemories (teacherId : Z) (message : string)
    (limit : nat) : Task Db Result :=
  let studentNames := extractStudentNames message in
  match studentNames with
  | [] => getMemories teacherId None limit
  | _ =>
      tryCatch
        (let nameParams := map (fun name => "%" ++ name ++ "%") studentNames in
         await rows <- selectRelevant teacherId nameParams limit ;;
         await ms <- toMemories rows ;;
         ret (mkResult true None None None (Some ms)))
        (fun error => ret (mkResult false None None (Some error) (Some [])))
  end.

Definition deleteMemory (teacherId memoryId : Z) : Task Db Result :=
  tryCatch
    (await affectedRows <- deleteRow memoryId teacherId ;;
     if Nat.eqb affectedRows 0 then
       ret (mkResult false None None
              (Some "Memory not found or you do not have permission to delete it")
              None)
     else
       ret (mkResult true None (Some "Memory deleted successfully") None None))
    (fun error => ret (mkResult false None None (Some error) None)).

Definition updateMemory (teacherId memoryId : Z) (newContent : string)
  : Task Db Result :=
  tryCatch
    (let tags := extractStudentNames newContent in
     await affectedRows <- updateRow newContent (JSON_stringify tags)
                             memoryId teacherId ;;
     if Nat.eqb affectedRows 0 then
       ret (mkResult false None None
              (Some "Memory not found or you do not have permission to update it")
              None)
     else
       ret (mkResult true None (Some "Memory updated successfully") None None))
    (fun error => ret (mkResult false None None (Some error) None)).

End Store.

(** [{ success, count, error }] of [getMemoryCount]. *)
Record CountResult := mkCountResult {
  count_success : bool;
  count : nat;
  count_error : option string
}.

(** The [SELECT] that counts the rows of [rick_memory] with
    [teacher_id = ?]; the result is [result[0].count]. *)
Definition countRows (teacherId : Z) : Task Db nat :=
  execute (fun db =>
    (List.length
       (filter (fun r => Z.eqb (teacher_id r) teacherId) (rick_memory db)),
     db)).

Definition getMemoryCount (teacherId : Z) : Task Db CountResult :=
  tryCatch
    (bind (countRows teacherId) (fun n =>
     ret (mkCountResult true n None)))
    (fun error => ret (mkCountResult false 0 (Some error))).

End memoryService.

(** ** backend/controllers/rickController.js *)

Module rickController.

(** [{ message, conversation_history }], [req.teacherId], [req.teacherName]. *)
Record Request := mkRequest {
  message : option string;
  conversation_history : list (string * string);
  teacherId : Z;
  teacherName : string
}.

(** What [parseCommand] returns. *)
Record Parsed := mkParsed {
  isCommand : bool;
  command : string;
  args : option string
}.

(** [{ success, sql, error }] of [generateSQL]. *)
Record SqlResult := mkSqlResult {
  sql_success : bool;
  sql : option string;
  sql_error : option string
}.

Section Controller.

(** Rows returned by the query service. *)
Variable Rows : Type.

(** The context object handed to the language-model service. *)
Record Context := mkContext {
  ctx_teacherId : option Z;
  ctx_teacherName : option string;
  userMessage : string;
  conversationHistory : option string;
  ctx_memories : option string;
  schema : option string;
  queryResults : option Rows
}.

(** [{ success, results, error }] of the query service. *)
Record QueryResult := mkQueryResult {
  q_success : bool;
  results : option Rows;
  q_error : option string
}.

(** The [data] of a body: the array literal [[]], or the [results] field
    of what the query service returned. *)
Inductive Data :=
| emptyArray
| resultsOf (results : option Rows).

(** The status and the JSON body sent with [res.status(..).json(..)]; a
    field the object literal does not set is [None]. *)
Record Response := mkResponse {
  status : nat;
  success : bool;
  response : option string;
  error : option string;
  needsData : option bool;
  data : option Data;
  queryType : option string
}.

(** What the controller requires: the store's [LIKE] and [JSON.parse] (as in
    the memory service), utils/commandParser.js, the command path,
    services/queryService.js, services/ollamaService.js and the formatting
    helpers of utils/contextBuilder.js. *)
Record Services := mkServices {
  LIKE : string -> string -> bool;
  JSON_parse : string -> string + list string;
  parseCommand : string -> Parsed;
  handleCommand : Request -> Parsed -> Task memoryService.Db Response;
  executeDynamicQuery : option string -> Z -> Task memoryService.Db QueryResult;
  executePredefinedQuery : string -> Z -> Task memoryService.Db QueryResult;
  generateSQL : Context -> Task memoryService.Db SqlResult;
  formatResponse : Context -> Task memoryService.Db string;
  chatResponse : Context -> Task memoryService.Db string;
  formatConversationHistory : list (string * string) -> string;
  formatMemories : list memoryService.Memory -> string;
  buildSchemaDescription : string
}.

Variable svc : Services.

(** [keywords.some(keyword => lowerMessage.includes(keyword))]. *)
Definition someIncluded (lowerMessage : string) (keywords : list string) : bool :=
  existsb (fun keyword => JS.includes lowerMessage keyword) keywords.

Definition requiresDataQuery (message : string) : bool :=
  let dataKeywords :=
    ["who"; "what"; "how many"; "list"; "show"; "find";
     "student"; "grade"; "assignment"; "average"; "score";
     "missing"; "struggling"; "attendance"; "absent"] in
  someIncluded (JS.toLowerCase message) dataKeywords.

Definition patterns : list (string * list string) :=
  [("struggling_students", ["struggling"; "failing"; "below 60"; "low grade"]);
   ("missing_assignments", ["missing"; "incomplete"; "not submitted"; "haven't done"]);
   ("attendance_issues", ["attendance"; "absent"; "skipping"; "missing class"]);
   ("class_average", ["class average"; "overall performance"; "how is my class"]);
   ("recent_improvements", ["improved"; "getting better"; "progress"]);
   ("assignment_completion", ["completion rate"; "who completed"; "assignment status"])].

Definition matchQuickQuery (message : string) : option string :=
  let lowerMessage := JS.toLowerCase message in
  match find (fun entry => someIncluded lowerMessage (snd entry)) patterns with
  | Some entry => Some (fst entry)
  | None => None
  end.

(** [queryType.replace(/_/g, ' ')]. *)
Fixpoint underscoresToSpaces (s : string) : string :=
  match s with
  | EmptyString => EmptyString
  | String c r =>
      String (if Ascii.eqb c "_" then " "%char else c) (underscoresToSpaces r)
  end.

Local Open Scope task_scope.

Definition handleQuickQuery (req : Request) (queryType : string)
  : Task memoryService.Db Response :=
  await result <- executePredefinedQuery svc queryType (teacherId req) ;;
  if negb (q_success result) then
    ret (mkResponse 200 true
           (Some "I had trouble running that query. Please try again.")
           None None (Some emptyArray) None)
  else
    let context :=
      mkContext None None ("Show me " ++ underscoresToSpaces queryType)
        None None None (results result) in
    await formatted <- formatResponse svc context ;;
    ret (mkResponse 200 true (Some formatted) None None
           (Some (resultsOf (results result))) (Some queryType)).

(** The freeform path of [handleChat], from "Get relevant memories" on. *)
Definition freeform (req : Request) (message : string)
  : Task memoryService.Db Response :=
  await memoriesResult <-
    memoryService.getRelevantMemories (LIKE svc) (JSON_parse svc)
      (teacherId req) message 5 (* the default [limit] *) ;;
  let memories :=
    if memoryService.success memoriesResult then
      match memoryService.memories memoriesResult with
      | Some ms => ms
      | None => []
      end
    else [] in
  let context :=
    mkContext (Some (teacherId req)) (Some (teacherName req)) message
      (Some (formatConversationHistory svc (conversation_history req)))
      (Some (formatMemories svc memories))
      (Some (buildSchemaDescription svc)) None in
  let needsData := requiresDataQuery message in
  if needsData then
    await sqlResult <- generateSQL svc context ;;
    if negb (sql_success sqlResult) then
      ret (mkResponse 200 true
             (Some "I had trouble understanding that query. Could you rephrase it?")
             None (Some false) None None)
    else
      await queryResult <-
        executeDynamicQuery svc (sql sqlResult) (teacherId req) ;;
      if negb (q_success queryResult) then
        ret (mkResponse 200 true
               (Some "I couldn't execute that query. Let me try to help another way.")
               (q_error queryResult) None None None)
      else
        let context :=
          mkContext (ctx_teacherId context) (ctx_teacherName context)
            (userMessage context) (conversationHistory context)
            (ctx_memories context) (schema context) (results queryResult) in
        await formatted <- formatResponse svc context ;;
        ret (mkResponse 200 true (Some formatted) None (Some true)
               (Some (resultsOf (results queryResult))) None)
  else
    await chatResult <- chatResponse svc context ;;
    ret (mkResponse 200 true (Some chatResult) None (Some false) None None).

(** [handleChat].  The promises of [handleCommand] and [handleQuickQuery] are
    returned without being awaited, so the [catch] of the function covers
    the freeform path only. *)
Definition handleChat (req : Request) : Task memoryService.Db Response :=
  match message req with
  | None =>
      ret (mkResponse 400 false None (Some "Message is required") None None None)
  | Some message =>
      if negb (JS.truthy message) || String.eqb (JS.trim message) "" then
        ret (mkResponse 400 false None (Some "Message is required")
               None None None)
      else
        let parsed := parseCommand svc message in
        if isCommand parsed then handleCommand svc req parsed
        else
          match matchQuickQuery message with
          | Some quickQueryMatch => handleQuickQuery req quickQueryMatch
          | None =>
              tryCatch (freeform req message)
                (fun _ =>
                   ret (mkResponse 500 false None
                          (Some "An error occurred while processing your message")
                          None None None))
          end
  end.

End Controller.

Arguments mkContext {Rows}.
Arguments mkQueryResult {Rows}.
Arguments emptyArray {Rows}.
Arguments resultsOf {Rows}.
Arguments mkResponse {Rows}.
Arguments mkServices {Rows}.
Arguments q_success {Rows}.
Arguments results {Rows}.
Arguments q_error {Rows}.
Arguments status {Rows}.
Arguments success {Rows}.
Arguments response {Rows}.
Arguments error {Rows}.
Arguments needsData {Rows}.
Arguments data {Rows}.
Arguments executeDynamicQuery {Rows}.
Arguments generateSQL {Rows}.
Arguments parseCommand {Rows}.
Arguments handleChat {Rows}.
Arguments handleQuickQuery {Rows}.
Arguments executePredefinedQuery {Rows}.

End rickController.

(** ** Vocabulary of the statements below *)

(** The first code unit of [s] satisfies [p]. *)
Definition headIs (p : ascii -> bool) (s : string) : bool :=
  match s with
  | EmptyString => false
  | String c _ => p c
  end.

(** No match of [/from\s+(\w+)/i] in [pre ++ s] begins inside [pre]. *)
Fixpoint noFromMatchWithin (pre s : string) : bool :=
  match pre with
  | EmptyString => true
  | String _ r =>
      match matchFromHere (pre ++ s) with
      | Some _ => false
      | None => noFromMatchWithin r s
      end
  end.


(** *** The clauses of a statement

    What a reader of SQL calls the WHERE clause of a statement is looked
    for outside its string literals: a literal opens and closes with a
    single quote, a backslash inside it protects the next code unit, and a
    quote written twice is a literal closed and opened again. *)

Module SqlSpec.

Inductive Lexical := Code | Literal | Escaped.

Definition next (st : Lexical) (c : ascii) : Lexical :=
  match st with
  | Code => if Ascii.eqb c "'" then Literal else Code
  | Literal =>
      if Ascii.eqb c "'" then Code
      else if Ascii.eqb c "\" then Escaped else Literal
  | Escaped => Literal
  end.

(** Where the reader stands after [s]. *)
Fixpoint stateAfter (st : Lexical) (s : string) : Lexical :=
  match s with
  | EmptyString => st
  | String c r => stateAfter (next st c) r
  end.

(** The statement with each literal reduced to its two quotes. *)
Fixpoint outsideLiterals (st : Lexical) (s : string) : string :=
  match s with
  | EmptyString => EmptyString
  | String c r =>
      let rest := outsideLiterals (next st c) r in
      match st with
      | Code => String c rest
      | Literal => if Ascii.eqb c "'" then String c rest else rest
      | Escaped => rest
      end
  end.

(** The statement has a WHERE clause: the keyword stands outside the
    literals. *)
Definition hasWhereClause (sql : string) : bool :=
  JS.includes (JS.toLowerCase (outsideLiterals Code sql)) "where".

(** A code unit that neither opens, closes nor protects. *)
Definition plain (c : ascii) : bool :=
  negb (Ascii.eqb c "'") && negb (Ascii.eqb c "\").

End SqlSpec.

(** *** The tokens of a text

    The words of the claims on [extractStudentNames], written without the
    functions of the code. *)

Module TokenSpec.





(** The tokens longer than two code units that begin with a capital
    letter, in the order of the text. *)
Definition capitalizedTokens (message : string) : list string :=
  filter (fun word => Nat.ltb 2 (String.length word) && headIs JS.isUpper word)
    (JS.splitWs false message).

End TokenSpec.

(** *** Vocabulary for the memory store *)

Module MemorySpec.

Import memoryService.

(** Rows in the order of [ORDER BY created_at DESC]. *)
Definition newestFirst (l : list Joined) : Prop :=
  StronglySorted (fun a b => (created_at (m b) <= created_at (m a))%Z) l.

(** Memories most recent first. *)
Definition recentFirst (l : list Memory) : Prop :=
  StronglySorted (fun a b => (createdAt b <= createdAt a)%Z) l.

(** [mem] is the object built from the joined row [j]. *)
Definition builtFrom (j : Joined) (mem : Memory) : Prop :=
  mem_id mem = id (m j) /\ content mem = memory_content (m j) /\
  studentName mem = student_name j /\ createdAt mem = created_at (m j).

(** The state of a store whose [id] column is an AUTO_INCREMENT primary
    key: no two rows share an id and the counter is beyond every id. *)
Definition wellFormed (db : Db) : Prop :=
  NoDup (map id (rick_memory db)) /\
  forall row, In row (rick_memory db) -> (id row < auto_increment db)%Z.

(** The rows of a tenant. *)
Definition rowsOf (teacherId : Z) (db : Db) : list MemoryRow :=
  filter (fun r => Z.eqb (teacher_id r) teacherId) (rick_memory db).

(** The failure of [updateMemory] when no row was affected. *)
Definition notFoundUpdate : Result :=
  mkResult false None None
    (Some "Memory not found or you do not have permission to update it") None.

(** The failure of [deleteMemory] when no row was affected. *)
Definition notFound : Result :=
  mkResult false None None
    (Some "Memory not found or you do not have permission to delete it") None.

Section Recall.

Variable LIKE : string -> string -> bool.
Variable JSON_parse : string -> string + list string.

(** The shape shared by the two recall operations. *)

Definition failed (e : string) : Result :=
  mkResult false None None (Some e) (Some []).

Definition found (ms : list Memory) : Result :=
  mkResult true None None None (Some ms).

(** [SELECT ... WHERE q ORDER BY m.created_at DESC LIMIT limit]. *)
Definition selected (q : Joined -> bool) (limit : nat) (db : Db) : list Joined :=
  firstn limit
    (orderByCreatedDesc (filter q (leftJoin (rick_memory db) (students db)))).

Definition recall (q : Joined -> bool) (limit : nat) : Task Db Result :=
  tryCatch
    (bind (execute (fun db => (selected q limit db, db))) (fun rows =>
     bind (toMemories JSON_parse rows) (fun ms =>
     ret (found ms))))
    (fun error => ret (failed error)).

(** The parameter bound to both [LIKE ?] of [getMemories]. *)
Definition patternOf (studentName : option string) : option string :=
  match studentName with
  | Some n => if JS.truthy n then Some ("%" ++ n ++ "%") else None
  | None => None
  end.

(** The [WHERE] clause of [getMemories]. *)
Definition whereOf (teacherId : Z) (studentName : option string) (j : Joined)
  : bool :=
  Z.eqb (teacher_id (m j)) teacherId &&
  match patternOf studentName with
  | None => true
  | Some p =>
      match student_name j with
      | Some n => LIKE n p
      | None => false
      end || LIKE (memory_content (m j)) p
  end.

(** The conditions of the two [WHERE] clauses. *)
Definition ofTenant (teacherId : Z) (j : Joined) : bool :=
  Z.eqb (teacher_id (m j)) teacherId.

Definition mentions (names : list string) (j : Joined) : bool :=
  existsb (fun p => LIKE (memory_content (m j)) p)
    (map (fun name => "%" ++ name ++ "%") names).

End Recall.

End MemorySpec.

(** *** Data for the examples *)

Module Examples.

(** A [LIKE] that looks for the pattern, its [%] signs removed, anywhere in
    the value, with the letter case respected. *)
Fixpoint withoutPercent (p : string) : string :=
  match p with
  | EmptyString => EmptyString
  | String c r =>
      if Ascii.eqb c "%" then withoutPercent r else String c (withoutPercent r)
  end.

Definition exampleLIKE (value pattern : string) : bool :=
  JS.includes value (withoutPercent pattern).

(** A [JSON.parse] that knows the empty array only. *)
Definition exampleParse (s : string) : string + list string :=
  if String.eqb s "[]" then inr [] else inl "Unexpected token".

Definition exampleRows : list memoryService.MemoryRow :=
  [memoryService.mkMemoryRow 10 2 None "Joe is in the other class" (Some "[]") 300 None;
   memoryService.mkMemoryRow 11 1 None "Joe failed the fractions quiz" (Some "[]") 200 None;
   memoryService.mkMemoryRow 12 1 None "Ann did well" None 100 None].

Definition exampleDb : memoryService.Db := memoryService.mkDb exampleRows [] 13 400 None.

Definition downDb : memoryService.Db :=
  memoryService.mkDb exampleRows [] 13 400 (Some "connect ECONNREFUSED").

(** A query service for the examples (services/queryService.js is not
    among the sources): the statement goes through [validateAndPrepareSQL]
    and a rejection is reported with the validator's reason. *)
Definition exampleExecute (sql : option string) (teacherId : Z)
  : Task memoryService.Db (rickController.QueryResult (list string)) :=
  match sql with
  | None => throw "sql is null"
  | Some q =>
      let prepared := validateAndPrepareSQL q teacherId in
      if success prepared then ret (rickController.mkQueryResult true (Some []) None)
      else ret (rickController.mkQueryResult false None (prep_error prepared))
  end.

Definition exampleServices : rickController.Services (list string) :=
  rickController.mkServices exampleLIKE exampleParse
    (fun _ => rickController.mkParsed false "" None)
    (fun _ _ => ret (rickController.mkResponse 200 true None None None None None))
    exampleExecute
    (fun _ _ => ret (rickController.mkQueryResult true (Some []) None))
    (fun _ => ret (rickController.mkSqlResult true
                     (Some "SELECT name FROM teachers WHERE teacher_id = 7") None))
    (fun _ => ret "formatted")
    (fun _ => ret "chat")
    (fun _ => "history")
    (fun _ => "memories")
    "schema".

Definition exampleRequest : rickController.Request :=
  rickController.mkRequest (Some "show grades") [] 7 "Ms T".

End Examples.

(** *** Further vocabulary for the validator *)

(** Some match of [/from\s+(\w+)/i] exists in [s]. *)
Fixpoint hasFromMatch (s : string) : bool :=
  match s with
  | EmptyString => false
  | String _ r =>
      match matchFromHere s with
      | Some _ => true
      | None => hasFromMatch r
      end
  end.

(** The isolation predicate as the injector writes it. *)
Definition tenantPredicate (teacherId : Z) : string :=
  "WHERE teacher_id = " ++ JS.ofZ teacherId.

(** The last piece of a non-empty list of pieces extended by [w]. *)
Fixpoint appLast (ps : list string) (w : string) : list string :=
  match ps with
  | [] => []
  | [p] => [p ++ w]
  | p :: rest => p :: appLast rest w
  end.

(** The first piece of a list of pieces preceded by [w]. *)
Definition consFirst (w : string) (ps : list string) : list string :=
  match ps with
  | [] => []
  | p :: rest => (w ++ p) :: rest
  end.

(** A piece that is not white space only. *)
Definition notBlank (p : string) : bool := negb (JS.all JS.isSpace p).

(** *** The results and rows of the mutating operations *)

Module MemoryOps.

Import memoryService.

Definition saved (insertId : Z) : Result :=
  mkResult true (Some insertId) (Some "Memory saved successfully") None None.

Definition deleted : Result :=
  mkResult true None (Some "Memory deleted successfully") None None.

Definition updated : Result :=
  mkResult true None (Some "Memory updated successfully") None None.

Definition refused (e : string) : Result :=
  mkResult false None None (Some e) None.

(** The row that [saveMemory] inserts. *)
Definition newRow (db : Db) (teacherId : Z) (studentId : option Z)
    (memoryContent : string) : MemoryRow :=
  mkMemoryRow (auto_increment db) teacherId studentId memoryContent
    (Some (JSON_stringify (extractStudentNames memoryContent))) (now db) None.

(** The row that [updateMemory] leaves in the place of [r]. *)
Definition rewritten (db : Db) (teacherId memoryId : Z) (newContent : string)
    (r : MemoryRow) : MemoryRow :=
  if targets memoryId teacherId r
  then mkMemoryRow (id r) (teacher_id r) (student_id r) newContent
         (Some (JSON_stringify (extractStudentNames newContent)))
         (created_at r) (Some (now db))
  else r.

Definition withRows (db : Db) (rows : list MemoryRow) : Db :=
  mkDb rows (students db) (auto_increment db) (now db) (outage db).

End MemoryOps.

(** ** frontend/src/utils/commandParser.js *)

Module commandParser.

(** [{ isCommand, command, args, original }]. *)
Record ParsedCommand := mkParsedCommand {
  isCommand : bool;
  command : option string;
  args : option string;
  original : string
}.

Definition parseCommand (message : string) : ParsedCommand :=
  let trimmed := JS.trim message in
  if negb (JS.startsWith trimmed "/") then
    mkParsedCommand false None None message
  else
    let parts := JS.split " " (JS.drop 1 trimmed) in
    let command := JS.toLowerCase (hd EmptyString parts) in
    let args := JS.trim (String.concat " " (tl parts)) in
    mkParsedCommand true (Some command) (Some args) message.

(** [COMMANDS]. *)
Record Commands := mkCommands {
  REMEMBER : string;
  MEMORIES : string;
  FORGET : string;
  HELP : string
}.

Definition COMMANDS : Commands :=
  mkCommands "remember" "memories" "forget" "help".

(** [Object.values(COMMANDS).includes(command)]. *)
Definition isValidCommand (command : string) : bool :=
  arrayIncludes
    [REMEMBER COMMANDS; MEMORIES COMMANDS; FORGET COMMANDS; HELP COMMANDS]
    command.

End commandParser.

(** ** backend/controllers/rickController.js: the command path *)

Module rickCommands.

(** The bodies sent by [handleCommand]. *)
Record CommandResponse := mkCommandResponse {
  status : nat;
  success : bool;
  response : option string;
  error : option string;
  memories : option (list memoryService.Memory);
  isCommand : option bool
}.

Definition nl : string := String (ascii_of_nat 10) EmptyString.

(** [array.map((x, index) => f(x, index))]. *)
Fixpoint mapIndexed {A B} (f : A -> nat -> B) (index : nat) (l : list A)
  : list B :=
  match l with
  | [] => []
  | x :: r => f x index :: mapIndexed f (S index) r
  end.

Definition getHelpText : string :=
  "Available commands:

/remember [note] - Save a note to my memory
Example: /remember Joe was struggling with quadratic equations

/memories [student name] - View saved memories
Example: /memories Joe

/forget [memory ID] - Delete a memory
Example: /forget 5

/help - Show this help message

You can also ask me questions about your students, grades, and assignments!".

(** The two refusals of [handleCommand]. *)
Definition badId : CommandResponse :=
  mkCommandResponse 400 false None
    (Some "Please provide a memory ID. Example: /forget 5") None None.

Definition nothingToRemember : CommandResponse :=
  mkCommandResponse 400 false None
    (Some "Please provide something to remember. Example: /remember Joe struggled with fractions")
    None None.

Section Commands.

(** The store's [LIKE] and [JSON.parse], as in the memory service. *)
Variable LIKE : string -> string -> bool.
Variable JSON_parse : string -> string + list string.

(** [COMMANDS] of backend/utils/commandParser.js, which is not among the
    sources. *)
Variable COMMANDS : commandParser.Commands.

(** [parseInt] on the arguments of a command; [None] is [NaN]. *)
Variable parseInt : option string -> option Z.

(** [new Date(createdAt).toLocaleDateString()]. *)
Variable toLocaleDateString : Z -> string.

Definition formatMemoriesForDisplay (memories : list memoryService.Memory)
    (studentName : option string) : string :=
  let header :=
    match studentName with
    | Some n => "Here are my memories about " ++ n ++ ":" ++ nl ++ nl
    | None => "Here are my saved memories:" ++ nl ++ nl
    end in
  let memoryList :=
    String.concat nl
      (mapIndexed
         (fun m index =>
            let date := toLocaleDateString (memoryService.createdAt m) in
            JS.ofZ (Z.of_nat (index + 1)) ++ ". [ID: "
              ++ JS.ofZ (memoryService.mem_id m) ++ "] "
              ++ memoryService.content m ++ " (" ++ date ++ ")")
         0 memories) in
  header ++ memoryList ++ nl ++ nl ++ "Use /forget [ID] to delete a memory.".

(** [parsed.args || null] and [!parsed.args]. *)
Definition argsOrNull (args : option string) : option string :=
  match args with
  | Some a => if JS.truthy a then Some a else None
  | None => None
  end.

Local Open Scope task_scope.

Definition handleCommand (req : rickController.Request)
    (parsed : rickController.Parsed) : Task memoryService.Db CommandResponse :=
  let teacherId := rickController.teacherId req in
  let command := rickController.command parsed in
  let args := rickController.args parsed in
  if String.eqb command (commandParser.REMEMBER COMMANDS) then
    match argsOrNull args with
    | None =>
        ret (mkCommandResponse 400 false None
               (Some "Please provide something to remember. Example: /remember Joe struggled with fractions")
               None None)
    | Some note =>
        await saveResult <- memoryService.saveMemory teacherId note None ;;
        ret (mkCommandResponse 200 (memoryService.success saveResult)
               (Some (if memoryService.success saveResult
                      then "Got it! I'll remember: "
                             ++ String memoryService.dquote
                                  (note ++ String memoryService.dquote "")
                      else "Sorry, I had trouble saving that memory."))
               None None (Some true))
    end
  else if String.eqb command (commandParser.MEMORIES COMMANDS) then
    let studentName := argsOrNull args in
    await memoriesResult <-
      memoryService.getMemories LIKE JSON_parse teacherId studentName 20 ;;
    let found :=
      match memoryService.memories memoriesResult with
      | Some ms => ms
      | None => []
      end in
    if negb (memoryService.success memoriesResult)
       || Nat.eqb (List.length found) 0 then
      ret (mkCommandResponse 200 true
             (Some match studentName with
                   | Some n => "I don't have any memories about " ++ n ++ "."
                   | None => "I don't have any saved memories yet."
                   end)
             None (Some []) (Some true))
    else
      ret (mkCommandResponse 200 true
             (Some (formatMemoriesForDisplay found studentName))
             None (Some found) (Some true))
  else if String.eqb command (commandParser.FORGET COMMANDS) then
    match parseInt args with
    | None =>
        ret (mkCommandResponse 400 false None
               (Some "Please provide a memory ID. Example: /forget 5")
               None None)
    | Some memoryId =>
        if Z.eqb memoryId 0 then
          ret (mkCommandResponse 400 false None
                 (Some "Please provide a memory ID. Example: /forget 5")
                 None None)
        else
          await deleteResult <- memoryService.deleteMemory teacherId memoryId ;;
          ret (mkCommandResponse 200 (memoryService.success deleteResult)
                 (if memoryService.success deleteResult
                  then Some "Memory deleted successfully."
                  else memoryService.error deleteResult)
                 None None (Some true))
    end
  else if String.eqb command (commandParser.HELP COMMANDS) then
    ret (mkCommandResponse 200 true (Some getHelpText) None None (Some true))
  else
    ret (mkCommandResponse 400 false None
           (Some ("Unknown command: /" ++ command
                    ++ ". Type /help for available commands."))
           None None).

End Commands.

End rickCommands.

(** *** Data for the examples of the command path *)

Module CommandExamples.

(** A [parseInt] that knows two numerals. *)
Definition exampleParseInt (args : option string) : option Z :=
  match args with
  | Some s =>
      if String.eqb s "10" then Some 10%Z
      else if String.eqb s "0" then Some 0%Z
      else None
  | None => None
  end.

Definition exampleDate (createdAt : Z) : string := JS.ofZ createdAt.

Definition forgetTen : rickController.Parsed :=
  rickController.mkParsed true "forget" (Some "10").

Definition rememberNothing : rickController.Parsed :=
  rickController.mkParsed true "remember" (Some "").

Definition listMemories : rickController.Parsed :=
  rickController.mkParsed true "memories" None.

(** A request of tenant 1. *)
Definition requestOfOne : rickController.Request :=
  rickController.mkRequest (Some "/forget 10") [] 1 "Ms T".

(** Services whose language model is unreachable and whose query service
    throws. *)
Definition throwingServices : rickController.Services (list string) :=
  rickController.mkServices Examples.exampleLIKE Examples.exampleParse
    (fun _ => rickController.mkParsed false "" None)
    (fun _ _ => throw "command path")
    (fun _ _ => throw "query service")
    (fun _ _ => throw "pool is closed")
    (fun _ => throw "connect ECONNREFUSED 127.0.0.1:11434")
    (fun _ => throw "format")
    (fun _ => throw "chat")
    (fun _ => "history")
    (fun _ => "memories")
    "schema".

Definition quickRequest : rickController.Request :=
  rickController.mkRequest (Some "who is failing?") [] 7 "Ms T".

End CommandExamples.

(** *** The fixed error bodies of [handleChat] *)

Module ChatBodies.

Import rickController.

Section Bodies.

Variable Rows : Type.

Definition badRequest : Response Rows :=
  mkResponse 400 false None (Some "Message is required") None None None.

Definition serverError : Response Rows :=
  mkResponse 500 false None
    (Some "An error occurred while processing your message") None None None.

End Bodies.

End ChatBodies.

(** ** backend/utils/contextBuilder.js: the formatting helpers *)

Module contextBuilder.

(** Property values of the objects that reach the helpers. *)
Inductive Value : Type :=
| VNull
| VNum (z : Z)
| VStr (s : string)
| VArr (items : list string).

(** An object as its own properties, in the order of the literal. *)
Definition Obj : Type := list (string * Value).

(** [object.key]; [None] is [undefined]. *)
Fixpoint get (key : string) (object : Obj) : option Value :=
  match object with
  | [] => None
  | (k, v) :: rest => if String.eqb k key then Some v else get key rest
  end.

(** A value inside a template literal. *)
Definition interpolate (v : option Value) : string :=
  match v with
  | None => "undefined"
  | Some VNull => "null"
  | Some (VNum z) => JS.ofZ z
  | Some (VStr s) => s
  | Some (VArr items) => String.concat "," items
  end.

(** The object literal built by the memory service for each row. *)
Definition memoryObject (mem : memoryService.Memory) : Obj :=
  [("id", VNum (memoryService.mem_id mem));
   ("content", VStr (memoryService.content mem));
   ("studentName",
    match memoryService.studentName mem with
    | Some n => VStr n
    | None => VNull
    end);
   ("tags", VArr (memoryService.mem_tags mem));
   ("createdAt", VNum (memoryService.createdAt mem))].

Section Formatting.

(** [new Date(value).toLocaleDateString()] for a value that is defined. *)
Variable toLocaleDateString : Value -> string.

(** [new Date(x).toLocaleDateString()]; the date of [undefined] is
    invalid. *)
Definition dateString (x : option Value) : string :=
  match x with
  | None => "Invalid Date"
  | Some v => toLocaleDateString v
  end.

Definition formatMemories (memories : list Obj) : string :=
  match memories with
  | [] => "No previous memories about this topic."
  | _ =>
      String.concat rickCommands.nl
        (rickCommands.mapIndexed
           (fun memory index =>
              let date := dateString (get "created_at" memory) in
              "Memory " ++ JS.ofZ (Z.of_nat (index + 1)) ++ " (" ++ date
                ++ "): " ++ interpolate (get "memory_content" memory))
           0 memories)
  end.

End Formatting.

(** [history] as pairs of [role] and [content]. *)
Definition formatConversationHistory (history : list (string * string))
  : string :=
  match history with
  | [] => ""
  | _ =>
      String.concat rickCommands.nl
        (map (fun msg =>
                let role :=
                  if String.eqb (fst msg) "user" then "Teacher" else "Rick" in
                role ++ ": " ++ snd msg)
           history)
  end.

(** The line printed for the memory at [index], whatever the memory. *)
Definition blindLine (index : nat) : string :=
  "Memory " ++ JS.ofZ (Z.of_nat (index + 1)) ++ " (Invalid Date): undefined".

(** The line printed for a message. *)
Definition line (msg : string * string) : string :=
  (if String.eqb (fst msg) "user" then "Teacher" else "Rick")
    ++ ": " ++ snd msg.

End contextBuilder.

(** ** backend/services/ollamaService.js: generateSQL *)

Module ollamaService.

(** [{ success, response, error }] of [generateResponse]. *)
Record Generated := mkGenerated {
  success : bool;
  response : option string;
  error : option string
}.

(** [sql.replace(pattern, '')] for a global pattern that is a literal of
    [len] code units: every match, found from left to right, each search
    resuming after the previous match, is removed.  [here] tells whether the
    pattern matches at the start of a string; [skip] counts the code units
    of the current match still to be dropped. *)
Fixpoint removeMatches (here : string -> bool) (len skip : nat) (s : string)
  : string :=
  match s with
  | EmptyString => EmptyString
  | String c r =>
      match skip with
      | S k => removeMatches here len k r
      | O =>
          if here s then removeMatches here len (len - 1) r
          else String c (removeMatches here len 0 r)
      end
  end.

(** [sql.replace(/```sql/gi, '').replace(/```/g, '')]. *)
Definition removeFences (sql : string) : string :=
  removeMatches (fun s => JS.startsWith s "```") 3 0
    (removeMatches (fun s => startsWithCI s "```sql") 6 0 sql).

(** The second pattern, and the text left once its matches are removed. *)
Definition fence (s : string) : bool := JS.startsWith s "```".

Definition unfenced (s : string) : string := removeMatches fence 3 0 s.

(** [result.response.trim()] with the code fences removed and trimmed
    again: the text whose lines are searched. *)
Definition cleaned (response : string) : string :=
  JS.trim (removeFences (JS.trim response)).

(** [line.trim().toUpperCase().startsWith('SELECT')]. *)
Definition isSelectLine (line : string) : bool :=
  JS.startsWith (JS.toUpperCase (JS.trim line)) "SELECT".

(** [lines.find(...) || sql], then [sql.trim()]: a line that is found is
    not empty. *)
Definition extractSQL (response : string) : string :=
  let sql := cleaned response in
  let lines := JS.split (ascii_of_nat 10) sql in
  JS.trim match find isSelectLine lines with
          | Some line => line
          | None => sql
          end.

Section Service.

Variable Rows : Type.

(** [generateResponse(prompt, options)], the call to the model; the second
    argument is [options.temperature], in tenths. *)
Variable generateResponse : string -> nat -> Task memoryService.Db Generated.

(** [x || 'None']. *)
Definition orNone (x : option string) : string :=
  match x with
  | Some s => if JS.truthy s then s else "None"
  | None => "None"
  end.

(** The prompt of [generateSQL]; a property of the context that is not set
    prints as [undefined]. *)
Definition sqlPrompt (context : rickController.Context Rows) : string :=
  "You are Rick, an AI assistant for teachers analyzing student data.

DATABASE SCHEMA:
" ++ match rickController.schema Rows context with
     | Some s => s
     | None => "undefined"
     end ++ "

RELEVANT MEMORIES:
" ++ orNone (rickController.ctx_memories Rows context) ++ "

CONVERSATION HISTORY:
" ++ orNone (rickController.conversationHistory Rows context) ++ "

TEACHER'S QUESTION: " ++ String memoryService.dquote
    (rickController.userMessage Rows context
       ++ String memoryService.dquote "") ++ "

Generate a valid MySQL SELECT query to answer this question.
Rules:
- ONLY return the SQL query, nothing else
- Query must filter by teacher_id
- Use proper MySQL syntax
- Do not include explanations or markdown
- Query should return relevant data to answer the question

SQL Query:".

Local Open Scope task_scope.

Definition generateSQL (context : rickController.Context Rows)
  : Task memoryService.Db rickController.SqlResult :=
  await result <- generateResponse (sqlPrompt context) 3 ;;
  if negb (success result) then
    ret (rickController.mkSqlResult false None (error result))
  else
    match response result with
    | None => throw "Cannot read properties of undefined (reading 'trim')"
    | Some text =>
        ret (rickController.mkSqlResult true (Some (extractSQL text)) None)
    end.

End Service.

End ollamaService.

(** ** backend/middleware/rickAuth.js *)

Module rickAuth.

(** [req.user] and [req.session], with the properties the middleware
    reads. *)
Record User := mkUser {
  teacher_id : option Z;
  name : option string;
  username : option string
}.

Record Session := mkSession {
  s_teacher_id : option Z;
  teacher_name : option string
}.

Record Request := mkRequest {
  user : option User;
  session : option Session
}.

(** What the middleware does: [next()] with [req.teacherId] and
    [req.teacherName] set, or the 401 body. *)
Inductive Outcome : Type :=
| Next (teacherId : Z) (teacherName : option string)
| Unauthorized (error : string).

(** Truthiness of a numeric id: neither missing nor zero. *)
Definition truthyId (x : option Z) : option Z :=
  match x with
  | Some z => if Z.eqb z 0 then None else Some z
  | None => None
  end.

(** [a || b] on strings that may be missing. *)
Definition orElse (a b : option string) : option string :=
  match a with
  | Some s => if JS.truthy s then Some s else b
  | None => b
  end.

Definition rickAuth (req : Request) : Outcome :=
  match match user req with
        | Some u => match truthyId (teacher_id u) with
                    | Some t => Some (Next t (orElse (name u) (username u)))
                    | None => None
                    end
        | None => None
        end with
  | Some done => done
  | None =>
      match match session req with
            | Some s => match truthyId (s_teacher_id s) with
                        | Some t => Some (Next t (teacher_name s))
                        | None => None
                        end
            | None => None
            end with
      | Some done => done
      | None => Unauthorized "Authentication required to use Rick AI"
      end
  end.

End rickAuth.

(** * Properties *)

(** ** The embedding on small inputs *)

Example split_keeps_empty_pieces : JS.split ";" "a;b;" = ["a"; "b"; ""].
Proof. reflexivity. Qed.

Example splitWs_runs : JS.splitWs false " a  b " = [""; "a"; "b"; ""].
Proof. reflexivity. Qed.

Example trim_both_ends : JS.trim "  a b  " = "a b".
Proof. reflexivity. Qed.

Example matchAllFrom_resumes_after_match :
  matchAllFrom 0 "select a from students, (select b FROM   grades) fromfrom x"
  = ["students"; "grades"; "x"].
Proof. reflexivity. Qed.

Example validateSQL_cites_table :
  validateSQL "SELECT * FROM Secrets WHERE teacher_id = 1" 1
  = mkValidation false (Some "Table 'secrets' is not allowed").
Proof. reflexivity. Qed.

Example validateSQL_select_only :
  validateSQL "  drop table students" 1
  = mkValidation false (Some "Only SELECT queries are allowed").
Proof. reflexivity. Qed.

Example sanitizeSQL_trailing_semicolon :
  sanitizeSQL " SELECT 1; " = "SELECT 1;".
Proof. reflexivity. Qed.

Example outsideLiterals_reads_literals :
  SqlSpec.outsideLiterals SqlSpec.Code
    "SELECT 'it''s', 'a\'b' FROM t WHERE c = 'x'"
  = "SELECT '''', '' FROM t WHERE c = ''" /\
  SqlSpec.hasWhereClause "SELECT a FROM t WHERE c = 'x'" = true /\
  SqlSpec.hasWhereClause "SELECT a, 'where' FROM t" = false.
Proof. repeat split; reflexivity. Qed.

Example capitalizedTokens_first_letter :
  TokenSpec.capitalizedTokens "  Joe, McDonald Al and JOE met Bob"
  = ["Joe,"; "McDonald"; "JOE"; "Bob"].
Proof. reflexivity. Qed.

Example extractStudentNames_shapes :
  extractStudentNames "  Joe, McDonald Al and JOE met Bob" = ["Bob"].
Proof. reflexivity. Qed.

Example matchQuickQuery_first_entry :
  rickController.matchQuickQuery "Who is failing and absent?"
  = Some "struggling_students".
Proof. reflexivity. Qed.

(** ** Code units and case maps *)

Ltac each_ascii c := destruct c as [[] [] [] [] [] [] [] []].

Lemma lower_upper (c : ascii) : JS.lower (JS.upper c) = JS.lower c.
Proof. each_ascii c; reflexivity. Qed.

Lemma upper_lower (c : ascii) : JS.upper (JS.lower c) = JS.upper c.
Proof. each_ascii c; reflexivity. Qed.

Lemma word_not_space (c : ascii) : JS.isWord c = true -> JS.isSpace c = false.
Proof. each_ascii c; vm_compute; congruence. Qed.

Lemma eqb_upper_lower (a b : ascii) :
  Ascii.eqb (JS.upper a) (JS.upper b) = Ascii.eqb (JS.lower a) (JS.lower b).
Proof.
  destruct (Ascii.eqb_spec (JS.upper a) (JS.upper b)) as [E | E];
    destruct (Ascii.eqb_spec (JS.lower a) (JS.lower b)) as [F | F];
    try reflexivity; exfalso; apply F || apply E.
  - rewrite <- (lower_upper a), <- (lower_upper b), E; reflexivity.
  - rewrite <- (upper_lower a), <- (upper_lower b), F; reflexivity.
Qed.

(** ** Strings *)

Lemma app_assoc_s (a b c : string) : (a ++ b) ++ c = a ++ (b ++ c).
Proof. induction a; simpl; congruence. Qed.

Lemma all_app (p : ascii -> bool) (a b : string) :
  JS.all p (a ++ b) = JS.all p a && JS.all p b.
Proof. induction a as [| c a IH]; simpl; [reflexivity |]. now rewrite IH, andb_assoc. Qed.

Lemma length_app (a b : string) :
  String.length (a ++ b) = String.length a + String.length b.
Proof. induction a; simpl; congruence. Qed.

Lemma toUpperCase_app (a b : string) :
  JS.toUpperCase (a ++ b) = JS.toUpperCase a ++ JS.toUpperCase b.
Proof. induction a; simpl; congruence. Qed.

Lemma toLowerCase_app (a b : string) :
  JS.toLowerCase (a ++ b) = JS.toLowerCase a ++ JS.toLowerCase b.
Proof. induction a; simpl; congruence. Qed.

Lemma toLowerCase_length (a : string) :
  String.length (JS.toLowerCase a) = String.length a.
Proof. induction a; simpl; congruence. Qed.

Lemma startsWith_app (p r : string) : JS.startsWith (p ++ r) p = true.
Proof.
  induction p as [| c p IH]; simpl; [reflexivity |].
  now rewrite Ascii.eqb_refl, IH.
Qed.

Lemma startsWith_inv (s p : string) :
  JS.startsWith s p = true -> exists r, s = p ++ r.
Proof.
  revert s; induction p as [| c p IH]; intros s H.
  - exists s; reflexivity.
  - destruct s as [| a s]; simpl in H; [discriminate |].
    apply andb_true_iff in H as [Hc Hs].
    apply Ascii.eqb_eq in Hc; subst a.
    destruct (IH _ Hs) as [r ->]. exists r; reflexivity.
Qed.

(** Only the [length p] first code units of a string decide [startsWith]. *)
Lemma startsWith_app_long (a c p : string) :
  String.length p <= String.length a ->
  JS.startsWith (a ++ c) p = JS.startsWith a p.
Proof.
  revert a; induction p as [| x p IH]; intros a H; [now destruct a |].
  destruct a as [| y a]; simpl in *; [lia |].
  rewrite IH by lia; reflexivity.
Qed.

Lemma includes_cons (c : ascii) (s p : string) :
  JS.includes s p = true -> JS.includes (String c s) p = true.
Proof. intros H; simpl; rewrite H; apply orb_true_r. Qed.

Lemma includes_app_l (a s p : string) :
  JS.includes s p = true -> JS.includes (a ++ s) p = true.
Proof. induction a; simpl; intros H; [assumption |]. rewrite IHa by assumption. apply orb_true_r. Qed.

Lemma includes_starts (s p : string) :
  JS.startsWith s p = true -> JS.includes s p = true.
Proof. intros H; destruct s; simpl in *; rewrite H; reflexivity. Qed.

(** An occurrence is included, wherever it stands. *)
Lemma includes_occurrence (pre occ post : string) :
  JS.includes (pre ++ occ ++ post) occ = true.
Proof. apply includes_app_l, includes_starts, startsWith_app. Qed.

Lemma startsWith_upper_lower (s p : string) :
  JS.startsWith (JS.toUpperCase s) (JS.toUpperCase p)
  = JS.startsWith (JS.toLowerCase s) (JS.toLowerCase p).
Proof.
  revert s; induction p as [| b p IH]; intros s; [reflexivity |].
  destruct s as [| a s]; simpl; [reflexivity |].
  now rewrite eqb_upper_lower, IH.
Qed.

Lemma startsWithCI_lower (s lit : string) :
  startsWithCI s lit = JS.startsWith (JS.toLowerCase s) (JS.toLowerCase lit).
Proof. apply startsWith_upper_lower. Qed.

(** ** The validator: blocked keywords *)

Lemma firstBlocked_hit (kws : list string) (upperSQL keyword : string) :
  In keyword kws -> JS.includes upperSQL keyword = true ->
  exists k, firstBlocked kws upperSQL = Some k.
Proof.
  intros Hin Hk. unfold firstBlocked.
  destruct (find _ kws) as [k |] eqn:E; [now exists k |].
  apply (find_none _ _ E) in Hin. simpl in Hin. congruence.
Qed.

(** C7.  A statement in which a blocked keyword occurs, in any letter case
    and at any position ([occ] is the occurrence, [pre] and [post] what
    surrounds it), is rejected by [validateSQL]. *)
Theorem validateSQL_rejects_blocked_keyword :
  forall (sql : string) (teacherId : Z) (keyword pre occ post : string),
    In keyword config.blockedKeywords ->
    JS.toUpperCase occ = keyword ->
    sql = pre ++ occ ++ post ->
    valid (validateSQL sql teacherId) = false.
Proof.
  intros sql teacherId keyword pre occ post Hin Hocc ->.
  unfold validateSQL.
  destruct (negb (JS.startsWith _ "SELECT")); [reflexivity |].
  destruct (firstBlocked_hit config.blockedKeywords
              (JS.toUpperCase (pre ++ occ ++ post)) keyword Hin) as [k ->];
    [| reflexivity].
  rewrite !toUpperCase_app, Hocc. apply includes_occurrence.
Qed.

Lemma validateSQL_rejects_blocked_keyword_witness :
  In "DELETE" config.blockedKeywords /\
  JS.toUpperCase "dElEtE" = "DELETE" /\
  valid (validateSQL
           "SELECT name FROM students WHERE teacher_id = 3 AND id IN (dElEtE)" 3)
  = false.
Proof.
  split; [simpl; tauto |]. split; [reflexivity |].
  apply (validateSQL_rejects_blocked_keyword _ 3 "DELETE"
           "SELECT name FROM students WHERE teacher_id = 3 AND id IN ("
           "dElEtE" ")");
    [simpl; tauto | reflexivity | reflexivity].
Defined.

(** ** The sanitizer: statements separated by semicolons *)

Lemma split_nonempty (sep : ascii) (s : string) : JS.split sep s <> [].
Proof.
  induction s as [| c s IH]; simpl; [discriminate |].
  destruct (Ascii.eqb c sep); [discriminate |].
  destruct (JS.split sep s); [contradiction | discriminate].
Qed.

(** [(a + sep + b).split(sep)] is [a.split(sep)] followed by [b.split(sep)]. *)
Lemma split_app_sep (sep : ascii) (a b : string) :
  JS.split sep (a ++ String sep b) = (JS.split sep a ++ JS.split sep b)%list.
Proof.
  induction a as [| c a IH]; simpl.
  - now rewrite Ascii.eqb_refl.
  - destruct (Ascii.eqb c sep); [now rewrite IH |].
    rewrite IH. pose proof (split_nonempty sep a) as Hne.
    destruct (JS.split sep a); [contradiction | reflexivity].
Qed.

Lemma split_no_sep (sep : ascii) (s : string) :
  JS.includes s (String sep "") = false -> JS.split sep s = [s].
Proof.
  induction s as [| c s IH]; simpl; intros H; [reflexivity |].
  apply orb_false_iff in H as [Hc Hs].
  rewrite andb_true_r in Hc. rewrite Hc, (IH Hs). reflexivity.
Qed.

Lemma statementsOf_app (a b : string) :
  statementsOf (a ++ ";" ++ b) = (statementsOf a ++ statementsOf b)%list.
Proof.
  unfold statementsOf. simpl (";" ++ b).
  now rewrite split_app_sep, filter_app.
Qed.

Lemma statementsOf_single (s : string) :
  JS.includes s ";" = false -> JS.truthy (JS.trim s) = true ->
  statementsOf s = [s].
Proof.
  intros Hs Hn. unfold statementsOf.
  rewrite (split_no_sep ";" s Hs). simpl. now rewrite Hn.
Qed.

(** A first statement without semicolon, followed by a semicolon and text
    that holds another statement, is what remains. *)
Lemma sanitizeSQL_drops_tail (first tail : string) :
  JS.includes first ";" = false -> JS.truthy (JS.trim first) = true ->
  statementsOf tail <> [] ->
  sanitizeSQL (first ++ ";" ++ tail) = first.
Proof.
  intros Hs Hn Ht. unfold sanitizeSQL.
  rewrite statementsOf_app, (statementsOf_single first Hs Hn).
  destruct (statementsOf tail); [contradiction | reflexivity].
Qed.

(** C1, as the code has it.  When [sql] holds more than one non-empty
    statement ([first] followed by [rest]), the pipeline does not reject it
    on that ground: [sanitizeSQL] keeps [first], the other statements are
    dropped unseen, and the outcome is that of validating and filtering
    [first] alone.  The input of the scenario is rejected, by the check of
    the isolation column on its first statement. *)
Theorem validateAndPrepareSQL_keeps_first_statement :
  (forall (sql : string) (teacherId : Z) (first : string) (rest : list string),
      statementsOf sql = first :: rest ->
      rest <> [] ->
      sanitizeSQL sql = first /\
      validateAndPrepareSQL sql teacherId =
        if valid (validateSQL first teacherId)
        then mkPrepared true None (Some (injectTeacherFilter first teacherId))
        else mkPrepared false (error (validateSQL first teacherId)) None) /\
  (forall teacherId : Z,
      sanitizeSQL "SELECT * FROM students; DROP TABLE grades;"
      = "SELECT * FROM students" /\
      validateAndPrepareSQL "SELECT * FROM students; DROP TABLE grades;" teacherId
      = mkPrepared false (Some "Query must filter by teacher_id") None).
Proof.
  split.
  - intros sql teacherId first rest Hst Hrest.
    assert (Hs : sanitizeSQL sql = first).
    { unfold sanitizeSQL. rewrite Hst. destruct rest; [contradiction | reflexivity]. }
    split; [exact Hs |].
    unfold validateAndPrepareSQL. rewrite Hs.
    destruct (valid (validateSQL first teacherId)); reflexivity.
  - intros teacherId. split; reflexivity.
Qed.

Lemma validateAndPrepareSQL_keeps_first_statement_witness :
  statementsOf "SELECT * FROM students WHERE teacher_id = 1; DROP TABLE grades;"
  = ["SELECT * FROM students WHERE teacher_id = 1"; " DROP TABLE grades"] /\
  validateAndPrepareSQL
    "SELECT * FROM students WHERE teacher_id = 1; DROP TABLE grades;" 1
  = mkPrepared true None
      (Some "SELECT * FROM students WHERE teacher_id = 1 AND teacher_id = 1").
Proof.
  split; [reflexivity |].
  destruct validateAndPrepareSQL_keeps_first_statement as [H _].
  destruct (H "SELECT * FROM students WHERE teacher_id = 1; DROP TABLE grades;"
              1%Z "SELECT * FROM students WHERE teacher_id = 1"
              [" DROP TABLE grades"]) as [_ E];
    [reflexivity | discriminate |].
  rewrite E. reflexivity.
Defined.

(** C1, as the specification states it, fails: a second, destructive
    statement follows a valid first one and the input is accepted. *)
Lemma multi_statement_accepted :
  (1 < List.length
         (statementsOf
            "SELECT * FROM students WHERE teacher_id = 1; DROP TABLE grades;"))%nat /\
  success
    (validateAndPrepareSQL
       "SELECT * FROM students WHERE teacher_id = 1; DROP TABLE grades;" 1)
  = true.
Proof. split; [vm_compute; lia | reflexivity]. Qed.

(** ** The injector: what the two replacements do *)

Lemma drop_app (a b : string) : JS.drop (String.length a) (a ++ b) = b.
Proof. induction a; simpl; [now destruct b | assumption]. Qed.

Lemma length_drop (n : nat) (s : string) :
  n <= String.length s -> String.length (JS.drop n s) = String.length s - n.
Proof.
  revert s; induction n as [| n IH]; intros s H; simpl.
  - lia.
  - destruct s as [| c s]; simpl in *; [lia | apply IH; lia].
Qed.

Lemma startsWith_length (s p : string) :
  JS.startsWith s p = true -> String.length p <= String.length s.
Proof.
  intros H. destruct (startsWith_inv _ _ H) as [r ->].
  rewrite length_app. lia.
Qed.

Lemma span_app (p : ascii -> bool) (a b : string) :
  JS.all p a = true -> headIs p b = false -> JS.span p (a ++ b) = (a, b).
Proof.
  intros Ha Hb. induction a as [| c a IH]; simpl in *.
  - destruct b as [| x b]; simpl in *; [reflexivity | now rewrite Hb].
  - apply andb_true_iff in Ha as [Hc Ha]. now rewrite Hc, (IH Ha).
Qed.

Lemma replaceWhere_here (s repl : string) :
  startsWithCI s "where" = true ->
  replaceWhere s repl = repl ++ JS.drop 5 s.
Proof.
  intros H. destruct s as [| c r]; [discriminate |].
  cbn [replaceWhere]. now rewrite H.
Qed.

Lemma replaceWhere_later (c : ascii) (r repl : string) :
  startsWithCI (String c r) "where" = false ->
  replaceWhere (String c r) repl = String c (replaceWhere r repl).
Proof. intros H. cbn [replaceWhere]. now rewrite H. Qed.

(** When [where] does not occur in [lower ++ "wher"], it does not occur at
    the first position of [lower] followed by [where]. *)
Lemma no_where_at_head (c : ascii) (pre post : string) :
  JS.startsWith (String c (pre ++ "wher")) "where" = false ->
  JS.startsWith (String c (pre ++ "where" ++ post)) "where" = false.
Proof.
  intros H.
  change ("where" ++ post) with ("wher" ++ ("e" ++ post)).
  rewrite <- app_assoc_s.
  change (String c ((pre ++ "wher") ++ "e" ++ post))
    with (String c (pre ++ "wher") ++ ("e" ++ post)).
  rewrite startsWith_app_long; [exact H |].
  cbn [String.length]. rewrite length_app. simpl. lia.
Qed.

(** The leftmost occurrence of [where], in any letter case, is replaced. *)
Lemma replaceWhere_first (pre w post repl : string) :
  JS.toLowerCase w = "where" ->
  JS.includes (JS.toLowerCase pre ++ "wher") "where" = false ->
  replaceWhere (pre ++ w ++ post) repl = pre ++ repl ++ post.
Proof.
  intros Hw. induction pre as [| c pre IH]; intros Hpre.
  - assert (Hlen : String.length w = 5)
      by (rewrite <- toLowerCase_length, Hw; reflexivity).
    assert (Hs : startsWithCI (w ++ post) "where" = true).
    { rewrite startsWithCI_lower, toLowerCase_app, Hw. apply startsWith_app. }
    cbn [append]. rewrite (replaceWhere_here _ _ Hs).
    rewrite <- Hlen, drop_app. reflexivity.
  - cbn [JS.toLowerCase append JS.includes] in Hpre.
    apply orb_false_iff in Hpre as [Hhere Hlater].
    cbn [append]. rewrite replaceWhere_later.
    + now rewrite (IH Hlater).
    + rewrite startsWithCI_lower. cbn [JS.toLowerCase].
      rewrite !toLowerCase_app, Hw.
      now apply no_where_at_head.
Qed.

Lemma matchFromHere_match (f ws tbl post : string) :
  JS.toLowerCase f = "from" ->
  ws <> "" -> JS.all JS.isSpace ws = true ->
  tbl <> "" -> JS.all JS.isWord tbl = true ->
  headIs JS.isWord post = false ->
  matchFromHere (f ++ ws ++ tbl ++ post) = Some (tbl, post).
Proof.
  intros Hf Hws Hsp Htbl Hw Hpost. unfold matchFromHere.
  assert (Hlen : String.length f = 4)
    by (rewrite <- toLowerCase_length, Hf; reflexivity).
  rewrite startsWithCI_lower, toLowerCase_app, Hf, startsWith_app.
  rewrite <- Hlen, drop_app.
  rewrite (span_app JS.isSpace ws (tbl ++ post) Hsp).
  - destruct ws; [contradiction |].
    rewrite (span_app JS.isWord tbl post Hw Hpost).
    destruct tbl; [contradiction | reflexivity].
  - destruct tbl as [| x tbl]; [contradiction |]. simpl in *.
    apply andb_true_iff in Hw as [Hx _]. now apply word_not_space.
Qed.

(** The leftmost match of [/from\s+(\w+)/i] is replaced. *)
Lemma replaceFrom_first (pre s w rest before after : string) :
  matchFromHere s = Some (w, rest) ->
  noFromMatchWithin pre s = true ->
  replaceFrom (pre ++ s) before after = pre ++ before ++ w ++ after ++ rest.
Proof.
  intros Hm. induction pre as [| c pre IH]; intros Hpre.
  - simpl ("" ++ _). destruct s as [| x s]; [discriminate |].
    simpl replaceFrom. now rewrite Hm.
  - simpl in Hpre.
    change (String c pre ++ s) with (String c (pre ++ s)) in *.
    simpl replaceFrom.
    destruct (matchFromHere (String c (pre ++ s))); [discriminate |].
    now rewrite (IH Hpre).
Qed.

Lemma inject_where (pre w post : string) (teacherId : Z) :
  JS.toLowerCase w = "where" ->
  JS.includes (JS.toLowerCase pre ++ "wher") "where" = false ->
  injectTeacherFilter (pre ++ w ++ post) teacherId
  = pre ++ "WHERE teacher_id = " ++ JS.ofZ teacherId ++ " AND" ++ post.
Proof.
  intros Hw Hpre. unfold injectTeacherFilter.
  assert (Hin : JS.includes (JS.toLowerCase (pre ++ w ++ post)) "where" = true).
  { rewrite !toLowerCase_app, Hw. apply includes_occurrence. }
  rewrite Hin, (replaceWhere_first pre w post _ Hw Hpre).
  now rewrite !app_assoc_s.
Qed.

Lemma inject_from (pre f ws tbl post : string) (teacherId : Z) :
  JS.includes (JS.toLowerCase (pre ++ f ++ ws ++ tbl ++ post)) "where" = false ->
  JS.toLowerCase f = "from" ->
  ws <> "" -> JS.all JS.isSpace ws = true ->
  tbl <> "" -> JS.all JS.isWord tbl = true ->
  headIs JS.isWord post = false ->
  noFromMatchWithin pre (f ++ ws ++ tbl ++ post) = true ->
  injectTeacherFilter (pre ++ f ++ ws ++ tbl ++ post) teacherId
  = pre ++ "FROM " ++ tbl ++ " WHERE teacher_id = " ++ JS.ofZ teacherId ++ post.
Proof.
  intros Hnw Hf Hws Hsp Htbl Hw Hpost Hpre. unfold injectTeacherFilter.
  rewrite Hnw.
  assert (Hin : JS.includes (JS.toLowerCase (pre ++ f ++ ws ++ tbl ++ post))
                  "from" = true).
  { rewrite !toLowerCase_app, Hf. apply includes_occurrence. }
  rewrite Hin.
  rewrite (replaceFrom_first pre _ tbl post _ _
             (matchFromHere_match f ws tbl post Hf Hws Hsp Htbl Hw Hpost) Hpre).
  now rewrite !app_assoc_s.
Qed.

(** The two rewritings, on the text.  When the statement holds [where] (in
    any letter case; [w] is its leftmost occurrence, wherever it stands),
    that occurrence becomes [WHERE teacher_id = <tenant> AND].  Otherwise,
    when [f ws tbl] is the leftmost [FROM <table>], it becomes
    [FROM <table> WHERE teacher_id = <tenant>].  The predicate is written
    with a space on either side of the equals sign. *)
Lemma injectTeacherFilter_places_predicate :
  (forall (pre w post : string) (teacherId : Z),
      JS.toLowerCase w = "where" ->
      JS.includes (JS.toLowerCase pre ++ "wher") "where" = false ->
      injectTeacherFilter (pre ++ w ++ post) teacherId
      = pre ++ "WHERE teacher_id = " ++ JS.ofZ teacherId ++ " AND" ++ post) /\
  (forall (pre f ws tbl post : string) (teacherId : Z),
      JS.includes (JS.toLowerCase (pre ++ f ++ ws ++ tbl ++ post)) "where"
      = false ->
      JS.toLowerCase f = "from" ->
      ws <> "" -> JS.all JS.isSpace ws = true ->
      tbl <> "" -> JS.all JS.isWord tbl = true ->
      headIs JS.isWord post = false ->
      noFromMatchWithin pre (f ++ ws ++ tbl ++ post) = true ->
      injectTeacherFilter (pre ++ f ++ ws ++ tbl ++ post) teacherId
      = pre ++ "FROM " ++ tbl ++ " WHERE teacher_id = " ++ JS.ofZ teacherId
            ++ post) /\
  injectTeacherFilter "SELECT name FROM students" 42
  = "SELECT name FROM students WHERE teacher_id = 42".
Proof.
  split; [exact inject_where |]. split; [exact inject_from | reflexivity].
Qed.

Lemma injectTeacherFilter_places_predicate_witness :
  injectTeacherFilter "SELECT name FROM students wHeRe grade > 3" 42
  = "SELECT name FROM students WHERE teacher_id = 42 AND grade > 3" /\
  injectTeacherFilter "SELECT fromage from  grades ORDER BY fromage" 42
  = "SELECT fromage FROM grades WHERE teacher_id = 42 ORDER BY fromage".
Proof.
  destruct injectTeacherFilter_places_predicate as (Hwhere & Hfrom & _).
  split.
  - apply (Hwhere "SELECT name FROM students " "wHeRe" " grade > 3" 42%Z);
      reflexivity.
  - apply (Hfrom "SELECT fromage " "from" "  " "grades" " ORDER BY fromage"
             42%Z);
      try reflexivity; discriminate.
Defined.

(** The statement of the scenario comes out with the spaces of the
    template, not as the text written without them. *)
Lemma scenario_text_differs :
  injectTeacherFilter "SELECT name FROM students" 42
  <> "SELECT name FROM students WHERE teacher_id=42".
Proof. vm_compute. discriminate. Qed.

(** ** The injector and the literals of a statement *)

Lemma stateAfter_app (st : SqlSpec.Lexical) (a b : string) :
  SqlSpec.stateAfter st (a ++ b)
  = SqlSpec.stateAfter (SqlSpec.stateAfter st a) b.
Proof. revert st. induction a as [| c a IH]; intros st; simpl; auto. Qed.

Lemma outsideLiterals_app (st : SqlSpec.Lexical) (a b : string) :
  SqlSpec.outsideLiterals st (a ++ b)
  = SqlSpec.outsideLiterals st a
    ++ SqlSpec.outsideLiterals (SqlSpec.stateAfter st a) b.
Proof.
  revert st. induction a as [| c a IH]; intros st; [reflexivity |].
  cbn [append SqlSpec.outsideLiterals SqlSpec.stateAfter]. rewrite IH.
  destruct st; [reflexivity | | reflexivity].
  now destruct (Ascii.eqb c "'").
Qed.

(** Plain code units inside a literal stay inside it and are not part of
    the statement around it. *)
Lemma plain_inside (x : string) :
  JS.all SqlSpec.plain x = true ->
  SqlSpec.stateAfter SqlSpec.Literal x = SqlSpec.Literal /\
  SqlSpec.outsideLiterals SqlSpec.Literal x = "".
Proof.
  induction x as [| c x IH]; [now split |].
  cbn [JS.all]. intros H. apply andb_true_iff in H as [Hc Hx].
  unfold SqlSpec.plain in Hc. apply andb_true_iff in Hc as [H1 H2].
  apply negb_true_iff in H1, H2.
  cbn [SqlSpec.stateAfter SqlSpec.outsideLiterals SqlSpec.next].
  rewrite H1, H2. now apply IH.
Qed.

Lemma literal_text_ignored (pre x post : string) :
  SqlSpec.stateAfter SqlSpec.Code pre = SqlSpec.Literal ->
  JS.all SqlSpec.plain x = true ->
  SqlSpec.outsideLiterals SqlSpec.Code (pre ++ x ++ post)
  = SqlSpec.outsideLiterals SqlSpec.Code pre
    ++ SqlSpec.outsideLiterals SqlSpec.Literal post.
Proof.
  intros Hpre Hx. destruct (plain_inside x Hx) as [Hs Ho].
  now rewrite outsideLiterals_app, Hpre, outsideLiterals_app, Hs, Ho.
Qed.

Lemma plain_lower (c : ascii) : SqlSpec.plain (JS.lower c) = SqlSpec.plain c.
Proof. each_ascii c; reflexivity. Qed.

Lemma plain_toLowerCase (s : string) :
  JS.all SqlSpec.plain (JS.toLowerCase s) = JS.all SqlSpec.plain s.
Proof.
  induction s as [| c s IH]; simpl; [reflexivity |].
  now rewrite plain_lower, IH.
Qed.

Lemma plain_uint (d : Decimal.uint) :
  JS.all SqlSpec.plain (NilEmpty.string_of_uint d) = true.
Proof. induction d; simpl; auto. Qed.

(** The numeral of a tenant holds digits and a sign only. *)
Lemma plain_ofZ (z : Z) : JS.all SqlSpec.plain (JS.ofZ z) = true.
Proof.
  unfold JS.ofZ, NilZero.string_of_int, NilZero.string_of_uint.
  destruct (Z.to_int z) as [d | d]; destruct d; simpl; auto using plain_uint.
Qed.

(** C5, on the code.  The injector looks for the text [where], not for the
    clause.  When the leftmost [where] of a statement stands inside a
    string literal, the predicate is written inside that literal and the
    statement outside its literals is what it was: nothing is conjoined to
    a WHERE clause and none is appended after the table.  The statement
    [SELECT name, 'where' AS w, teacher_id FROM students] is found valid
    and has no WHERE clause; for tenant 42 the injector, and the pipeline
    with it, return it with the literal rewritten and still without a
    WHERE clause. *)
Theorem injectTeacherFilter_rewrites_literal :
  (forall (pre w post : string) (teacherId : Z),
      JS.toLowerCase w = "where" ->
      JS.includes (JS.toLowerCase pre ++ "wher") "where" = false ->
      SqlSpec.stateAfter SqlSpec.Code pre = SqlSpec.Literal ->
      SqlSpec.outsideLiterals SqlSpec.Code
        (injectTeacherFilter (pre ++ w ++ post) teacherId)
      = SqlSpec.outsideLiterals SqlSpec.Code (pre ++ w ++ post)) /\
  valid (validateSQL "SELECT name, 'where' AS w, teacher_id FROM students" 42)
  = true /\
  SqlSpec.hasWhereClause "SELECT name, 'where' AS w, teacher_id FROM students"
  = false /\
  injectTeacherFilter "SELECT name, 'where' AS w, teacher_id FROM students" 42
  = "SELECT name, 'WHERE teacher_id = 42 AND' AS w, teacher_id FROM students" /\
  SqlSpec.hasWhereClause
    (injectTeacherFilter "SELECT name, 'where' AS w, teacher_id FROM students"
       42)
  = false /\
  validateAndPrepareSQL "SELECT name, 'where' AS w, teacher_id FROM students" 42
  = mkPrepared true None
      (Some "SELECT name, 'WHERE teacher_id = 42 AND' AS w, teacher_id FROM students").
Proof.
  split; [| repeat split; reflexivity].
  intros pre w post teacherId Hw Hpre Hlit.
  rewrite (inject_where pre w post teacherId Hw Hpre).
  rewrite (literal_text_ignored pre w post Hlit).
  - replace ("WHERE teacher_id = " ++ JS.ofZ teacherId ++ " AND" ++ post)
      with (("WHERE teacher_id = " ++ JS.ofZ teacherId ++ " AND") ++ post)
      by now rewrite !app_assoc_s.
    apply literal_text_ignored; [exact Hlit |].
    now rewrite !all_app, plain_ofZ.
  - now rewrite <- plain_toLowerCase, Hw.
Qed.

Lemma injectTeacherFilter_rewrites_literal_witness :
  SqlSpec.outsideLiterals SqlSpec.Code
    (injectTeacherFilter
       "SELECT name, teacher_id FROM students ORDER BY 'nowhere'" 7)
  = "SELECT name, teacher_id FROM students ORDER BY ''".
Proof.
  exact (proj1 injectTeacherFilter_rewrites_literal
           "SELECT name, teacher_id FROM students ORDER BY 'no" "where" "'"
           7%Z eq_refl eq_refl eq_refl).
Defined.

(** ** The injector applied twice *)

Lemma startsWithCI_where (c : ascii) (s : string) :
  startsWithCI (String c s) "where"
  = JS.startsWith (String (JS.lower c) (JS.toLowerCase s)) "where".
Proof. now rewrite startsWithCI_lower. Qed.

Lemma replaceWhere_length (s repl : string) :
  JS.includes (JS.toLowerCase s) "where" = true ->
  String.length (replaceWhere s repl) + 5
  = String.length s + String.length repl.
Proof.
  induction s as [| c s IH]; intros H; [discriminate |].
  destruct (startsWithCI (String c s) "where") eqn:E.
  - rewrite (replaceWhere_here _ _ E), length_app.
    rewrite startsWithCI_lower in E. apply startsWith_length in E.
    rewrite !toLowerCase_length in E. change (String.length "where") with 5 in E.
    rewrite length_drop by exact E. lia.
  - rewrite (replaceWhere_later _ _ _ E).
    cbn [JS.toLowerCase JS.includes] in H.
    rewrite startsWithCI_where in E. rewrite E in H. cbn [orb] in H.
    specialize (IH H). cbn [String.length]. lia.
Qed.

Lemma replaceWhere_includes (s tail : string) :
  JS.includes (JS.toLowerCase s) "where" = true ->
  JS.includes (JS.toLowerCase (replaceWhere s ("WHERE" ++ tail))) "where"
  = true.
Proof.
  induction s as [| c s IH]; intros H; [discriminate |].
  destruct (startsWithCI (String c s) "where") eqn:E.
  - rewrite (replaceWhere_here _ _ E), app_assoc_s, toLowerCase_app.
    apply includes_starts.
    change (JS.toLowerCase "WHERE") with "where". apply startsWith_app.
  - rewrite (replaceWhere_later _ _ _ E).
    cbn [JS.toLowerCase JS.includes] in H.
    rewrite startsWithCI_where in E. rewrite E in H. cbn [orb] in H.
    cbn [JS.toLowerCase]. apply includes_cons, IH, H.
Qed.

Lemma replaceFrom_changed (s before tail : string) :
  replaceFrom s before (" WHERE" ++ tail) = s \/
  JS.includes (JS.toLowerCase (replaceFrom s before (" WHERE" ++ tail)))
    "where" = true.
Proof.
  induction s as [| c s IH]; [now left |].
  cbn [replaceFrom].
  destruct (matchFromHere (String c s)) as [[w rest] |].
  - right. rewrite !toLowerCase_app.
    do 2 apply includes_app_l.
    change (JS.toLowerCase " WHERE") with (" " ++ "where").
    rewrite !app_assoc_s. apply includes_app_l, includes_starts, startsWith_app.
  - destruct IH as [IH | IH]; [left; now rewrite IH |].
    right. cbn [JS.toLowerCase]. now apply includes_cons.
Qed.

(** A statement that the injector changes holds [where] afterwards. *)
Lemma inject_changed_has_where (s : string) (teacherId : Z) :
  injectTeacherFilter s teacherId <> s ->
  JS.includes (JS.toLowerCase (injectTeacherFilter s teacherId)) "where" = true.
Proof.
  unfold injectTeacherFilter.
  destruct (JS.includes (JS.toLowerCase s) "where") eqn:Hw.
  - intros _. now apply (replaceWhere_includes s).
  - destruct (JS.includes (JS.toLowerCase s) "from"); [| congruence].
    intros Hne.
    destruct (replaceFrom_changed s "FROM "
                (" teacher_id = " ++ JS.ofZ teacherId)) as [E | E];
      [contradiction | exact E].
Qed.

(** A statement that holds [where] grows under the injector. *)
Lemma inject_where_grows (s : string) (teacherId : Z) :
  JS.includes (JS.toLowerCase s) "where" = true ->
  String.length s < String.length (injectTeacherFilter s teacherId).
Proof.
  intros H. unfold injectTeacherFilter. rewrite H.
  pose proof (replaceWhere_length s
                ("WHERE teacher_id = " ++ JS.ofZ teacherId ++ " AND") H) as L.
  rewrite length_app in L. cbn [String.length] in L. lia.
Qed.

(** C6, as the code has it.  The injector is idempotent exactly on the
    statements it leaves unchanged: once it has written the predicate, a
    second application for the same tenant writes it again, and the
    statement of the scenario ends up with the predicate twice. *)
Theorem injectTeacherFilter_twice :
  (forall (sql : string) (teacherId : Z),
      injectTeacherFilter (injectTeacherFilter sql teacherId) teacherId
      = injectTeacherFilter sql teacherId
      <-> injectTeacherFilter sql teacherId = sql) /\
  injectTeacherFilter (injectTeacherFilter "SELECT name FROM students" 42) 42
  = "SELECT name FROM students WHERE teacher_id = 42 AND teacher_id = 42".
Proof.
  split; [| reflexivity].
  intros sql teacherId. split.
  - intros E.
    destruct (string_dec (injectTeacherFilter sql teacherId) sql) as [D | D];
      [exact D | exfalso].
    pose proof (inject_where_grows _ teacherId
                  (inject_changed_has_where sql teacherId D)) as L.
    rewrite E in L. lia.
  - intros E. now rewrite !E.
Qed.

(** C6, as the specification states it, fails: the second application
    changes the statement produced by the first. *)
Lemma second_injection_differs :
  injectTeacherFilter (injectTeacherFilter "SELECT name FROM students" 42) 42
  <> injectTeacherFilter "SELECT name FROM students" 42.
Proof. vm_compute. discriminate. Qed.

(** ** The tokens of a text *)














(** ** The memory store *)

Module MemoryStoreFacts.

Import memoryService MemorySpec.

Lemma In_insertDesc (x y : Joined) (l : list Joined) :
  In x (insertDesc y l) <-> x = y \/ In x l.
Proof.
  induction l as [| z l IH]; simpl.
  - intuition auto.
  - destruct (Z.leb _ _); simpl; [intuition auto |].
    rewrite IH. intuition auto.
Qed.

Lemma In_orderByCreatedDesc (x : Joined) (l : list Joined) :
  In x (orderByCreatedDesc l) <-> In x l.
Proof.
  induction l as [| y l IH]; simpl; [tauto |].
  rewrite In_insertDesc, IH. intuition auto.
Qed.

Lemma insertDesc_sorted (x : Joined) (l : list Joined) :
  newestFirst l -> newestFirst (insertDesc x l).
Proof.
  unfold newestFirst. induction 1 as [| y l Hl IH Hy]; simpl.
  - constructor; constructor.
  - destruct (Z.leb_spec (created_at (m y)) (created_at (m x))) as [L | L].
    + constructor; [now constructor |].
      constructor; [exact L |].
      eapply Forall_impl; [| exact Hy]. simpl. intros; lia.
    + constructor; [exact IH |].
      apply Forall_forall. intros z Hz.
      apply In_insertDesc in Hz as [-> | Hz]; [lia |].
      now apply (proj1 (Forall_forall _ _) Hy).
Qed.

Lemma orderByCreatedDesc_sorted (l : list Joined) :
  newestFirst (orderByCreatedDesc l).
Proof.
  induction l; simpl; [constructor | now apply insertDesc_sorted].
Qed.

Lemma In_firstn {A} (x : A) (n : nat) (l : list A) :
  In x (firstn n l) -> In x l.
Proof.
  revert n; induction l as [| y l IH]; intros [| n]; simpl; try tauto.
  intros [-> | H]; [now left | right; eauto].
Qed.

Lemma firstn_sorted {A} (R : A -> A -> Prop) (n : nat) (l : list A) :
  StronglySorted R l -> StronglySorted R (firstn n l).
Proof.
  intros H. revert n. induction H as [| x l Hl IH Hx]; intros [| n]; simpl;
    try constructor; [apply IH |].
  apply Forall_forall. intros y Hy. apply In_firstn in Hy.
  now apply (proj1 (Forall_forall _ _) Hx).
Qed.

Lemma In_leftJoin (j : Joined) (ms : list MemoryRow) (ss : list StudentRow) :
  In j (leftJoin ms ss) -> In (m j) ms.
Proof.
  unfold leftJoin. rewrite in_flat_map. intros (r & Hr & Hj).
  destruct (filter _ ss) as [| s hits].
  - destruct Hj as [<- | []]. exact Hr.
  - apply in_map_iff in Hj as (s' & <- & _). exact Hr.
Qed.

Lemma leftJoin_complete (r : MemoryRow) (ms : list MemoryRow)
    (ss : list StudentRow) :
  In r ms -> exists j, In j (leftJoin ms ss) /\ m j = r.
Proof.
  intros Hr. unfold leftJoin.
  destruct (filter (fun s => optZ_eqb (student_id r) (s_id s)) ss)
    as [| s hits] eqn:E.
  - exists (mkJoined r None). split; [| reflexivity].
    apply in_flat_map. exists r. split; [exact Hr |]. rewrite E. now left.
  - exists (mkJoined r (Some (s_name s))). split; [| reflexivity].
    apply in_flat_map. exists r. split; [exact Hr |]. rewrite E. now left.
Qed.

Lemma sorted_app_inv {A} (R : A -> A -> Prop) (a b : list A) :
  StronglySorted R (a ++ b)%list ->
  forall x y, In x a -> In y b -> R x y.
Proof.
  induction a as [| z a IH]; simpl; intros Hs x y Hx Hy; [contradiction |].
  apply StronglySorted_inv in Hs as [Hs Hz].
  destruct Hx as [-> | Hx]; [| now apply IH].
  apply (proj1 (Forall_forall _ _) Hz), in_or_app. now right.
Qed.

(** What [LIMIT n] leaves out of an ordered list comes after what it keeps. *)
Lemma firstn_keeps_first {A} (R : A -> A -> Prop) (n : nat) (l : list A) (y : A) :
  StronglySorted R l -> In y l ->
  In y (firstn n l) \/
  (List.length (firstn n l) = n /\ forall x, In x (firstn n l) -> R x y).
Proof.
  intros Hs Hy. rewrite <- (firstn_skipn n l) in Hs, Hy.
  apply in_app_or in Hy as [Hy | Hy]; [now left | right]. split.
  - apply firstn_length_le.
    destruct (Nat.le_gt_cases n (List.length l)) as [L | L]; [exact L |].
    rewrite skipn_all2 in Hy by lia. contradiction.
  - intros x Hx. exact (sorted_app_inv R _ _ Hs x y Hx Hy).
Qed.

Section Facts.

Variable LIKE : string -> string -> bool.
Variable JSON_parse : string -> string + list string.

(** Building the objects leaves the store alone; when it succeeds there is
    one object for each row, in order. *)
Lemma toMemories_spec (rows : list Joined) (db : Db) :
  (exists ms, toMemories JSON_parse rows db = (Normal ms, db)
              /\ Forall2 builtFrom rows ms) \/
  (exists e, toMemories JSON_parse rows db = (Throw e, db)).
Proof.
  induction rows as [| j rows IH]; simpl.
  - left. exists []. split; [reflexivity | constructor].
  - destruct (parseTags JSON_parse (tags (m j))) as [e | ts].
    + right. now exists e.
    + unfold bind. destruct IH as [(ms & -> & HF) | (e & ->)].
      * left. eexists. split; [reflexivity |].
        constructor; [| exact HF]. repeat split.
      * right. now exists e.
Qed.

Lemma toMemories_success (rows : list Joined) (db : Db) :
  Forall (fun j => exists ts, parseTags JSON_parse (tags (m j)) = inr ts) rows ->
  exists ms, toMemories JSON_parse rows db = (Normal ms, db).
Proof.
  induction 1 as [| j rows [ts Hj] _ [ms IH]]; simpl.
  - now exists [].
  - rewrite Hj. unfold bind. rewrite IH. eexists; reflexivity.
Qed.

Lemma built_sorted (rows : list Joined) (ms : list Memory) :
  Forall2 builtFrom rows ms -> newestFirst rows -> recentFirst ms.
Proof.
  unfold newestFirst, recentFirst.
  induction 1 as [| j mem rows ms Hb HF IH]; intros Hs; [constructor |].
  apply StronglySorted_inv in Hs as [Hs Hj].
  constructor; [now apply IH |].
  clear IH Hs. induction HF as [| j' mem' rows ms Hb' HF IH]; [constructor |].
  apply Forall_cons_iff in Hj as [Hj' Hj].
  constructor; [| now apply IH].
  destruct Hb as (_ & _ & _ & ->), Hb' as (_ & _ & _ & ->). exact Hj'.
Qed.

Lemma built_In (rows : list Joined) (ms : list Memory) (mem : Memory) :
  Forall2 builtFrom rows ms -> In mem ms ->
  exists j, In j rows /\ builtFrom j mem.
Proof.
  induction 1 as [| j mem' rows ms Hb HF IH]; simpl; [tauto |].
  intros [<- | Hin].
  - exists j. auto.
  - destruct (IH Hin) as (j' & Hj' & Hb'). exists j'. auto.
Qed.

Lemma built_length (rows : list Joined) (ms : list Memory) :
  Forall2 builtFrom rows ms -> List.length ms = List.length rows.
Proof. induction 1; simpl; congruence. Qed.


Lemma built_In_rows (rows : list Joined) (ms : list Memory) (j : Joined) :
  Forall2 builtFrom rows ms -> In j rows ->
  exists mem, In mem ms /\ builtFrom j mem.
Proof.
  induction 1 as [| j' mem rows ms Hb HF IH]; simpl; [tauto |].
  intros [<- | Hin].
  - exists mem. auto.
  - destruct (IH Hin) as (mem' & Hm & Hb'). exists mem'. auto.
Qed.

Lemma recall_cases (q : Joined -> bool) (limit : nat) (db : Db) :
  (exists e, recall JSON_parse q limit db = (Normal (failed e), db)) \/
  (outage db = None /\
   exists ms, Forall2 builtFrom (selected q limit db) ms /\
              recall JSON_parse q limit db = (Normal (found ms), db)).
Proof.
  unfold recall, tryCatch, bind, execute, ret.
  destruct (outage db) as [e |] eqn:Ho; [left; now exists e |].
  destruct (toMemories_spec (selected q limit db) db)
    as [(ms & -> & HF) | (e & ->)].
  - right. split; [reflexivity |]. now exists ms.
  - left. now exists e.
Qed.

Lemma recall_up (q : Joined -> bool) (limit : nat) (db : Db) :
  outage db = None ->
  (forall row, In row (rick_memory db) ->
               exists ts, parseTags JSON_parse (tags row) = inr ts) ->
  exists ms, recall JSON_parse q limit db = (Normal (found ms), db).
Proof.
  intros Ho Htags.
  unfold recall, tryCatch, bind, execute, ret. rewrite Ho.
  destruct (toMemories_success (selected q limit db) db) as [ms ->].
  - apply Forall_forall. intros j Hj. apply Htags.
    apply In_firstn, In_orderByCreatedDesc, filter_In in Hj as [Hj _].
    now apply In_leftJoin in Hj.
  - now exists ms.
Qed.

(** The objects built from a selection: at most [limit] of them, most
    recent first, each from a row of the store that satisfies [q]; and a
    row satisfying [q] is left out only when [limit] objects were returned,
    none of them older than it. *)
Lemma selected_spec (q : Joined -> bool) (limit : nat) (db : Db)
    (ms : list Memory) :
  Forall2 builtFrom (selected q limit db) ms ->
  List.length ms <= limit /\
  recentFirst ms /\
  (forall mem, In mem ms ->
     exists j, In (m j) (rick_memory db) /\ q j = true /\ builtFrom j mem) /\
  (forall j, In j (leftJoin (rick_memory db) (students db)) -> q j = true ->
     (exists mem, In mem ms /\ builtFrom j mem) \/
     (List.length ms = limit /\
      forall mem, In mem ms -> (created_at (m j) <= createdAt mem)%Z)).
Proof.
  intros HF. unfold selected in HF.
  set (all := orderByCreatedDesc
                (filter q (leftJoin (rick_memory db) (students db)))) in *.
  assert (Hs : newestFirst all) by apply orderByCreatedDesc_sorted.
  repeat split.
  - rewrite (built_length _ _ HF). apply firstn_le_length.
  - apply (built_sorted _ _ HF). now apply firstn_sorted.
  - intros mem Hmem. destruct (built_In _ _ _ HF Hmem) as (j & Hj & Hb).
    apply In_firstn, In_orderByCreatedDesc, filter_In in Hj as [Hj Hq].
    exists j. split; [now apply In_leftJoin in Hj | auto].
  - intros j Hj Hq.
    assert (Hall : In j all)
      by (apply In_orderByCreatedDesc, filter_In; auto).
    destruct (firstn_keeps_first _ limit all j Hs Hall) as [Hin | [Hlen Hle]].
    + left. exact (built_In_rows _ _ _ HF Hin).
    + right. split; [now rewrite (built_length _ _ HF) |].
      intros mem Hmem. destruct (built_In _ _ _ HF Hmem) as (j' & Hj' & Hb).
      destruct Hb as (_ & _ & _ & ->). now apply Hle.
Qed.



Lemma getMemories_recall (teacherId : Z) (studentName : option string)
    (limit : nat) :
  exists q, getMemories LIKE JSON_parse teacherId studentName limit
            = recall JSON_parse q limit.
Proof. eexists. reflexivity. Qed.

(** The recall of relevant memories returns and leaves the store alone. *)
Lemma getRelevantMemories_returns (teacherId : Z) (message : string)
    (limit : nat) (db : Db) :
  exists r, getRelevantMemories LIKE JSON_parse teacherId message limit db
            = (Normal r, db).
Proof.
  assert (H : exists q,
             getRelevantMemories LIKE JSON_parse teacherId message limit
             = recall JSON_parse q limit).
  { unfold getRelevantMemories.
    destruct (extractStudentNames message); eexists; reflexivity. }
  destruct H as [q ->].
  destruct (recall_cases q limit db) as [(e & ->) | (_ & ms & _ & ->)];
    eexists; reflexivity.
Qed.

(** *** Deleting *)

Lemma filter_none {A} (f : A -> bool) (l : list A) :
  (forall x, In x l -> f x = false) -> filter f l = [].
Proof.
  induction l as [| x l IH]; simpl; intros H; [reflexivity |].
  rewrite (H x) by now left. apply IH. intros; apply H; now right.
Qed.

Lemma filter_all {A} (f : A -> bool) (l : list A) :
  (forall x, In x l -> f x = true) -> filter f l = l.
Proof.
  induction l as [| x l IH]; simpl; intros H; [reflexivity |].
  rewrite (H x) by now left. f_equal. apply IH. intros; apply H; now right.
Qed.

Lemma NoDup_map_eq {A B} (f : A -> B) (l : list A) (x y : A) :
  NoDup (map f l) -> In x l -> In y l -> f x = f y -> x = y.
Proof.
  induction l as [| z l IH]; simpl; intros Hnd Hx Hy E; [contradiction |].
  inversion Hnd as [| ? ? Hz Hnd']; subst.
  destruct Hx as [-> | Hx], Hy as [-> | Hy]; auto.
  - exfalso. apply Hz. rewrite E. now apply in_map.
  - exfalso. apply Hz. rewrite <- E. now apply in_map.
Qed.

(** A delete that no row answers to changes nothing. *)
Lemma deleteMemory_nothing (db : Db) (teacherId memoryId : Z) :
  (forall row, In row (rick_memory db) ->
               targets memoryId teacherId row = false) ->
  deleteMemory teacherId memoryId db =
    match outage db with
    | Some e => (Normal (mkResult false None None (Some e) None), db)
    | None => (Normal notFound, db)
    end.
Proof.
  intros H. unfold deleteMemory, tryCatch, bind, deleteRow, execute, ret.
  destruct (outage db) eqn:Ho; [reflexivity |].
  rewrite (filter_none _ _ H). simpl.
  rewrite filter_all.
  - destruct db; simpl in *. now rewrite Ho.
  - intros row Hrow. now rewrite (H row Hrow).
Qed.

(** C8.  In a store whose memory ids are unique, a delete by tenant A of a
    memory owned by another tenant B has the outcome of a delete of an id
    that does not exist: the same result object, which on a store that is
    up is the fixed not-found failure, and an unchanged store.  Whatever id
    tenant A names, the rows of other tenants stay, and a success means a
    row of tenant A carried that id. *)
Theorem deleteMemory_foreign_as_missing :
  forall (db : Db) (tenantA tenantB memoryId missingId : Z),
    tenantA <> tenantB ->
    NoDup (map id (rick_memory db)) ->
    (exists row, In row (rick_memory db) /\ id row = memoryId /\
                 teacher_id row = tenantB) ->
    (forall row, In row (rick_memory db) -> id row <> missingId) ->
    deleteMemory tenantA memoryId db = deleteMemory tenantA missingId db /\
    (outage db = None ->
     deleteMemory tenantA memoryId db = (Normal notFound, db)) /\
    (forall anyId row,
        In row (rick_memory db) -> teacher_id row <> tenantA ->
        In row (rick_memory (snd (deleteMemory tenantA anyId db)))) /\
    (forall anyId r db',
        deleteMemory tenantA anyId db = (Normal r, db') ->
        success r = true ->
        exists row, In row (rick_memory db) /\ id row = anyId /\
                    teacher_id row = tenantA).
Proof.
  intros db tenantA tenantB memoryId missingId Hab Hkey (owned & Hin & Hid & Hb)
    Hmiss.
  assert (Hforeign : forall row, In row (rick_memory db) ->
                                 targets memoryId tenantA row = false).
  { intros row Hrow. unfold targets.
    destruct (Z.eqb_spec (id row) memoryId) as [E |]; [| reflexivity].
    assert (row = owned)
      by (apply (NoDup_map_eq id (rick_memory db)); congruence).
    subst row. simpl. apply Z.eqb_neq. congruence. }
  assert (Hnone : forall row, In row (rick_memory db) ->
                              targets missingId tenantA row = false).
  { intros row Hrow. unfold targets.
    destruct (Z.eqb_spec (id row) missingId) as [E |]; [| reflexivity].
    now apply Hmiss in Hrow. }
  rewrite (deleteMemory_nothing db tenantA memoryId Hforeign).
  rewrite (deleteMemory_nothing db tenantA missingId Hnone).
  split; [reflexivity |]. split; [now intros -> |]. split.
  - intros anyId row Hrow Hother.
    unfold deleteMemory, tryCatch, bind, deleteRow, execute, ret.
    destruct (outage db); [exact Hrow |].
    destruct (Nat.eqb _ 0); simpl; apply filter_In; (split; [exact Hrow |]);
      unfold targets; apply negb_true_iff, andb_false_iff; right;
      now apply Z.eqb_neq.
  - intros anyId r db'.
    unfold deleteMemory, tryCatch, bind, deleteRow, execute, ret.
    destruct (outage db); [intros [= <- _]; discriminate |].
    destruct (filter (targets anyId tenantA) (rick_memory db))
      as [| row rows] eqn:E; simpl; intros [= <- _]; [discriminate |].
    intros _. exists row.
    assert (Hrow : In row (filter (targets anyId tenantA) (rick_memory db)))
      by (rewrite E; now left).
    apply filter_In in Hrow as [Hrow Ht]. unfold targets in Ht.
    apply andb_true_iff in Ht as [H1 H2].
    apply Z.eqb_eq in H1, H2. auto.
Qed.

(** *** Recalling *)


(** *** Every operation returns *)

(** C10.  Whatever the store and the arguments, each operation of the
    memory store returns a result object, with its boolean [success], and
    never throws: a statement that fails on the store, or tags that do not
    parse, end in the [catch] of the operation.  On a store that is down
    [success] is false and [error] is the message of the failure; a recall
    operation that fails returns the empty list of memories. *)
Theorem memory_operations_never_throw :
  forall db : Db,
    (forall teacherId memoryContent studentId, exists r db',
        saveMemory teacherId memoryContent studentId db = (Normal r, db') /\
        (forall e, outage db = Some e -> success r = false /\ error r = Some e)) /\
    (forall teacherId studentName limit, exists r db',
        getMemories LIKE JSON_parse teacherId studentName limit db
        = (Normal r, db') /\
        (forall e, outage db = Some e -> success r = false /\ error r = Some e) /\
        (success r = false -> memories r = Some [])) /\
    (forall teacherId message limit, exists r db',
        getRelevantMemories LIKE JSON_parse teacherId message limit db
        = (Normal r, db') /\
        (forall e, outage db = Some e -> success r = false /\ error r = Some e) /\
        (success r = false -> memories r = Some [])) /\
    (forall teacherId memoryId, exists r db',
        deleteMemory teacherId memoryId db = (Normal r, db') /\
        (forall e, outage db = Some e -> success r = false /\ error r = Some e)) /\
    (forall teacherId memoryId newContent, exists r db',
        updateMemory teacherId memoryId newContent db = (Normal r, db') /\
        (forall e, outage db = Some e -> success r = false /\ error r = Some e)).
Proof.
  intros db.
  assert (Hrecall : forall q limit, exists r db',
             recall JSON_parse q limit db = (Normal r, db') /\
             (forall e, outage db = Some e ->
                        success r = false /\ error r = Some e) /\
             (success r = false -> memories r = Some [])).
  { intros q limit. unfold recall, tryCatch, bind, execute, ret.
    destruct (outage db) as [e |] eqn:Ho.
    - do 2 eexists. split; [reflexivity |]. split; [| reflexivity].
      intros e' [= <-]. split; reflexivity.
    - destruct (toMemories_spec (selected q limit db) db)
        as [(ms & -> & _) | (e & ->)];
        do 2 eexists; (split; [reflexivity |]); split;
        try discriminate; reflexivity. }
  repeat split.
  - intros teacherId memoryContent studentId.
    unfold saveMemory, tryCatch, bind, insertMemory, execute, ret.
    destruct (outage db) as [e |]; do 2 eexists;
      (split; [reflexivity |]); [intros e' [= <-]; split; reflexivity |
                                 discriminate].
  - intros teacherId studentName limit.
    destruct (getMemories_recall teacherId studentName limit) as [q ->].
    apply Hrecall.
  - intros teacherId message limit. unfold getRelevantMemories.
    destruct (extractStudentNames message) as [| n ns].
    + destruct (getMemories_recall teacherId None limit) as [q ->].
      apply Hrecall.
    + apply (Hrecall
               (fun j => ofTenant teacherId j && mentions LIKE (n :: ns) j)).
  - intros teacherId memoryId.
    unfold deleteMemory, tryCatch, bind, deleteRow, execute, ret.
    destruct (outage db) as [e |];
      [| destruct (Nat.eqb _ 0)]; do 2 eexists;
      (split; [reflexivity |]); try discriminate.
    intros e' [= <-]; split; reflexivity.
  - intros teacherId memoryId newContent.
    unfold updateMemory, tryCatch, bind, updateRow, execute, ret.
    destruct (outage db) as [e |];
      [| destruct (Nat.eqb _ 0)]; do 2 eexists;
      (split; [reflexivity |]); try discriminate.
    intros e' [= <-]; split; reflexivity.
Qed.

End Facts.

Lemma deleteMemory_foreign_as_missing_witness :
  deleteMemory 1 10 Examples.exampleDb = deleteMemory 1 99 Examples.exampleDb /\
  deleteMemory 1 10 Examples.exampleDb = (Normal notFound, Examples.exampleDb).
Proof.
  destruct (deleteMemory_foreign_as_missing Examples.exampleDb 1 2 10 99)
    as (Hsame & Hshape & _).
  - discriminate.
  - simpl. repeat constructor; simpl; intuition discriminate.
  - eexists. split; [left; reflexivity |]. split; reflexivity.
  - intros row [<- | [<- | [<- | []]]]; discriminate.
  - split; [exact Hsame | apply Hshape; reflexivity].
Defined.



Lemma memory_operations_never_throw_witness :
  exists r db',
    getMemories Examples.exampleLIKE Examples.exampleParse 1 None 20
      Examples.downDb = (Normal r, db') /\
    success r = false /\ error r = Some "connect ECONNREFUSED" /\
    memories r = Some [].
Proof.
  destruct (memory_operations_never_throw Examples.exampleLIKE
              Examples.exampleParse Examples.downDb) as (_ & Hget & _).
  destruct (Hget 1%Z None 20) as (r & db' & E & Hdown & Hfail).
  destruct (Hdown "connect ECONNREFUSED" eq_refl) as [Hs He].
  exists r, db'. repeat split; auto.
Defined.

End MemoryStoreFacts.

(** ** Statements that pass the pipeline *)

(** Every table that follows a [FROM] in a statement found valid is
    allowed. *)
Lemma validateSQL_from_tables_allowed (sql : string) (teacherId : Z) :
  valid (validateSQL sql teacherId) = true ->
  forall table, In table (matchAllFrom 0 sql) ->
    arrayIncludes config.allowedTables (JS.toLowerCase table) = true.
Proof.
  unfold validateSQL.
  destruct (negb (JS.startsWith _ "SELECT")); [discriminate |].
  destruct (firstBlocked _ _); [discriminate |].
  destruct (firstForbidden _) eqn:E; [discriminate |].
  intros _ table Hin. unfold firstForbidden in E.
  apply negb_false_iff.
  apply (find_none _ _ E (JS.toLowerCase table)). now apply in_map.
Qed.

(** C3, on the code.  A statement that joins a table outside the allow-list
    is found valid: only the table after [FROM] is extracted. *)
Theorem validateSQL_ignores_joined_table :
  arrayIncludes config.allowedTables "teachers" = false /\
  matchAllFrom 0
    "SELECT s.name, t.email FROM students s JOIN teachers t ON t.id = s.teacher_id WHERE s.teacher_id = 7"
  = ["students"] /\
  validateSQL
    "SELECT s.name, t.email FROM students s JOIN teachers t ON t.id = s.teacher_id WHERE s.teacher_id = 7"
    7
  = mkValidation true None.
Proof. repeat split; reflexivity. Qed.

(** C2, on the code.  A statement whose table is quoted passes the
    pipeline as it is: no table is extracted, no filter is injected, and
    the statement returned does not hold the predicate of the tenant.  And
    the injector can itself spell a blocked keyword in what it returns. *)
Theorem validateAndPrepareSQL_returns_unscoped_statement :
  validateAndPrepareSQL "SELECT name, teacher_id FROM `students`" 7
  = mkPrepared true None (Some "SELECT name, teacher_id FROM `students`") /\
  JS.includes "SELECT name, teacher_id FROM `students`" "teacher_id = 7"
  = false /\
  validateAndPrepareSQL "SELECT name, teacher_id FROM students whereROP" 7
  = mkPrepared true None
      (Some "SELECT name, teacher_id FROM students WHERE teacher_id = 7 ANDROP") /\
  firstBlocked config.blockedKeywords
    (JS.toUpperCase
       "SELECT name, teacher_id FROM students WHERE teacher_id = 7 ANDROP")
  = Some "DROP".
Proof. repeat split; reflexivity. Qed.

(** ** The orchestrator *)

Module ControllerFacts.

Import rickController.

Section Facts.

Variable Rows : Type.
Variable svc : Services Rows.

(** C4, on the code.  On the freeform path, when the dynamic query fails
    the body sent to the caller carries the fixed message in [response]
    and, next to it, the failure reason of the query service as it is, in
    [error]. *)
Theorem handleChat_sends_failure_reason :
  forall (req : Request) (msg : string) (db : memoryService.Db)
         (sqlResult : SqlResult) (queryResult : QueryResult Rows),
    message req = Some msg ->
    JS.truthy msg = true ->
    String.eqb (JS.trim msg) "" = false ->
    isCommand (parseCommand svc msg) = false ->
    matchQuickQuery msg = None ->
    requiresDataQuery msg = true ->
    (forall ctx d, generateSQL svc ctx d = (Normal sqlResult, d)) ->
    sql_success sqlResult = true ->
    (forall d, executeDynamicQuery svc (sql sqlResult) (teacherId req) d
               = (Normal queryResult, d)) ->
    q_success queryResult = false ->
    handleChat svc req db
    = (Normal
         (mkResponse 200 true
            (Some "I couldn't execute that query. Let me try to help another way.")
            (q_error queryResult) None None None),
       db).
Proof.
  intros req msg db sqlResult queryResult Hmsg Htruthy Hblank Hcmd Hquick
    Hneeds Hgen Hsql Hexec Hfail.
  unfold handleChat. rewrite Hmsg, Htruthy, Hblank, Hcmd, Hquick. simpl.
  unfold tryCatch, freeform, bind.
  destruct (MemoryStoreFacts.getRelevantMemories_returns (LIKE Rows svc)
              (JSON_parse Rows svc) (teacherId req) msg 5 db) as [r ->].
  rewrite Hneeds, Hgen, Hsql. simpl. rewrite Hexec, Hfail. reflexivity.
Qed.

(** The sibling path: a quick query that fails is answered with the fixed
    message alone. *)
Lemma handleQuickQuery_omits_failure_reason :
  forall (req : Request) (queryType : string) (db db' : memoryService.Db)
         (result : QueryResult Rows),
    executePredefinedQuery svc queryType (teacherId req) db
    = (Normal result, db') ->
    q_success result = false ->
    handleQuickQuery svc req queryType db
    = (Normal
         (mkResponse 200 true
            (Some "I had trouble running that query. Please try again.")
            None None (Some emptyArray) None),
       db').
Proof.
  intros req queryType db db' result Hrun Hfail.
  unfold handleQuickQuery, bind. now rewrite Hrun, Hfail.
Qed.

End Facts.

Lemma handleChat_sends_failure_reason_witness :
  handleChat Examples.exampleServices Examples.exampleRequest Examples.exampleDb
  = (Normal
       (mkResponse 200 true
          (Some "I couldn't execute that query. Let me try to help another way.")
          (Some "Table 'teachers' is not allowed") None None None),
     Examples.exampleDb).
Proof.
  apply (handleChat_sends_failure_reason (list string) Examples.exampleServices
           Examples.exampleRequest "show grades" Examples.exampleDb
           (mkSqlResult true
              (Some "SELECT name FROM teachers WHERE teacher_id = 7") None)
           (mkQueryResult false None (Some "Table 'teachers' is not allowed")));
    try reflexivity; intros; reflexivity.
Defined.

End ControllerFacts.

(** ** The injector applied twice, on the scenario *)

Lemma injectTeacherFilter_twice_witness :
  injectTeacherFilter "SELECT name FROM students" 42
  <> "SELECT name FROM students" /\
  injectTeacherFilter (injectTeacherFilter "SELECT name FROM students" 42) 42
  <> injectTeacherFilter "SELECT name FROM students" 42.
Proof.
  assert (H : injectTeacherFilter "SELECT name FROM students" 42
              <> "SELECT name FROM students") by (vm_compute; discriminate).
  split; [exact H |].
  intros E. apply H.
  exact (proj1 (proj1 injectTeacherFilter_twice "SELECT name FROM students" 42%Z) E).
Defined.

(** * Further properties of the query pipeline *)

(** ** When the injector writes the predicate *)

Lemma replaceFrom_no_match (s before after : string) :
  hasFromMatch s = false -> replaceFrom s before after = s.
Proof.
  induction s as [| c s IH]; [reflexivity |].
  cbn [hasFromMatch replaceFrom].
  destruct (matchFromHere (String c s)) as [[w rest] |]; [discriminate |].
  intros H. now rewrite (IH H).
Qed.

Lemma replaceFrom_shape (s before after : string) :
  hasFromMatch s = true ->
  exists pre w rest,
    replaceFrom s before after = pre ++ before ++ w ++ after ++ rest.
Proof.
  induction s as [| c s IH]; [discriminate |].
  cbn [hasFromMatch replaceFrom].
  destruct (matchFromHere (String c s)) as [[w rest] |].
  - intros _. now exists "", w, rest.
  - intros H. destruct (IH H) as (pre & w & rest & ->).
    now exists (String c pre), w, rest.
Qed.

Lemma replaceWhere_shape (s repl : string) :
  JS.includes (JS.toLowerCase s) "where" = true ->
  exists pre post, replaceWhere s repl = pre ++ repl ++ post.
Proof.
  induction s as [| c s IH]; intros H; [discriminate |].
  destruct (startsWithCI (String c s) "where") eqn:E.
  - rewrite (replaceWhere_here _ _ E). now exists "", (JS.drop 5 (String c s)).
  - rewrite (replaceWhere_later _ _ _ E).
    cbn [JS.toLowerCase JS.includes] in H.
    rewrite startsWithCI_where in E. rewrite E in H. cbn [orb] in H.
    destruct (IH H) as (pre & post & ->). now exists (String c pre), post.
Qed.

Lemma hasFromMatch_includes_from (s : string) :
  hasFromMatch s = true -> JS.includes (JS.toLowerCase s) "from" = true.
Proof.
  induction s as [| c s IH]; [discriminate |].
  cbn [hasFromMatch].
  destruct (matchFromHere (String c s)) as [[w rest] |] eqn:E.
  - intros _. apply includes_starts.
    unfold matchFromHere in E.
    destruct (startsWithCI (String c s) "from") eqn:F; [| discriminate].
    now rewrite startsWithCI_lower in F.
  - intros H. cbn [JS.toLowerCase]. now apply includes_cons, IH.
Qed.

Lemma includes_middle (pre occ post p : string) :
  JS.includes occ p = true -> JS.includes (pre ++ occ ++ post) p = true.
Proof.
  intros H. apply includes_app_l.
  induction occ as [| c occ IH].
  - simpl in H. rewrite orb_false_r in H.
    destruct p; [destruct post; reflexivity | discriminate].
  - cbn [JS.includes] in H. apply orb_true_iff in H as [H | H].
    + apply includes_starts.
      destruct (startsWith_inv _ _ H) as [r ->].
      rewrite app_assoc_s. apply startsWith_app.
    + cbn [append]. now apply includes_cons, IH.
Qed.

(** X1.  The injector returns a statement as it is exactly when the
    statement holds neither [where], in any letter case, nor a match of
    [from], white space and a word. *)
Theorem injectTeacherFilter_unchanged_iff :
  forall (sql : string) (teacherId : Z),
    injectTeacherFilter sql teacherId = sql <->
    JS.includes (JS.toLowerCase sql) "where" = false /\
    hasFromMatch sql = false.
Proof.
  intros sql teacherId. split.
  - intros E.
    destruct (JS.includes (JS.toLowerCase sql) "where") eqn:Hw.
    + pose proof (inject_where_grows sql teacherId Hw) as L.
      rewrite E in L. lia.
    + split; [reflexivity |].
      destruct (hasFromMatch sql) eqn:Hf; [exfalso | reflexivity].
      destruct (string_dec (injectTeacherFilter sql teacherId) sql) as [_ | D];
        [| contradiction].
      assert (Hin : JS.includes
                      (JS.toLowerCase (injectTeacherFilter sql teacherId))
                      "where" = true).
      { unfold injectTeacherFilter.
        rewrite Hw, (hasFromMatch_includes_from sql Hf).
        destruct (replaceFrom_shape sql "FROM "
                    (" WHERE teacher_id = " ++ JS.ofZ teacherId) Hf)
          as (pre & w & rest & ->).
        rewrite !toLowerCase_app. do 3 apply includes_app_l.
        apply includes_cons, includes_starts. reflexivity. }
      rewrite E in Hin. congruence.
  - intros [Hw Hf]. unfold injectTeacherFilter. rewrite Hw.
    destruct (JS.includes (JS.toLowerCase sql) "from"); [| reflexivity].
    now apply replaceFrom_no_match.
Qed.

(** X2.  A statement that holds [where], or else a match of [from], white
    space and a word, comes out of the injector with the predicate of the
    tenant written in it. *)
Theorem injectTeacherFilter_writes_predicate :
  forall (sql : string) (teacherId : Z),
    JS.includes (JS.toLowerCase sql) "where" = true \/ hasFromMatch sql = true ->
    JS.includes (injectTeacherFilter sql teacherId) (tenantPredicate teacherId)
    = true.
Proof.
  intros sql teacherId H. unfold injectTeacherFilter, tenantPredicate.
  destruct (JS.includes (JS.toLowerCase sql) "where") eqn:Hw.
  - destruct (replaceWhere_shape sql
                ("WHERE teacher_id = " ++ JS.ofZ teacherId ++ " AND") Hw)
      as (pre & post & ->).
    apply includes_middle, includes_starts.
    rewrite <- app_assoc_s. apply startsWith_app.
  - destruct H as [H | Hf]; [discriminate |].
    rewrite (hasFromMatch_includes_from sql Hf).
    destruct (replaceFrom_shape sql "FROM "
                (" WHERE teacher_id = " ++ JS.ofZ teacherId) Hf)
      as (pre & w & rest & ->).
    do 3 apply includes_app_l.
    apply includes_cons, includes_starts.
    change (" WHERE teacher_id = " ++ JS.ofZ teacherId)
      with (" " ++ ("WHERE teacher_id = " ++ JS.ofZ teacherId)).
    cbn [append]. apply startsWith_app.
Qed.

Lemma injectTeacherFilter_writes_predicate_witness :
  hasFromMatch "select name from   grades order by name" = true /\
  JS.includes
    (injectTeacherFilter "select name from   grades order by name" 7)
    (tenantPredicate 7) = true.
Proof.
  split; [reflexivity |].
  apply (injectTeacherFilter_writes_predicate
           "select name from   grades order by name" 7%Z).
  right. reflexivity.
Defined.

(** ** White space at the ends of a string *)

Lemma space_not_semicolon (c : ascii) :
  JS.isSpace c = true -> Ascii.eqb c ";" = false.
Proof. each_ascii c; vm_compute; congruence. Qed.

Lemma isSpace_upper (c : ascii) : JS.isSpace (JS.upper c) = JS.isSpace c.
Proof. each_ascii c; reflexivity. Qed.

Lemma trimStart_decomp (s : string) :
  exists ws, s = ws ++ JS.trimStart s /\ JS.all JS.isSpace ws = true.
Proof.
  induction s as [| c s (ws & E & Hws)]; [now exists "" |].
  cbn [JS.trimStart]. destruct (JS.isSpace c) eqn:Hc; [| now exists ""].
  exists (String c ws). cbn [append JS.all]. rewrite Hc, Hws.
  split; [now rewrite <- E | reflexivity].
Qed.

Lemma trimEnd_decomp (s : string) :
  exists ws, s = JS.trimEnd s ++ ws /\ JS.all JS.isSpace ws = true.
Proof.
  induction s as [| c s (ws & E & Hws)]; [now exists "" |].
  cbn [JS.trimEnd]. destruct (JS.trimEnd s) as [| x t] eqn:Ht.
  - cbn [append] in E. subst ws.
    destruct (JS.isSpace c) eqn:Hc.
    + exists (String c s). split; [reflexivity |].
      cbn [JS.all]. now rewrite Hc, Hws.
    + exists s. split; [reflexivity | exact Hws].
  - exists ws. split; [| exact Hws].
    cbn [append] in *. now rewrite <- E.
Qed.

Lemma all_space_trimStart (s : string) :
  JS.all JS.isSpace (JS.trimStart s) = JS.all JS.isSpace s.
Proof.
  induction s as [| c s IH]; [reflexivity |].
  cbn [JS.trimStart]. destruct (JS.isSpace c) eqn:Hc; [| reflexivity].
  cbn [JS.all]. now rewrite Hc, IH.
Qed.

Lemma truthy_trimEnd (s : string) :
  JS.truthy (JS.trimEnd s) = negb (JS.all JS.isSpace s).
Proof.
  induction s as [| c s IH]; [reflexivity |].
  cbn [JS.trimEnd JS.all]. destruct (JS.trimEnd s).
  - simpl in IH. apply (f_equal negb) in IH. rewrite negb_involutive in IH.
    rewrite <- IH, andb_true_r. now destruct (JS.isSpace c).
  - simpl in IH. apply (f_equal negb) in IH. rewrite negb_involutive in IH.
    rewrite <- IH, andb_false_r. reflexivity.
Qed.

(** A piece counts as a statement when it is not white space only. *)
Lemma truthy_trim (s : string) :
  JS.truthy (JS.trim s) = negb (JS.all JS.isSpace s).
Proof. unfold JS.trim. now rewrite truthy_trimEnd, all_space_trimStart. Qed.

Lemma space_no_semicolon (ws : string) :
  JS.all JS.isSpace ws = true -> JS.includes ws ";" = false.
Proof.
  induction ws as [| c ws IH]; [reflexivity |].
  cbn [JS.all]. intros H. apply andb_true_iff in H as [Hc Hws].
  cbn [JS.includes JS.startsWith].
  now rewrite (space_not_semicolon c Hc), (IH Hws).
Qed.

(** ** Pieces of a split *)

Lemma split_piece_no_sep (sep : ascii) (s p : string) :
  In p (JS.split sep s) -> JS.includes p (String sep "") = false.
Proof.
  revert p. induction s as [| c s IH]; intros p; cbn [JS.split].
  - intros [<- | []]. reflexivity.
  - destruct (Ascii.eqb c sep) eqn:Hc.
    + intros [<- | H]; [reflexivity | now apply IH].
    + pose proof (split_nonempty sep s) as Hne.
      destruct (JS.split sep s) as [| q qs]; [contradiction |].
      intros [<- | H]; [| apply IH; now right].
      cbn [JS.includes JS.startsWith]. rewrite Hc.
      cbn [andb orb]. apply IH. now left.
Qed.

Lemma split_app_space_l (ws m : string) :
  JS.all JS.isSpace ws = true ->
  JS.split ";" (ws ++ m) = consFirst ws (JS.split ";" m).
Proof.
  induction ws as [| c ws IH]; intros H.
  - cbn [append]. pose proof (split_nonempty ";" m) as Hne.
    now destruct (JS.split ";" m).
  - cbn [JS.all] in H. apply andb_true_iff in H as [Hc Hws].
    cbn [append JS.split]. rewrite (space_not_semicolon c Hc), (IH Hws).
    pose proof (split_nonempty ";" m) as Hne.
    now destruct (JS.split ";" m).
Qed.

Lemma split_app_space_r (a ws : string) :
  JS.all JS.isSpace ws = true ->
  JS.split ";" (a ++ ws) = appLast (JS.split ";" a) ws.
Proof.
  intros Hws. induction a as [| c a IH].
  - cbn [append]. now rewrite (split_no_sep ";" ws (space_no_semicolon ws Hws)).
  - cbn [append JS.split]. rewrite IH.
    pose proof (split_nonempty ";" a) as Hne.
    destruct (Ascii.eqb c ";").
    + now destruct (JS.split ";" a).
    + destruct (JS.split ";" a) as [| q [| q2 qs]]; [contradiction | |];
        reflexivity.
Qed.

Lemma statementsOf_notBlank (s : string) :
  statementsOf s = filter notBlank (JS.split ";" s).
Proof.
  unfold statementsOf. apply filter_ext. intros p. apply truthy_trim.
Qed.

Lemma count_consFirst (ws : string) (ps : list string) :
  JS.all JS.isSpace ws = true ->
  List.length (filter notBlank (consFirst ws ps))
  = List.length (filter notBlank ps).
Proof.
  intros H. destruct ps as [| p ps]; [reflexivity |].
  cbn [consFirst filter].
  assert (E : notBlank (ws ++ p) = notBlank p)
    by (unfold notBlank; now rewrite all_app, H).
  rewrite E. now destruct (notBlank p).
Qed.

Lemma count_appLast (ps : list string) (ws : string) :
  JS.all JS.isSpace ws = true ->
  List.length (filter notBlank (appLast ps ws))
  = List.length (filter notBlank ps).
Proof.
  intros H. induction ps as [| p [| q ps] IH]; [reflexivity | |].
  - cbn [appLast filter].
    assert (E : notBlank (p ++ ws) = notBlank p)
      by (unfold notBlank; now rewrite all_app, H, andb_true_r).
    rewrite E. now destruct (notBlank p).
  - change (appLast (p :: q :: ps) ws) with (p :: appLast (q :: ps) ws).
    cbn [filter]. destruct (notBlank p); cbn [List.length]; now rewrite IH.
Qed.

(** Trimming changes no count of statements. *)
Lemma statementsOf_trim_length (s : string) :
  List.length (statementsOf (JS.trim s)) = List.length (statementsOf s).
Proof.
  unfold JS.trim.
  destruct (trimStart_decomp s) as (w1 & E1 & H1).
  destruct (trimEnd_decomp (JS.trimStart s)) as (w2 & E2 & H2).
  rewrite !statementsOf_notBlank.
  rewrite E1 at 2. rewrite (split_app_space_l _ _ H1), (count_consFirst _ _ H1).
  rewrite E2 at 2. now rewrite (split_app_space_r _ _ H2), (count_appLast _ _ H2).
Qed.

(** X3.  What [sanitizeSQL] returns never holds more than one non-empty
    statement; when the input held several, what is returned holds no
    semicolon at all. *)
Theorem sanitizeSQL_single_statement :
  forall sql : string,
    List.length (statementsOf (sanitizeSQL sql)) <= 1 /\
    (1 < List.length (statementsOf sql) ->
     JS.includes (sanitizeSQL sql) ";" = false).
Proof.
  intros sql. unfold sanitizeSQL.
  destruct (statementsOf sql) as [| first [| second rest]] eqn:E.
  - split; [| simpl; lia]. rewrite statementsOf_trim_length, E. simpl; lia.
  - split; [| simpl; lia]. rewrite statementsOf_trim_length, E. simpl; lia.
  - assert (Hin : In first (statementsOf sql)) by (rewrite E; now left).
    unfold statementsOf in Hin. apply filter_In in Hin as [Hpiece Hnb].
    pose proof (split_piece_no_sep ";" sql first Hpiece) as Hsemi.
    split; [| intros _; exact Hsemi].
    rewrite (statementsOf_single first Hsemi Hnb). simpl; lia.
Qed.

Lemma sanitizeSQL_single_statement_witness :
  statementsOf (sanitizeSQL " ;SELECT 1 ; DROP TABLE x; ") = [ "SELECT 1 " ] /\
  JS.includes (sanitizeSQL " ;SELECT 1 ; DROP TABLE x; ") ";" = false.
Proof.
  split; [reflexivity |].
  apply (proj2 (sanitizeSQL_single_statement " ;SELECT 1 ; DROP TABLE x; ")).
  vm_compute. lia.
Defined.

(** ** What a statement found valid guarantees *)

Lemma trimStart_upper (s : string) :
  JS.trimStart (JS.toUpperCase s) = JS.toUpperCase (JS.trimStart s).
Proof.
  induction s as [| c s IH]; [reflexivity |].
  cbn [JS.toUpperCase JS.trimStart]. rewrite isSpace_upper.
  now destruct (JS.isSpace c).
Qed.

Lemma startsWith_trimEnd (x p : string) :
  JS.startsWith (JS.trimEnd x) p = true -> JS.startsWith x p = true.
Proof.
  intros H. destruct (trimEnd_decomp x) as (ws & E & _).
  destruct (startsWith_inv _ _ H) as [r Hr].
  rewrite E, Hr, app_assoc_s. apply startsWith_app.
Qed.

Lemma startsWith_upper_inv (s p : string) :
  JS.startsWith (JS.toUpperCase s) p = true ->
  exists kw rest, s = kw ++ rest /\ JS.toUpperCase kw = p.
Proof.
  revert s. induction p as [| b p IH]; intros s H; [now exists "", s |].
  destruct s as [| a s]; [discriminate |].
  cbn [JS.toUpperCase JS.startsWith] in H.
  apply andb_true_iff in H as [Ha Hs]. apply Ascii.eqb_eq in Ha.
  destruct (IH s Hs) as (kw & rest & -> & <-).
  exists (String a kw), rest. cbn [JS.toUpperCase]. now rewrite Ha.
Qed.

Lemma startsWith_lower_inv (s p : string) :
  JS.startsWith (JS.toLowerCase s) p = true ->
  exists occ rest, s = occ ++ rest /\ JS.toLowerCase occ = p.
Proof.
  revert s. induction p as [| b p IH]; intros s H; [now exists "", s |].
  destruct s as [| a s]; [discriminate |].
  cbn [JS.toLowerCase JS.startsWith] in H.
  apply andb_true_iff in H as [Ha Hs]. apply Ascii.eqb_eq in Ha.
  destruct (IH s Hs) as (occ & rest & -> & <-).
  exists (String a occ), rest. cbn [JS.toLowerCase]. now rewrite Ha.
Qed.

Lemma includes_lower_inv (s p : string) :
  JS.includes (JS.toLowerCase s) p = true ->
  exists pre occ post, s = pre ++ occ ++ post /\ JS.toLowerCase occ = p.
Proof.
  induction s as [| c s IH]; cbn [JS.toLowerCase JS.includes]; intros H.
  - rewrite orb_false_r in H.
    destruct (startsWith_lower_inv "" p H) as (occ & rest & E & Hocc).
    now exists "", occ, rest.
  - apply orb_true_iff in H as [H | H].
    + destruct (startsWith_lower_inv (String c s) p H) as (occ & rest & E & Hocc).
      now exists "", occ, rest.
    + destruct (IH H) as (pre & occ & post & -> & Hocc).
      now exists (String c pre), occ, post.
Qed.

Lemma includes_inv (s p : string) :
  JS.includes s p = true -> exists pre post, s = pre ++ p ++ post.
Proof.
  induction s as [| c s IH]; cbn [JS.includes]; intros H.
  - rewrite orb_false_r in H. destruct (startsWith_inv _ _ H) as [r E].
    now exists "", r.
  - apply orb_true_iff in H as [H | H].
    + destruct (startsWith_inv _ _ H) as [r E]. now exists "", r.
    + destruct (IH H) as (pre & post & ->). now exists (String c pre), post.
Qed.

(** The capture of the leftmost match comes first among the captures. *)
Lemma matchAllFrom_leftmost (pre s w rest : string) :
  matchFromHere s = Some (w, rest) ->
  noFromMatchWithin pre s = true ->
  exists more, matchAllFrom 0 (pre ++ s) = w :: more.
Proof.
  intros Hm. induction pre as [| c pre IH]; intros Hpre.
  - cbn [append]. destruct s as [| x s]; [discriminate |].
    cbn [matchAllFrom]. rewrite Hm. eexists; reflexivity.
  - cbn [noFromMatchWithin] in Hpre.
    change (String c pre ++ s) with (String c (pre ++ s)) in *.
    cbn [matchAllFrom].
    destruct (matchFromHere (String c (pre ++ s))); [discriminate |].
    now apply IH.
Qed.

Lemma arrayIncludes_In (l : list string) (x : string) :
  arrayIncludes l x = true <-> In x l.
Proof.
  unfold arrayIncludes. rewrite existsb_exists. split.
  - intros (y & Hy & E). apply String.eqb_eq in E. now subst.
  - intros H. exists x. split; [exact H | apply String.eqb_refl].
Qed.

(** X4.  A statement found valid begins, after white space, with [select]
    in some letter case; the table after its leftmost [from] is one of the
    allowed tables, its name compared in lower case; and it holds
    [teacher_id] in some letter case. *)
Theorem validateSQL_valid_statement :
  forall (sql : string) (teacherId : Z),
    valid (validateSQL sql teacherId) = true ->
    (exists ws kw rest,
        sql = ws ++ kw ++ rest /\ JS.all JS.isSpace ws = true /\
        JS.toUpperCase kw = "SELECT") /\
    (forall pre f ws tbl post,
        sql = pre ++ f ++ ws ++ tbl ++ post ->
        JS.toLowerCase f = "from" ->
        ws <> "" -> JS.all JS.isSpace ws = true ->
        tbl <> "" -> JS.all JS.isWord tbl = true ->
        headIs JS.isWord post = false ->
        noFromMatchWithin pre (f ++ ws ++ tbl ++ post) = true ->
        In (JS.toLowerCase tbl) config.allowedTables) /\
    (exists pre occ post,
        sql = pre ++ occ ++ post /\ JS.toLowerCase occ = "teacher_id").
Proof.
  intros sql teacherId Hv.
  pose proof (validateSQL_from_tables_allowed sql teacherId Hv) as Htables.
  unfold validateSQL in Hv.
  destruct (JS.startsWith (JS.trim (JS.toUpperCase sql)) "SELECT") eqn:Hsel;
    [| discriminate].
  cbn [negb] in Hv.
  destruct (firstBlocked _ _); [discriminate |].
  destruct (firstForbidden _); [discriminate |].
  destruct (JS.includes (JS.toLowerCase sql) "teacher_id") eqn:Hcol;
    [| discriminate].
  split; [| split].
  - unfold JS.trim in Hsel. apply startsWith_trimEnd in Hsel.
    rewrite trimStart_upper in Hsel.
    destruct (startsWith_upper_inv _ _ Hsel) as (kw & rest & E & Hkw).
    destruct (trimStart_decomp sql) as (ws & Es & Hws).
    exists ws, kw, rest. rewrite <- E. auto.
  - intros pre f ws tbl post -> Hf Hws Hsp Htbl Hw Hpost Hpre.
    destruct (matchAllFrom_leftmost pre _ tbl post
                (matchFromHere_match f ws tbl post Hf Hws Hsp Htbl Hw Hpost)
                Hpre) as [more Hmore].
    apply arrayIncludes_In, Htables. rewrite Hmore. now left.
  - now apply includes_lower_inv.
Qed.

Lemma validateSQL_valid_statement_witness :
  In "grades" config.allowedTables /\
  exists ws kw rest,
    "  select teacher_id From  GRADES g" = ws ++ kw ++ rest /\
    JS.all JS.isSpace ws = true /\ JS.toUpperCase kw = "SELECT".
Proof.
  destruct (validateSQL_valid_statement "  select teacher_id From  GRADES g" 1)
    as (Hsel & Htbl & _); [reflexivity |].
  split; [| exact Hsel].
  apply (Htbl "  select teacher_id " "From" "  " "GRADES" " g");
    try reflexivity; discriminate.
Defined.

(** ** The outcome of the pipeline *)

Lemma includes_lower (s p : string) :
  JS.includes s p = true ->
  JS.includes (JS.toLowerCase s) (JS.toLowerCase p) = true.
Proof.
  intros H. destruct (includes_inv _ _ H) as (pre & post & ->).
  rewrite !toLowerCase_app. apply includes_occurrence.
Qed.

Lemma includes_trans (s p q : string) :
  JS.includes s p = true -> JS.includes p q = true -> JS.includes s q = true.
Proof.
  intros H1 H2. destruct (includes_inv _ _ H1) as (pre & post & ->).
  now apply includes_middle.
Qed.

(** The injector keeps the mention of the isolation column. *)
Lemma inject_keeps_teacher_id (sql : string) (teacherId : Z) :
  JS.includes (JS.toLowerCase sql) "teacher_id" = true ->
  JS.includes (JS.toLowerCase (injectTeacherFilter sql teacherId)) "teacher_id"
  = true.
Proof.
  intros H. unfold injectTeacherFilter.
  destruct (JS.includes (JS.toLowerCase sql) "where") eqn:Hw.
  - destruct (replaceWhere_shape sql
                ("WHERE teacher_id = " ++ JS.ofZ teacherId ++ " AND") Hw)
      as (pre & post & ->).
    rewrite !toLowerCase_app. apply includes_app_l.
    change (JS.toLowerCase "WHERE teacher_id = ")
      with ("where " ++ "teacher_id" ++ " = ").
    rewrite !app_assoc_s. apply includes_occurrence.
  - destruct (JS.includes (JS.toLowerCase sql) "from"); [| exact H].
    destruct (hasFromMatch sql) eqn:Hf.
    + destruct (replaceFrom_shape sql "FROM "
                  (" WHERE teacher_id = " ++ JS.ofZ teacherId) Hf)
        as (pre & w & rest & ->).
      rewrite !toLowerCase_app. do 3 apply includes_app_l.
      change (JS.toLowerCase " WHERE teacher_id = ")
        with (" where " ++ "teacher_id" ++ " = ").
      rewrite !app_assoc_s. apply includes_occurrence.
    + now rewrite (replaceFrom_no_match sql _ _ Hf).
Qed.

Lemma validateSQL_mentions_teacher_id (sql : string) (teacherId : Z) :
  valid (validateSQL sql teacherId) = true ->
  JS.includes (JS.toLowerCase sql) "teacher_id" = true.
Proof.
  unfold validateSQL.
  destruct (negb (JS.startsWith _ "SELECT")); [discriminate |].
  destruct (firstBlocked _ _); [discriminate |].
  destruct (firstForbidden _); [discriminate |].
  now destruct (JS.includes (JS.toLowerCase sql) "teacher_id").
Qed.

Lemma validateSQL_error (sql : string) (teacherId : Z) :
  valid (validateSQL sql teacherId) = false ->
  error (validateSQL sql teacherId) = Some "Only SELECT queries are allowed" \/
  (exists keyword, In keyword config.blockedKeywords /\
     error (validateSQL sql teacherId)
     = Some ("Blocked keyword detected: " ++ keyword)) \/
  (exists table, ~ In table config.allowedTables /\
     error (validateSQL sql teacherId)
     = Some ("Table '" ++ table ++ "' is not allowed")) \/
  error (validateSQL sql teacherId) = Some "Query must filter by teacher_id".
Proof.
  unfold validateSQL.
  destruct (negb (JS.startsWith _ "SELECT")); [now left |].
  destruct (firstBlocked _ _) as [k |] eqn:Hk.
  { intros _. right; left. exists k. split; [| reflexivity].
    unfold firstBlocked in Hk. now apply find_some in Hk as [Hin _]. }
  destruct (firstForbidden _) as [tbl |] eqn:Ht.
  { intros _. right; right; left. exists tbl. split; [| reflexivity].
    unfold firstForbidden in Ht. apply find_some in Ht as [_ Hno].
    apply negb_true_iff in Hno. intros Hin.
    apply arrayIncludes_In in Hin. congruence. }
  destruct (negb (JS.includes _ "teacher_id")); [now right; right; right |].
  discriminate.
Qed.

(** X5.  [validateAndPrepareSQL] has two outcomes.  A success carries no
    error and a statement, which holds [teacher_id] in some letter case.  A
    failure carries no statement and one of four errors: the statement is
    not a SELECT, a blocked keyword of the configuration was detected, a
    table outside the allowed ones was named, or [teacher_id] is missing. *)
Theorem validateAndPrepareSQL_outcome :
  forall (sql : string) (teacherId : Z),
    let p := validateAndPrepareSQL sql teacherId in
    (success p = true /\ prep_error p = None /\
     exists q, prep_sql p = Some q /\
               JS.includes (JS.toLowerCase q) "teacher_id" = true) \/
    (success p = false /\ prep_sql p = None /\
     (prep_error p = Some "Only SELECT queries are allowed" \/
      (exists keyword, In keyword config.blockedKeywords /\
         prep_error p = Some ("Blocked keyword detected: " ++ keyword)) \/
      (exists table, ~ In table config.allowedTables /\
         prep_error p = Some ("Table '" ++ table ++ "' is not allowed")) \/
      prep_error p = Some "Query must filter by teacher_id")).
Proof.
  intros sql teacherId. unfold validateAndPrepareSQL.
  destruct (valid (validateSQL (sanitizeSQL sql) teacherId)) eqn:Hv; cbn.
  - left. repeat split. eexists. split; [reflexivity |].
    apply inject_keeps_teacher_id.
    exact (validateSQL_mentions_teacher_id _ _ Hv).
  - right. repeat split. now apply validateSQL_error.
Qed.

(** * Further properties of the memory store *)

Module MemoryStoreMore.

Import memoryService MemorySpec MemoryOps.

(** ** The operations on a store that is up, and on one that is down *)

Lemma withRows_same (db : Db) : withRows db (rick_memory db) = db.
Proof. now destruct db. Qed.

Lemma saveMemory_up (db : Db) (teacherId : Z) (memoryContent : string)
    (studentId : option Z) :
  outage db = None ->
  saveMemory teacherId memoryContent studentId db
  = (Normal (saved (auto_increment db)),
     mkDb (rick_memory db ++ [newRow db teacherId studentId memoryContent])
          (students db) (auto_increment db + 1) (now db) (outage db)).
Proof.
  intros Ho. unfold saveMemory, tryCatch, bind, insertMemory, execute, ret.
  now rewrite Ho.
Qed.

Lemma deleteMemory_up (db : Db) (teacherId memoryId : Z) :
  outage db = None ->
  deleteMemory teacherId memoryId db
  = (Normal (if Nat.eqb (List.length (filter (targets memoryId teacherId)
                                        (rick_memory db))) 0
             then notFound else deleted),
     withRows db (filter (fun r => negb (targets memoryId teacherId r))
                    (rick_memory db))).
Proof.
  intros Ho.
  unfold deleteMemory, tryCatch, bind, deleteRow, execute, ret, withRows.
  rewrite Ho. now destruct (Nat.eqb _ 0).
Qed.

Lemma updateMemory_up (db : Db) (teacherId memoryId : Z) (newContent : string) :
  outage db = None ->
  updateMemory teacherId memoryId newContent db
  = (Normal (if Nat.eqb (List.length (filter (targets memoryId teacherId)
                                        (rick_memory db))) 0
             then notFoundUpdate else updated),
     withRows db (map (rewritten db teacherId memoryId newContent)
                    (rick_memory db))).
Proof.
  intros Ho.
  unfold updateMemory, tryCatch, bind, updateRow, execute, ret, withRows.
  rewrite Ho. now destruct (Nat.eqb _ 0).
Qed.

Lemma mutations_down (db : Db) (e : string) :
  outage db = Some e ->
  (forall t c s, saveMemory t c s db = (Normal (refused e), db)) /\
  (forall t i, deleteMemory t i db = (Normal (refused e), db)) /\
  (forall t i c, updateMemory t i c db = (Normal (refused e), db)).
Proof.
  intros Ho. repeat split; intros;
    unfold saveMemory, deleteMemory, updateMemory, tryCatch, bind,
      insertMemory, deleteRow, updateRow, execute, ret;
    now rewrite Ho.
Qed.

Lemma outage_cases (db : Db) : outage db = None \/ exists e, outage db = Some e.
Proof. destruct (outage db) as [e |]; [right; now exists e | now left]. Qed.

(** ** The key of the table *)

Lemma NoDup_map_filter {Row Key} (key : Row -> Key) (keep : Row -> bool)
    (rows : list Row) (U : NoDup (map key rows)) :
  NoDup (map key (filter keep rows)).
Proof.
  induction rows as [| r rows IH]; simpl in *; [constructor |].
  apply NoDup_cons_iff in U as [Fresh U].
  destruct (keep r); simpl; [| now apply IH].
  apply NoDup_cons_iff. split; [| now apply IH].
  intros Hin. apply Fresh.
  apply in_map_iff in Hin as (y & E & Hy).
  apply filter_In in Hy as [Hy _].
  apply in_map_iff. now exists y.
Qed.

Lemma NoDup_snoc {A} (l : list A) (x : A) :
  NoDup l -> ~ In x l -> NoDup (l ++ [x]).
Proof.
  induction l as [| y l IH]; simpl; intros Hl Hx.
  - constructor; [intros [] | constructor].
  - inversion Hl as [| ? ? Hy Hl']; subst. constructor.
    + intros Hin. apply in_app_or in Hin as [Hin | [-> | []]]; tauto.
    + apply IH; tauto.
Qed.

Lemma rewritten_id (db : Db) (t i : Z) (c : string) (r : MemoryRow) :
  id (rewritten db t i c r) = id r.
Proof. unfold rewritten. now destruct (targets i t r). Qed.

Lemma map_id_rewritten (db : Db) (t i : Z) (c : string) (rows : list MemoryRow) :
  map id (map (rewritten db t i c) rows) = map id rows.
Proof.
  rewrite map_map. apply map_ext. intros r. apply rewritten_id.
Qed.

(** X6.  Unique ids below the AUTO_INCREMENT counter are an invariant of
    the store: whatever the arguments, saving, deleting and updating lead
    from a store in that state to a store in that state. *)
Theorem wellFormed_preserved :
  forall db : Db,
    wellFormed db ->
    (forall teacherId memoryContent studentId,
        wellFormed (snd (saveMemory teacherId memoryContent studentId db))) /\
    (forall teacherId memoryId,
        wellFormed (snd (deleteMemory teacherId memoryId db))) /\
    (forall teacherId memoryId newContent,
        wellFormed (snd (updateMemory teacherId memoryId newContent db))).
Proof.
  intros db Hwf.
  destruct (outage_cases db) as [Ho | [e Ho]].
  2:{ destruct (mutations_down db e Ho) as (Hs & Hd & Hu).
      split; [| split]; intros; rewrite ?Hs, ?Hd, ?Hu; exact Hwf. }
  destruct Hwf as [Hkey Hbound].
  repeat split; intros.
  - rewrite (saveMemory_up _ _ _ _ Ho). cbn [snd rick_memory].
    rewrite map_app. cbn [map newRow id].
    apply NoDup_snoc; [exact Hkey |].
    intros Hx. apply in_map_iff in Hx as (row & E & Hrow).
    specialize (Hbound row Hrow). lia.
  - rewrite (saveMemory_up _ _ _ _ Ho) in *. cbn [snd rick_memory] in *.
    cbn [snd auto_increment].
    apply in_app_or in H as [H | [<- | []]].
    + specialize (Hbound row H). lia.
    + cbn [newRow id]. lia.
  - rewrite (deleteMemory_up _ _ _ Ho). cbn [snd withRows rick_memory].
    now apply NoDup_map_filter.
  - rewrite (deleteMemory_up _ _ _ Ho) in *.
    cbn [snd withRows rick_memory auto_increment] in *.
    apply filter_In in H as [H _]. now apply Hbound.
  - rewrite (updateMemory_up _ _ _ _ Ho). cbn [snd withRows rick_memory].
    now rewrite map_id_rewritten.
  - rewrite (updateMemory_up _ _ _ _ Ho) in *.
    cbn [snd withRows rick_memory auto_increment] in *.
    apply in_map_iff in H as (r & <- & Hr).
    rewrite rewritten_id. now apply Hbound.
Qed.

Lemma wellFormed_example : wellFormed Examples.exampleDb.
Proof.
  split.
  - simpl. repeat constructor; simpl; intuition discriminate.
  - intros row [<- | [<- | [<- | []]]]; reflexivity.
Defined.

Lemma wellFormed_preserved_witness :
  wellFormed (snd (saveMemory 1 "Joe passed" None Examples.exampleDb)) /\
  wellFormed (snd (deleteMemory 1 11 Examples.exampleDb)).
Proof.
  destruct (wellFormed_preserved Examples.exampleDb wellFormed_example)
    as (Hs & Hd & _).
  split; [apply Hs | apply Hd].
Defined.

(** ** One tenant's operations and another tenant's rows *)

Lemma filter_filter_weaker {A} (f g : A -> bool) (l : list A) :
  (forall x, f x = true -> g x = true) ->
  filter f (filter g l) = filter f l.
Proof.
  intros H. induction l as [| x l IH]; simpl; [reflexivity |].
  destruct (g x) eqn:Hg; simpl; rewrite IH; [reflexivity |].
  destruct (f x) eqn:Hf; [| reflexivity].
  rewrite (H x Hf) in Hg. discriminate.
Qed.

Lemma filter_map_fixed {A} (f : A -> bool) (g : A -> A) (l : list A) :
  (forall x, f x = true -> g x = x) ->
  (forall x, f (g x) = f x) ->
  filter f (map g l) = filter f l.
Proof.
  intros H1 H2. induction l as [| x l IH]; simpl; [reflexivity |].
  rewrite H2, IH. destruct (f x) eqn:Hf; [| reflexivity].
  now rewrite (H1 x Hf).
Qed.

Lemma targets_owner (i a b : Z) (r : MemoryRow) :
  a <> b -> Z.eqb (teacher_id r) b = true -> targets i a r = false.
Proof.
  intros Hab Hb. apply Z.eqb_eq in Hb. unfold targets.
  apply andb_false_iff. right. apply Z.eqb_neq. congruence.
Qed.

(** X7.  Saving, deleting or updating on behalf of one tenant leaves the
    rows of every other tenant as they are, whatever the arguments. *)
Theorem other_tenants_rows_untouched :
  forall (db : Db) (tenantA tenantB : Z),
    tenantA <> tenantB ->
    (forall memoryContent studentId,
        rowsOf tenantB (snd (saveMemory tenantA memoryContent studentId db))
        = rowsOf tenantB db) /\
    (forall memoryId,
        rowsOf tenantB (snd (deleteMemory tenantA memoryId db))
        = rowsOf tenantB db) /\
    (forall memoryId newContent,
        rowsOf tenantB (snd (updateMemory tenantA memoryId newContent db))
        = rowsOf tenantB db).
Proof.
  intros db tenantA tenantB Hab.
  destruct (outage_cases db) as [Ho | [e Ho]].
  2:{ destruct (mutations_down db e Ho) as (Hs & Hd & Hu).
      split; [| split]; intros; rewrite ?Hs, ?Hd, ?Hu; reflexivity. }
  unfold rowsOf. split; [| split].
  - intros memoryContent studentId.
    rewrite (saveMemory_up _ _ _ _ Ho). cbn [snd rick_memory].
    rewrite filter_app. cbn [filter newRow teacher_id].
    destruct (Z.eqb_spec tenantA tenantB); [contradiction |].
    apply app_nil_r.
  - intros i.
    rewrite (deleteMemory_up _ _ _ Ho). cbn [snd withRows rick_memory].
    apply filter_filter_weaker. intros r Hr.
    now rewrite (targets_owner i tenantA tenantB r Hab Hr).
  - intros i newContent.
    rewrite (updateMemory_up _ _ _ _ Ho). cbn [snd withRows rick_memory].
    apply filter_map_fixed; intros r; unfold rewritten.
    + intros Hr. now rewrite (targets_owner i tenantA tenantB r Hab Hr).
    + now destruct (targets i tenantA r).
Qed.

Lemma other_tenants_rows_untouched_witness :
  rowsOf 2 (snd (deleteMemory 1 10 Examples.exampleDb))
  = rowsOf 2 Examples.exampleDb /\
  rowsOf 2 (snd (updateMemory 1 10 "mine now" Examples.exampleDb))
  = rowsOf 2 Examples.exampleDb.
Proof.
  destruct (other_tenants_rows_untouched Examples.exampleDb 1 2)
    as (_ & Hd & Hu); [discriminate |].
  split; [apply Hd | apply Hu].
Defined.

(** ** Updating *)

Lemma map_unchanged {A} (g : A -> A) (l : list A) :
  (forall x, In x l -> g x = x) -> map g l = l.
Proof.
  induction l as [| x l IH]; simpl; intros H; [reflexivity |].
  rewrite (H x) by now left. f_equal. apply IH. intros; apply H; now right.
Qed.

(** X8.  On a store that is up, an update by a tenant that owns no row with
    the given id is answered with the fixed not-found failure and changes
    nothing, whether the id is another tenant's or nobody's.  An update
    that succeeds keeps every row in its place with its id, its owner, its
    student and its creation time; a row either is as it was, or is the
    tenant's row with the given id, now carrying the new content, the tags
    extracted from it and the time of the update. *)
Theorem updateMemory_own_rows_only :
  forall (db : Db) (teacherId memoryId : Z) (newContent : string),
    outage db = None ->
    ((forall row, In row (rick_memory db) -> id row = memoryId ->
                  teacher_id row <> teacherId) ->
     updateMemory teacherId memoryId newContent db
     = (Normal notFoundUpdate, db)) /\
    (forall r db',
        updateMemory teacherId memoryId newContent db = (Normal r, db') ->
        success r = true ->
        map id (rick_memory db') = map id (rick_memory db) /\
        map teacher_id (rick_memory db') = map teacher_id (rick_memory db) /\
        map student_id (rick_memory db') = map student_id (rick_memory db) /\
        map created_at (rick_memory db') = map created_at (rick_memory db) /\
        (exists row, In row (rick_memory db) /\ id row = memoryId /\
                     teacher_id row = teacherId) /\
        forall row', In row' (rick_memory db') ->
          In row' (rick_memory db) \/
          (id row' = memoryId /\ teacher_id row' = teacherId /\
           memory_content row' = newContent /\
           tags row' = Some (JSON_stringify (extractStudentNames newContent)) /\
           updated_at row' = Some (now db))).
Proof.
  intros db teacherId memoryId newContent Ho.
  rewrite (updateMemory_up _ _ _ _ Ho). split.
  - intros Hnone.
    assert (Hfalse : forall row, In row (rick_memory db) ->
                                 targets memoryId teacherId row = false).
    { intros row Hrow. unfold targets.
      destruct (Z.eqb_spec (id row) memoryId) as [E |]; [| reflexivity].
      apply Z.eqb_neq. now apply Hnone. }
    rewrite (MemoryStoreFacts.filter_none _ _ Hfalse). cbn [List.length Nat.eqb].
    rewrite map_unchanged, withRows_same; [reflexivity |].
    intros row Hrow. unfold rewritten. now rewrite (Hfalse row Hrow).
  - intros r db' E Hs.
    destruct (filter (targets memoryId teacherId) (rick_memory db))
      as [| hit hits] eqn:Ef; cbn [List.length Nat.eqb] in E;
      injection E as <- <-; [discriminate |].
    cbn [withRows rick_memory]. rewrite !map_map.
    repeat split.
    + apply map_ext. apply rewritten_id.
    + apply map_ext. intros x. unfold rewritten. now destruct (targets _ _ x).
    + apply map_ext. intros x. unfold rewritten. now destruct (targets _ _ x).
    + apply map_ext. intros x. unfold rewritten. now destruct (targets _ _ x).
    + exists hit.
      assert (Hhit : In hit (filter (targets memoryId teacherId)
                               (rick_memory db))) by (rewrite Ef; now left).
      apply filter_In in Hhit as [Hin Ht]. unfold targets in Ht.
      apply andb_true_iff in Ht as [H1 H2]. apply Z.eqb_eq in H1, H2. auto.
    + intros row' Hrow'. apply in_map_iff in Hrow' as (x & <- & Hx).
      unfold rewritten. destruct (targets memoryId teacherId x) eqn:Ht;
        [right | now left].
      unfold targets in Ht. apply andb_true_iff in Ht as [H1 H2].
      apply Z.eqb_eq in H1, H2. cbn. auto.
Qed.

Lemma updateMemory_own_rows_only_witness :
  updateMemory 1 10 "mine now" Examples.exampleDb
  = (Normal notFoundUpdate, Examples.exampleDb).
Proof.
  destruct (updateMemory_own_rows_only Examples.exampleDb 1 10 "mine now")
    as [Hnone _]; [reflexivity |].
  apply Hnone.
  intros row [<- | [<- | [<- | []]]]; simpl; intros; discriminate.
Defined.

(** ** Saving and deleting together *)

(** X9.  On a store that is up and whose ids are unique and below the
    counter, a memory that was saved can be deleted by the same tenant
    under the id that [saveMemory] returned, and the rows are then what
    they were before the save. *)
Theorem saveMemory_then_deleteMemory :
  forall (db : Db) (teacherId : Z) (memoryContent : string)
         (studentId : option Z),
    wellFormed db ->
    outage db = None ->
    exists insertId db1 db2,
      saveMemory teacherId memoryContent studentId db
      = (Normal (saved insertId), db1) /\
      deleteMemory teacherId insertId db1 = (Normal deleted, db2) /\
      rick_memory db2 = rick_memory db.
Proof.
  intros db teacherId memoryContent studentId [_ Hbound] Ho.
  rewrite (saveMemory_up _ _ _ _ Ho).
  do 3 eexists. split; [reflexivity |].
  rewrite deleteMemory_up by exact Ho.
  cbn [withRows rick_memory]. rewrite !filter_app.
  assert (Hold : forall row, In row (rick_memory db) ->
                   targets (auto_increment db) teacherId row = false).
  { intros row Hrow. unfold targets. apply andb_false_iff. left.
    apply Z.eqb_neq. specialize (Hbound row Hrow). lia. }
  rewrite (MemoryStoreFacts.filter_none _ _ Hold).
  rewrite (MemoryStoreFacts.filter_all
             (fun r => negb (targets (auto_increment db) teacherId r))).
  2:{ intros row Hrow. now rewrite (Hold row Hrow). }
  assert (Hnew : targets (auto_increment db) teacherId
                   (newRow db teacherId studentId memoryContent) = true)
    by (unfold targets, newRow; cbn; now rewrite !Z.eqb_refl).
  cbn [filter]. rewrite Hnew. cbn.
  split; [reflexivity | apply app_nil_r].
Qed.

Lemma saveMemory_then_deleteMemory_witness :
  exists insertId db1 db2,
    saveMemory 1 "Joe passed" None Examples.exampleDb
    = (Normal (saved insertId), db1) /\
    deleteMemory 1 insertId db1 = (Normal deleted, db2) /\
    rick_memory db2 = rick_memory Examples.exampleDb.
Proof.
  apply (saveMemory_then_deleteMemory Examples.exampleDb 1 "Joe passed" None
           wellFormed_example).
  reflexivity.
Defined.

(** X10.  On a store that is up, deleting the same memory a second time is
    answered with the not-found failure and changes nothing. *)
Theorem deleteMemory_twice :
  forall (db db1 : Db) (teacherId memoryId : Z) (r : Result),
    outage db = None ->
    deleteMemory teacherId memoryId db = (Normal r, db1) ->
    deleteMemory teacherId memoryId db1 = (Normal notFound, db1).
Proof.
  intros db db1 teacherId memoryId r Ho E.
  rewrite (deleteMemory_up _ _ _ Ho) in E. injection E as _ <-.
  rewrite deleteMemory_up by exact Ho.
  cbn [withRows rick_memory students auto_increment now outage].
  rewrite (MemoryStoreFacts.filter_none (targets memoryId teacherId)).
  2:{ intros row Hrow. apply filter_In in Hrow as [_ Hrow].
      now apply negb_true_iff in Hrow. }
  cbn [List.length Nat.eqb]. f_equal. unfold withRows. f_equal.
  apply MemoryStoreFacts.filter_all.
  intros row Hrow. now apply filter_In in Hrow as [_ Hrow].
Qed.

Lemma deleteMemory_twice_witness :
  deleteMemory 1 11 (snd (deleteMemory 1 11 Examples.exampleDb))
  = (Normal notFound, snd (deleteMemory 1 11 Examples.exampleDb)).
Proof.
  apply (deleteMemory_twice Examples.exampleDb _ 1 11 deleted);
    reflexivity.
Defined.

(** ** Recalling with a name filter, and counting *)

Lemma leftJoin_student (j : Joined) (ms : list MemoryRow)
    (ss : list StudentRow) (n : string) :
  In j (leftJoin ms ss) -> student_name j = Some n ->
  exists s, In s ss /\ student_id (m j) = Some (s_id s) /\ s_name s = n.
Proof.
  unfold leftJoin. rewrite in_flat_map. intros (r & Hr & Hj) Hn.
  destruct (filter (fun s => optZ_eqb (student_id r) (s_id s)) ss)
    as [| s hits] eqn:E.
  - destruct Hj as [<- | []]. discriminate.
  - apply in_map_iff in Hj as (s' & <- & Hs'). rewrite <- E in Hs'.
    apply filter_In in Hs' as [Hin Hm]. cbn in *. injection Hn as <-.
    exists s'. repeat split; [exact Hin |].
    unfold optZ_eqb in Hm. destruct (student_id r) as [x |]; [| discriminate].
    apply Z.eqb_eq in Hm. now subst.
Qed.

Section Recall.

Variable LIKE : string -> string -> bool.
Variable JSON_parse : string -> string + list string.

Lemma getMemories_as_recall (teacherId : Z) (studentName : option string)
    (limit : nat) :
  getMemories LIKE JSON_parse teacherId studentName limit
  = recall JSON_parse (whereOf LIKE teacherId studentName) limit.
Proof. reflexivity. Qed.

(** X11.  [getMemories] returns a result object and leaves the store as it
    was.  Its memories are at most [limit], most recent first, each built
    from a row of the requesting tenant; a student name, when one is
    attached, is the name of the student the row links to.  With a
    non-empty name filter, every memory returned has the filter LIKE-matched
    ([%name%]) by its content or by the name of its student.  An empty name
    is no filter. *)
Theorem getMemories_tenant_scoped :
  forall (db : Db) (teacherId : Z) (studentName : option string)
         (limit : nat),
    getMemories LIKE JSON_parse teacherId (Some "") limit
    = getMemories LIKE JSON_parse teacherId None limit /\
    exists r ms,
      getMemories LIKE JSON_parse teacherId studentName limit db
      = (Normal r, db) /\
      memories r = Some ms /\
      List.length ms <= limit /\
      recentFirst ms /\
      forall mem, In mem ms ->
        exists row,
          In row (rick_memory db) /\ teacher_id row = teacherId /\
          id row = mem_id mem /\ memory_content row = content mem /\
          created_at row = createdAt mem /\
          (forall sn, memoryService.studentName mem = Some sn ->
             exists s, In s (students db) /\
                       student_id row = Some (s_id s) /\ s_name s = sn) /\
          (forall n, studentName = Some n -> n <> "" ->
             LIKE (content mem) ("%" ++ n ++ "%") = true \/
             exists sn, memoryService.studentName mem = Some sn /\
                        LIKE sn ("%" ++ n ++ "%") = true).
Proof.
  intros db teacherId studentName limit. split; [reflexivity |].
  rewrite getMemories_as_recall.
  destruct (MemoryStoreFacts.recall_cases JSON_parse
              (whereOf LIKE teacherId studentName) limit db)
    as [(e & ->) | (Ho & ms & HF & ->)].
  - exists (failed e), []. cbn.
    split; [reflexivity |]. split; [reflexivity |]. split; [lia |].
    split; [constructor | intros mem []].
  - exists (found ms), ms. cbn.
    assert (Hsel : forall j,
               In j (selected (whereOf LIKE teacherId studentName) limit db) ->
               In j (leftJoin (rick_memory db) (students db)) /\
               whereOf LIKE teacherId studentName j = true).
    { intros j Hj. unfold selected in Hj.
      apply MemoryStoreFacts.In_firstn in Hj.
      apply (proj1 (MemoryStoreFacts.In_orderByCreatedDesc _ _)) in Hj.
      now apply filter_In in Hj. }
    destruct (MemoryStoreFacts.selected_spec _ limit db ms HF)
      as (Hlen & Hsort & _ & _).
    repeat split; auto.
    intros mem Hmem.
    destruct (MemoryStoreFacts.built_In _ _ _ HF Hmem) as (j & Hj & Hb).
    destruct (Hsel j Hj) as [Hjoin Hq].
    destruct Hb as (Hid & Hc & Hsn & Hat).
    unfold whereOf in Hq. apply andb_true_iff in Hq as [Ht Hpat].
    apply Z.eqb_eq in Ht.
    exists (m j). repeat split; auto.
    + now apply MemoryStoreFacts.In_leftJoin in Hjoin.
    + intros sn Hmsn. rewrite Hsn in Hmsn.
      exact (leftJoin_student j _ _ sn Hjoin Hmsn).
    + intros n -> Hn. unfold patternOf in Hpat.
      destruct n as [| c n]; [contradiction |]. cbn [JS.truthy] in Hpat.
      apply orb_true_iff in Hpat as [Hpat | Hpat].
      * right. destruct (student_name j) as [sn |] eqn:Esn; [| discriminate].
        exists sn. rewrite Hsn. auto.
      * left. now rewrite Hc.
Qed.


(** X12.  A memory saved on a store that is up is recalled by the next
    [getMemories] of the same tenant, with the id that [saveMemory]
    returned and with its content, unless [limit] memories at least as
    recent are returned instead; the tags of the rows are taken to parse. *)
Theorem saveMemory_then_getMemories :
  forall (db : Db) (teacherId : Z) (memoryContent : string)
         (studentId : option Z) (limit : nat),
    outage db = None ->
    (forall row, In row (rick_memory db) ->
                 exists ts, parseTags JSON_parse (tags row) = inr ts) ->
    (exists ts,
        parseTags JSON_parse
          (Some (JSON_stringify (extractStudentNames memoryContent)))
        = inr ts) ->
    exists insertId db1 ms,
      saveMemory teacherId memoryContent studentId db
      = (Normal (saved insertId), db1) /\
      getMemories LIKE JSON_parse teacherId None limit db1
      = (Normal (found ms), db1) /\
      ((exists mem, In mem ms /\ mem_id mem = insertId /\
                    content mem = memoryContent) \/
       (List.length ms = limit /\
        forall mem, In mem ms -> (now db <= createdAt mem)%Z)).
Proof.
  intros db teacherId memoryContent studentId limit Ho Htags Hnew.
  rewrite (saveMemory_up _ _ _ _ Ho).
  set (row := newRow db teacherId studentId memoryContent).
  set (db1 := mkDb (rick_memory db ++ [row]) (students db)
                (auto_increment db + 1) (now db) (outage db)).
  exists (auto_increment db), db1.
  rewrite getMemories_as_recall.
  destruct (MemoryStoreFacts.recall_up JSON_parse
              (whereOf LIKE teacherId None) limit db1) as [ms Hms].
  { exact Ho. }
  { intros r Hr. cbn [db1 rick_memory] in Hr.
    apply in_app_or in Hr as [Hr | [<- | []]]; [now apply Htags | exact Hnew]. }
  exists ms. split; [reflexivity |]. split; [exact Hms |].
  destruct (MemoryStoreFacts.recall_cases JSON_parse
              (whereOf LIKE teacherId None) limit db1)
    as [(e & He) | (_ & ms' & HF & Hms')].
  { rewrite Hms in He. discriminate. }
  rewrite Hms in Hms'. injection Hms' as <-.
  destruct (MemoryStoreFacts.selected_spec _ limit db1 ms HF)
    as (_ & _ & _ & Hcompl).
  destruct (MemoryStoreFacts.leftJoin_complete row (rick_memory db1)
              (students db1)) as (j & Hj & Hmj).
  { cbn [db1 rick_memory]. apply in_or_app. right. now left. }
  destruct (Hcompl j Hj) as [(mem & Hmem & Hb) | [Hfull Hold]].
  { unfold whereOf. rewrite Hmj. cbn. now rewrite Z.eqb_refl. }
  - left. exists mem. destruct Hb as (-> & -> & _). rewrite Hmj. auto.
  - right. split; [exact Hfull |]. intros mem Hmem.
    specialize (Hold mem Hmem). now rewrite Hmj in Hold.
Qed.


End Recall.

Lemma getMemories_tenant_scoped_witness :
  exists r ms,
    getMemories Examples.exampleLIKE Examples.exampleParse 1 (Some "Joe") 20
      Examples.exampleDb = (Normal r, Examples.exampleDb) /\
    memories r = Some ms /\
    forall mem, In mem ms ->
      Examples.exampleLIKE (content mem) "%Joe%" = true \/
      exists sn, memoryService.studentName mem = Some sn /\
                 Examples.exampleLIKE sn "%Joe%" = true.
Proof.
  destruct (proj2 (getMemories_tenant_scoped Examples.exampleLIKE
                     Examples.exampleParse Examples.exampleDb 1
                     (Some "Joe") 20))
    as (r & ms & E & Hms & _ & _ & Hsound).
  exists r, ms. split; [exact E |]. split; [exact Hms |].
  intros mem Hmem.
  destruct (Hsound mem Hmem) as (row & _ & _ & _ & _ & _ & _ & Hlike).
  apply (Hlike "Joe"); [reflexivity | discriminate].
Defined.

Lemma saveMemory_then_getMemories_witness :
  exists insertId db1 ms,
    saveMemory 1 "the class did well" None Examples.exampleDb
    = (Normal (saved insertId), db1) /\
    getMemories Examples.exampleLIKE Examples.exampleParse 1 None 20 db1
    = (Normal (found ms), db1).
Proof.
  destruct (saveMemory_then_getMemories Examples.exampleLIKE
              Examples.exampleParse Examples.exampleDb 1
              "the class did well" None 20)
    as (insertId & db1 & ms & Hs & Hg & _).
  - reflexivity.
  - intros row [<- | [<- | [<- | []]]]; eexists; reflexivity.
  - eexists; reflexivity.
  - now exists insertId, db1, ms.
Defined.

(** X13.  [getMemoryCount] never throws: on a store that is up it returns
    the number of rows of the tenant, on a store that is down a failure
    with count 0 and the message of the error.  After a save the count of
    the saving tenant is one more and the count of any other tenant is
    what it was. *)
Theorem getMemoryCount_counts :
  forall (db : Db) (teacherId : Z),
    (outage db = None ->
     getMemoryCount teacherId db
     = (Normal (mkCountResult true (List.length (rowsOf teacherId db)) None),
        db)) /\
    (forall e, outage db = Some e ->
     getMemoryCount teacherId db
     = (Normal (mkCountResult false 0 (Some e)), db)) /\
    (forall saver memoryContent studentId,
        outage db = None ->
        fst (getMemoryCount teacherId
               (snd (saveMemory saver memoryContent studentId db)))
        = Normal (mkCountResult true
                    (List.length (rowsOf teacherId db)
                     + (if Z.eqb saver teacherId then 1 else 0)) None)).
Proof.
  intros db teacherId.
  unfold getMemoryCount, tryCatch, bind, countRows, execute, ret, rowsOf.
  split; [| split].
  - now intros ->.
  - now intros e ->.
  - intros saver memoryContent studentId Ho.
    rewrite (saveMemory_up _ _ _ _ Ho). cbn [snd outage rick_memory].
    rewrite Ho. cbn [fst]. rewrite filter_app, List.length_app.
    cbn [filter newRow teacher_id]. now destruct (Z.eqb saver teacherId).
Qed.

Lemma getMemoryCount_counts_witness :
  fst (getMemoryCount 1 Examples.exampleDb)
  = Normal (mkCountResult true 2 None) /\
  fst (getMemoryCount 1 (snd (saveMemory 1 "x" None Examples.exampleDb)))
  = Normal (mkCountResult true 3 None).
Proof.
  destruct (getMemoryCount_counts Examples.exampleDb 1) as (Hup & _ & Hsave).
  split.
  - now rewrite Hup.
  - now rewrite (Hsave 1%Z "x" None eq_refl).
Defined.

End MemoryStoreMore.

(** * Further properties of the orchestrator *)

Module ControllerMore.

Import rickController ChatBodies.

Lemma blank_trim (msg : string) :
  JS.all JS.isSpace msg = true -> JS.trim msg = "".
Proof.
  intros H. pose proof (truthy_trim msg) as T. rewrite H in T.
  now destruct (JS.trim msg).
Qed.

Section Chat.

Variable Rows : Type.
Variable svc : Services Rows.

(** X14.  A request without a message, or whose message is empty or white
    space only, is answered 400 "Message is required"; no service is
    called and the store is left as it is. *)
Theorem handleChat_blank_message :
  forall (req : Request) (db : memoryService.Db),
    (message req = None \/
     exists msg, message req = Some msg /\ JS.all JS.isSpace msg = true) ->
    handleChat svc req db = (Normal (badRequest Rows), db).
Proof.
  intros req db [Hm | (msg & Hm & Hblank)]; unfold handleChat; rewrite Hm;
    [reflexivity |].
  rewrite (blank_trim msg Hblank). cbn [String.eqb].
  now rewrite orb_true_r.
Qed.

(** X15.  On the freeform path (the message is no command and triggers no
    quick query) [handleChat] always answers: with the response of the
    path, or, when a service throws on the way, with status 500 and a fixed
    error text in which the message of the exception does not appear. *)
Theorem handleChat_freeform_catches :
  forall (req : Request) (msg : string) (db : memoryService.Db),
    message req = Some msg ->
    JS.truthy msg = true ->
    String.eqb (JS.trim msg) "" = false ->
    isCommand (parseCommand svc msg) = false ->
    matchQuickQuery msg = None ->
    exists resp db',
      handleChat svc req db = (Normal resp, db') /\
      (freeform Rows svc req msg db = (Normal resp, db') \/
       exists e, freeform Rows svc req msg db = (Throw e, db') /\
                 resp = serverError Rows).
Proof.
  intros req msg db Hm Ht Hb Hc Hq.
  unfold handleChat. rewrite Hm, Ht, Hb, Hc, Hq. cbn [negb orb].
  unfold tryCatch, ret.
  destruct (freeform Rows svc req msg db) as [[resp | e] db'].
  - exists resp, db'. auto.
  - exists (serverError Rows), db'. split; [reflexivity |]. right. now exists e.
Qed.

(** X16.  The promise of the quick-query path is returned without being
    awaited: when the message triggers a quick query and the predefined
    query throws, [handleChat] throws the same error, its [catch] is not
    reached. *)
Theorem handleChat_quick_query_not_caught :
  forall (req : Request) (msg queryType e : string)
         (db db' : memoryService.Db),
    message req = Some msg ->
    JS.truthy msg = true ->
    String.eqb (JS.trim msg) "" = false ->
    isCommand (parseCommand svc msg) = false ->
    matchQuickQuery msg = Some queryType ->
    executePredefinedQuery svc queryType (teacherId req) db = (Throw e, db') ->
    handleChat svc req db = (Throw e, db').
Proof.
  intros req msg queryType e db db' Hm Ht Hb Hc Hq Hrun.
  unfold handleChat. rewrite Hm, Ht, Hb, Hc, Hq. cbn [negb orb].
  unfold handleQuickQuery, bind. now rewrite Hrun.
Qed.

End Chat.

Lemma handleChat_blank_message_witness :
  handleChat Examples.exampleServices
    (mkRequest (Some "   ") [] 7 "Ms T") Examples.exampleDb
  = (Normal (badRequest (list string)), Examples.exampleDb).
Proof.
  apply handleChat_blank_message. right. now exists "   ".
Defined.

Lemma handleChat_freeform_catches_witness :
  handleChat CommandExamples.throwingServices Examples.exampleRequest
    Examples.exampleDb
  = (Normal (serverError (list string)), Examples.exampleDb).
Proof.
  destruct (handleChat_freeform_catches (list string)
              CommandExamples.throwingServices Examples.exampleRequest
              "show grades" Examples.exampleDb
              eq_refl eq_refl eq_refl eq_refl eq_refl)
    as (resp & db' & E & [F | (e & F & ->)]).
  - vm_compute in F. discriminate F.
  - vm_compute in F. injection F as _ <-. exact E.
Defined.

Lemma handleChat_quick_query_not_caught_witness :
  handleChat CommandExamples.throwingServices CommandExamples.quickRequest
    Examples.exampleDb
  = (Throw "pool is closed", Examples.exampleDb).
Proof.
  apply (handleChat_quick_query_not_caught (list string)
           CommandExamples.throwingServices CommandExamples.quickRequest
           "who is failing?" "struggling_students");
    reflexivity.
Defined.

(** ** Quick queries *)

Lemma toLowerCase_toUpperCase (s : string) :
  JS.toLowerCase (JS.toUpperCase s) = JS.toLowerCase s.
Proof.
  induction s as [| c s IH]; [reflexivity |].
  cbn [JS.toUpperCase JS.toLowerCase]. now rewrite lower_upper, IH.
Qed.

Lemma someIncluded_spec (lowerMessage : string) (keywords : list string) :
  someIncluded lowerMessage keywords = true <->
  exists kw, In kw keywords /\ JS.includes lowerMessage kw = true.
Proof. unfold someIncluded. apply existsb_exists. Qed.

(** X17.  [matchQuickQuery] ignores the letter case of the message and
    returns the first entry of [patterns] one of whose keywords occurs in
    it, or nothing when no keyword of any entry occurs.  The keyword
    "missing class" of attendance_issues never decides: a message that
    holds it is matched by an earlier entry. *)
Theorem matchQuickQuery_first_entry_wins :
  forall message : string,
    matchQuickQuery (JS.toUpperCase message) = matchQuickQuery message /\
    (forall key,
        matchQuickQuery message = Some key ->
        exists before keywords after kw,
          patterns = (before ++ (key, keywords) :: after)%list /\
          In kw keywords /\
          JS.includes (JS.toLowerCase message) kw = true /\
          forall entry kw', In entry before -> In kw' (snd entry) ->
            JS.includes (JS.toLowerCase message) kw' = false) /\
    (matchQuickQuery message = None <->
     forall entry kw, In entry patterns -> In kw (snd entry) ->
       JS.includes (JS.toLowerCase message) kw = false) /\
    (JS.includes (JS.toLowerCase message) "missing class" = true ->
     matchQuickQuery message = Some "struggling_students" \/
     matchQuickQuery message = Some "missing_assignments").
Proof.
  intros message. split; [| split; [| split]].
  - unfold matchQuickQuery. now rewrite toLowerCase_toUpperCase.
  - intros key. unfold matchQuickQuery.
    set (hit := fun entry : string * list string =>
                  someIncluded (JS.toLowerCase message) (snd entry)).
    assert (G : forall l e, find hit l = Some e ->
              exists before after kw,
                l = (before ++ e :: after)%list /\ In kw (snd e) /\
                JS.includes (JS.toLowerCase message) kw = true /\
                forall entry kw', In entry before -> In kw' (snd entry) ->
                  JS.includes (JS.toLowerCase message) kw' = false).
    { induction l as [| x l IH]; intros e He; [discriminate |].
      cbn [find] in He. destruct (hit x) eqn:Hx.
      - injection He as <-. apply someIncluded_spec in Hx as (kw & Hk & Hi).
        exists [], l, kw. repeat split; auto. intros entry kw' [].
      - destruct (IH e He) as (before & after & kw & -> & Hk & Hi & Hb).
        exists (x :: before), after, kw. repeat split; auto.
        intros entry kw' [<- | Hin] Hkw'; [| now apply (Hb entry)].
        destruct (JS.includes (JS.toLowerCase message) kw') eqn:E;
          [| reflexivity].
        assert (hit x = true) by (apply someIncluded_spec; now exists kw').
        congruence. }
    destruct (find hit patterns) as [[k kws] |] eqn:F; [| discriminate].
    intros [= <-].
    destruct (G patterns (k, kws) F) as (before & after & kw & E & Hk & Hi & Hb).
    now exists before, kws, after, kw.
  - unfold matchQuickQuery.
    destruct (find _ patterns) as [entry |] eqn:F.
    + split; [discriminate |]. intros Hnone. exfalso.
      apply find_some in F as [Hin Hhit].
      apply someIncluded_spec in Hhit as (kw & Hk & Hi).
      rewrite (Hnone entry kw Hin Hk) in Hi. discriminate.
    + split; [| reflexivity]. intros _ entry kw Hin Hk.
      pose proof (find_none _ _ F entry Hin) as Hno. cbn beta in Hno.
      destruct (JS.includes (JS.toLowerCase message) kw) eqn:E; [| reflexivity].
      assert (someIncluded (JS.toLowerCase message) (snd entry) = true)
        by (apply someIncluded_spec; now exists kw).
      congruence.
  - intros H.
    assert (Hm : JS.includes (JS.toLowerCase message) "missing" = true)
      by (apply (includes_trans _ _ _ H); reflexivity).
    unfold matchQuickQuery, patterns. cbn [find snd fst].
    destruct (someIncluded (JS.toLowerCase message)
                ["struggling"; "failing"; "below 60"; "low grade"]);
      [now left | right].
    unfold someIncluded at 1. cbn [existsb]. now rewrite Hm.
Qed.

Lemma matchQuickQuery_first_entry_wins_witness :
  matchQuickQuery "He keeps MISSING CLASS" = Some "missing_assignments".
Proof.
  destruct (matchQuickQuery_first_entry_wins "He keeps MISSING CLASS")
    as (_ & _ & _ & H).
  destruct (H eq_refl) as [E | E]; [discriminate E | exact E].
Defined.

End ControllerMore.

(** * The command path *)

Module CommandFacts.

Import rickCommands.

Section Facts.

Variable LIKE : string -> string -> bool.
Variable JSON_parse : string -> string + list string.
Variable COMMANDS : commandParser.Commands.
Variable parseInt : option string -> option Z.
Variable toLocaleDateString : Z -> string.

Let run := handleCommand LIKE JSON_parse COMMANDS parseInt toLocaleDateString.

(** X18.  FORGET with an id under which the requesting tenant owns no row,
    whether the id is another tenant's or nobody's, is answered on a store
    that is up with the fixed not-found text, success false, and the store
    is left as it is. *)
Theorem handleCommand_forget_not_owned :
  forall (req : rickController.Request) (parsed : rickController.Parsed)
         (memoryId : Z) (db : memoryService.Db),
    rickController.command parsed = commandParser.FORGET COMMANDS ->
    commandParser.FORGET COMMANDS <> commandParser.REMEMBER COMMANDS ->
    commandParser.FORGET COMMANDS <> commandParser.MEMORIES COMMANDS ->
    parseInt (rickController.args parsed) = Some memoryId ->
    memoryId <> 0%Z ->
    memoryService.outage db = None ->
    (forall row, In row (memoryService.rick_memory db) ->
                 memoryService.id row = memoryId ->
                 memoryService.teacher_id row <> rickController.teacherId req) ->
    run req parsed db
    = (Normal
         (mkCommandResponse 200 false
            (Some "Memory not found or you do not have permission to delete it")
            None None (Some true)),
       db).
Proof.
  intros req parsed memoryId db Hc Hr Hm Hp Hz Ho Hnone.
  unfold run, handleCommand. rewrite Hc.
  apply String.eqb_neq in Hr, Hm. rewrite Hr, Hm, String.eqb_refl, Hp.
  apply Z.eqb_neq in Hz. rewrite Hz. unfold bind.
  rewrite MemoryStoreFacts.deleteMemory_nothing, Ho; [reflexivity |].
  intros row Hrow. unfold memoryService.targets.
  destruct (Z.eqb_spec (memoryService.id row) memoryId) as [E |];
    [| reflexivity].
  apply Z.eqb_neq. now apply Hnone.
Qed.

(** X19.  Commands with unusable arguments are refused with status 400 and
    no operation on the store: REMEMBER without a note, FORGET whose
    argument [parseInt] does not read or reads as 0, and any command that
    is none of the four. *)
Theorem handleCommand_rejects_bad_arguments :
  forall (req : rickController.Request) (parsed : rickController.Parsed)
         (db : memoryService.Db),
    (rickController.command parsed = commandParser.REMEMBER COMMANDS ->
     argsOrNull (rickController.args parsed) = None ->
     run req parsed db = (Normal nothingToRemember, db)) /\
    (rickController.command parsed = commandParser.FORGET COMMANDS ->
     commandParser.FORGET COMMANDS <> commandParser.REMEMBER COMMANDS ->
     commandParser.FORGET COMMANDS <> commandParser.MEMORIES COMMANDS ->
     parseInt (rickController.args parsed) = None \/
     parseInt (rickController.args parsed) = Some 0%Z ->
     run req parsed db = (Normal badId, db)) /\
    (rickController.command parsed <> commandParser.REMEMBER COMMANDS ->
     rickController.command parsed <> commandParser.MEMORIES COMMANDS ->
     rickController.command parsed <> commandParser.FORGET COMMANDS ->
     rickController.command parsed <> commandParser.HELP COMMANDS ->
     run req parsed db
     = (Normal
          (mkCommandResponse 400 false None
             (Some ("Unknown command: /" ++ rickController.command parsed
                      ++ ". Type /help for available commands."))
             None None),
        db)).
Proof.
  intros req parsed db. unfold run, handleCommand. repeat split.
  - intros Hc Ha. now rewrite Hc, String.eqb_refl, Ha.
  - intros Hc Hr Hm Hp. rewrite Hc.
    apply String.eqb_neq in Hr, Hm. rewrite Hr, Hm, String.eqb_refl.
    now destruct Hp as [-> | ->].
  - intros H1 H2 H3 H4. apply String.eqb_neq in H1, H2, H3, H4.
    now rewrite H1, H2, H3, H4.
Qed.

(** X20.  On a store that is down the three commands answer differently.
    REMEMBER reports a failure with a fixed text.  MEMORIES reports a
    success and says that there are no memories.  FORGET reports a failure
    whose text is the message of the store's error as it is. *)
Theorem handleCommand_on_failing_store :
  forall (req : rickController.Request) (parsed : rickController.Parsed)
         (db : memoryService.Db) (e : string),
    memoryService.outage db = Some e ->
    (forall note,
        rickController.command parsed = commandParser.REMEMBER COMMANDS ->
        argsOrNull (rickController.args parsed) = Some note ->
        run req parsed db
        = (Normal
             (mkCommandResponse 200 false
                (Some "Sorry, I had trouble saving that memory.")
                None None (Some true)),
           db)) /\
    (rickController.command parsed = commandParser.MEMORIES COMMANDS ->
     commandParser.MEMORIES COMMANDS <> commandParser.REMEMBER COMMANDS ->
     run req parsed db
     = (Normal
          (mkCommandResponse 200 true
             (Some match argsOrNull (rickController.args parsed) with
                   | Some n => "I don't have any memories about " ++ n ++ "."
                   | None => "I don't have any saved memories yet."
                   end)
             None (Some []) (Some true)),
        db)) /\
    (forall memoryId,
        rickController.command parsed = commandParser.FORGET COMMANDS ->
        commandParser.FORGET COMMANDS <> commandParser.REMEMBER COMMANDS ->
        commandParser.FORGET COMMANDS <> commandParser.MEMORIES COMMANDS ->
        parseInt (rickController.args parsed) = Some memoryId ->
        memoryId <> 0%Z ->
        run req parsed db
        = (Normal (mkCommandResponse 200 false (Some e) None None (Some true)),
           db)).
Proof.
  intros req parsed db e Ho.
  destruct (MemoryStoreMore.mutations_down db e Ho) as (Hsave & Hdel & _).
  unfold run, handleCommand. repeat split.
  - intros note Hc Ha. rewrite Hc, String.eqb_refl, Ha.
    unfold bind. now rewrite Hsave.
  - intros Hc Hr. rewrite Hc.
    apply String.eqb_neq in Hr. rewrite Hr, String.eqb_refl.
    unfold bind, memoryService.getMemories, tryCatch, bind,
      memoryService.selectMemories, memoryService.execute.
    now rewrite Ho.
  - intros memoryId Hc Hr Hm Hp Hz. rewrite Hc.
    apply String.eqb_neq in Hr, Hm. rewrite Hr, Hm, String.eqb_refl, Hp.
    apply Z.eqb_neq in Hz. rewrite Hz.
    unfold bind. now rewrite Hdel.
Qed.

End Facts.

Lemma handleCommand_forget_not_owned_witness :
  handleCommand Examples.exampleLIKE Examples.exampleParse
    commandParser.COMMANDS CommandExamples.exampleParseInt
    CommandExamples.exampleDate CommandExamples.requestOfOne
    CommandExamples.forgetTen Examples.exampleDb
  = (Normal
       (mkCommandResponse 200 false
          (Some "Memory not found or you do not have permission to delete it")
          None None (Some true)),
     Examples.exampleDb).
Proof.
  apply (handleCommand_forget_not_owned Examples.exampleLIKE
           Examples.exampleParse commandParser.COMMANDS
           CommandExamples.exampleParseInt CommandExamples.exampleDate
           CommandExamples.requestOfOne CommandExamples.forgetTen 10);
    try reflexivity; try discriminate.
  intros row [<- | [<- | [<- | []]]]; simpl; intros; discriminate.
Defined.

Lemma handleCommand_rejects_bad_arguments_witness :
  handleCommand Examples.exampleLIKE Examples.exampleParse
    commandParser.COMMANDS CommandExamples.exampleParseInt
    CommandExamples.exampleDate CommandExamples.requestOfOne
    CommandExamples.rememberNothing Examples.exampleDb
  = (Normal nothingToRemember, Examples.exampleDb).
Proof.
  apply (proj1 (handleCommand_rejects_bad_arguments Examples.exampleLIKE
                  Examples.exampleParse commandParser.COMMANDS
                  CommandExamples.exampleParseInt CommandExamples.exampleDate
                  CommandExamples.requestOfOne CommandExamples.rememberNothing
                  Examples.exampleDb));
    reflexivity.
Defined.

Lemma handleCommand_on_failing_store_witness :
  handleCommand Examples.exampleLIKE Examples.exampleParse
    commandParser.COMMANDS CommandExamples.exampleParseInt
    CommandExamples.exampleDate CommandExamples.requestOfOne
    CommandExamples.forgetTen Examples.downDb
  = (Normal
       (mkCommandResponse 200 false (Some "connect ECONNREFUSED") None None
          (Some true)),
     Examples.downDb) /\
  success
    (match fst (handleCommand Examples.exampleLIKE Examples.exampleParse
                  commandParser.COMMANDS CommandExamples.exampleParseInt
                  CommandExamples.exampleDate CommandExamples.requestOfOne
                  CommandExamples.listMemories Examples.downDb) with
     | Normal r => r
     | Throw _ => badId
     end) = true.
Proof.
  destruct (handleCommand_on_failing_store Examples.exampleLIKE
              Examples.exampleParse commandParser.COMMANDS
              CommandExamples.exampleParseInt CommandExamples.exampleDate
              CommandExamples.requestOfOne CommandExamples.forgetTen
              Examples.downDb "connect ECONNREFUSED" eq_refl)
    as (_ & _ & Hforget).
  destruct (handleCommand_on_failing_store Examples.exampleLIKE
              Examples.exampleParse commandParser.COMMANDS
              CommandExamples.exampleParseInt CommandExamples.exampleDate
              CommandExamples.requestOfOne CommandExamples.listMemories
              Examples.downDb "connect ECONNREFUSED" eq_refl)
    as (_ & Hlist & _).
  split.
  - apply (Hforget 10%Z); try reflexivity; discriminate.
  - rewrite Hlist; [reflexivity | reflexivity | discriminate].
Defined.

End CommandFacts.

(** * The command parser *)

Module CommandParserFacts.

Import commandParser.

(** [s.split(sep).join(sep)] is [s]. *)
Lemma concat_split (sep : ascii) (s : string) :
  String.concat (String sep "") (JS.split sep s) = s.
Proof.
  induction s as [| c s IH]; [reflexivity |].
  cbn [JS.split]. pose proof (split_nonempty sep s) as Hne.
  destruct (Ascii.eqb_spec c sep) as [-> | Hc].
  - destruct (JS.split sep s) as [| p ps]; [contradiction |].
    cbn [String.concat] in *. now rewrite IH.
  - destruct (JS.split sep s) as [| p [| q ps]]; [contradiction | |];
      cbn [String.concat append] in *; now rewrite IH.
Qed.

Lemma trim_idempotent_start (s : string) :
  JS.trimStart (JS.trim s) = JS.trim s.
Proof.
  unfold JS.trim.
  assert (H : forall t, headIs JS.isSpace t = false ->
                        JS.trimStart (JS.trimEnd t) = JS.trimEnd t).
  { intros [| c r] Hc; [reflexivity |]. cbn [headIs] in Hc.
    cbn [JS.trimEnd]. destruct (JS.trimEnd r); rewrite ?Hc;
      cbn [JS.trimStart]; now rewrite ?Hc. }
  apply H. induction s as [| c s IH]; [reflexivity |].
  cbn [JS.trimStart]. destruct (JS.isSpace c) eqn:Hc; [exact IH |].
  cbn [headIs]. exact Hc.
Qed.

Lemma trimEnd_idempotent (s : string) : JS.trimEnd (JS.trimEnd s) = JS.trimEnd s.
Proof.
  induction s as [| c s IH]; [reflexivity |].
  cbn [JS.trimEnd]. destruct (JS.trimEnd s) as [| x t] eqn:E.
  - destruct (JS.isSpace c) eqn:Hc; [reflexivity |].
    cbn [JS.trimEnd]. now rewrite Hc.
  - cbn [JS.trimEnd] in *. now rewrite IH.
Qed.

Lemma trim_idempotent (s : string) : JS.trim (JS.trim s) = JS.trim s.
Proof.
  unfold JS.trim at 1. rewrite trim_idempotent_start.
  unfold JS.trim. apply trimEnd_idempotent.
Qed.

Lemma starts_slash (x : string) : JS.startsWith (String "/" x) "/" = true.
Proof. reflexivity. Qed.

(** X21.  A message that, once trimmed, does not begin with a slash is no
    command.  One that reads [/cmd rest], [cmd] holding no space, is the
    command [cmd] in lower case with the arguments [rest] trimmed; with no
    space after [cmd] the arguments are empty.  Only the space separates:
    a tab after the command name stays in the name. *)
Theorem parseCommand_reads_command :
  forall message : string,
    (JS.startsWith (JS.trim message) "/" = false ->
     parseCommand message = mkParsedCommand false None None message) /\
    (forall cmd rest,
        JS.trim message = "/" ++ cmd ++ " " ++ rest ->
        JS.includes cmd " " = false ->
        parseCommand message
        = mkParsedCommand true (Some (JS.toLowerCase cmd))
            (Some (JS.trim rest)) message) /\
    (forall cmd,
        JS.trim message = "/" ++ cmd ->
        JS.includes cmd " " = false ->
        parseCommand message
        = mkParsedCommand true (Some (JS.toLowerCase cmd)) (Some "") message).
Proof.
  intros message. unfold parseCommand. repeat split.
  - now intros ->.
  - intros cmd rest E Hcmd. rewrite E.
    change ("/" ++ cmd ++ " " ++ rest)
      with (String "/"%char (cmd ++ String " "%char rest)).
    rewrite starts_slash. cbn [negb JS.drop].
    rewrite split_app_sep, (split_no_sep " " cmd Hcmd).
    cbn [app hd tl]. now rewrite concat_split.
  - intros cmd E Hcmd. rewrite E.
    change ("/" ++ cmd) with (String "/"%char cmd).
    rewrite starts_slash. cbn [negb JS.drop].
    now rewrite (split_no_sep " " cmd Hcmd).
Qed.

Lemma parseCommand_reads_command_witness :
  parseCommand "  /Remember   Joe likes fractions  "
  = mkParsedCommand true (Some "remember") (Some "Joe likes fractions")
      "  /Remember   Joe likes fractions  " /\
  command (parseCommand (String "/" ("forget" ++ String (ascii_of_nat 9) "5")))
  = Some (String "f" ("orget" ++ String (ascii_of_nat 9) "5")).
Proof.
  split.
  - apply (proj1 (proj2 (parseCommand_reads_command
                           "  /Remember   Joe likes fractions  "))
             "Remember" "  Joe likes fractions");
      reflexivity.
  - rewrite (proj2 (proj2 (parseCommand_reads_command
                             (String "/" ("forget" ++ String (ascii_of_nat 9) "5"))))
               ("forget" ++ String (ascii_of_nat 9) "5"));
      reflexivity.
Defined.

End CommandParserFacts.

(** * The formatting helpers *)

Module ContextBuilderFacts.

Import contextBuilder.

Lemma concat_app (sep : string) (l1 l2 : list string) :
  l1 <> [] -> l2 <> [] ->
  String.concat sep (l1 ++ l2)%list
  = String.concat sep l1 ++ sep ++ String.concat sep l2.
Proof.
  intros H1 H2. induction l1 as [| x [| y l1] IH]; [contradiction | |].
  - destruct l2; [contradiction | reflexivity].
  - change ((x :: y :: l1) ++ l2)%list with (x :: (y :: l1) ++ l2)%list.
    change (String.concat sep (x :: (y :: l1) ++ l2)%list)
      with (x ++ sep ++ String.concat sep ((y :: l1) ++ l2)%list).
    rewrite IH by discriminate.
    change (String.concat sep (x :: y :: l1))
      with (x ++ sep ++ String.concat sep (y :: l1)).
    now rewrite !app_assoc_s.
Qed.

Section Memories.

Variable toLocaleDateString : Value -> string.

Lemma lines_of_memory_objects (ms : list memoryService.Memory) (index : nat) :
  rickCommands.mapIndexed
    (fun memory i =>
       "Memory " ++ JS.ofZ (Z.of_nat (i + 1)) ++ " ("
         ++ dateString toLocaleDateString (get "created_at" memory)
         ++ "): " ++ interpolate (get "memory_content" memory))
    index (map memoryObject ms)
  = map blindLine (seq index (List.length ms)).
Proof.
  revert index. induction ms as [| mem ms IH]; intros index; [reflexivity |].
  cbn [map rickCommands.mapIndexed List.length seq]. now rewrite IH.
Qed.

(** X22.  The objects that the memory service returns carry [content] and
    [createdAt]; [formatMemories] reads [memory_content] and [created_at].
    On those objects its text therefore depends on their number alone:
    each line reads "Memory i (Invalid Date): undefined", and neither the
    content nor the date of a memory appears. *)
Theorem formatMemories_of_service_objects :
  forall ms : list memoryService.Memory,
    ms <> [] ->
    formatMemories toLocaleDateString (map memoryObject ms)
    = String.concat rickCommands.nl
        (map blindLine (seq 0 (List.length ms))).
Proof.
  intros ms Hne. unfold formatMemories.
  destruct ms as [| mem ms]; [contradiction |].
  change (map memoryObject (mem :: ms))
    with (memoryObject mem :: map memoryObject ms) at 1.
  cbv iota. now rewrite lines_of_memory_objects.
Qed.

End Memories.

Lemma formatMemories_of_service_objects_witness :
  formatMemories (fun _ => "1/1/2026")
    (map memoryObject
       [memoryService.mkMemory 11 "Joe failed the fractions quiz" None [] 200])
  = "Memory 1 (Invalid Date): undefined".
Proof.
  rewrite formatMemories_of_service_objects by discriminate. reflexivity.
Defined.

(** X23.  [formatConversationHistory] prints one line per message, joined
    by line feeds: the text of two histories put end to end is the two
    texts with a line feed between them, and every role other than "user"
    is printed as Rick.  The text does not tell where a message ends: a
    reply that holds a line feed followed by "Teacher: " prints like a
    reply followed by a message of the teacher. *)
Theorem formatConversationHistory_joins_lines :
  (forall h1 h2 : list (string * string),
      h1 <> [] -> h2 <> [] ->
      formatConversationHistory (h1 ++ h2)%list
      = formatConversationHistory h1 ++ rickCommands.nl
          ++ formatConversationHistory h2) /\
  (forall role content,
      role <> "user" ->
      formatConversationHistory [(role, content)] = "Rick: " ++ content) /\
  (forall role said forged,
      formatConversationHistory
        [(role, said ++ rickCommands.nl ++ "Teacher: " ++ forged)]
      = formatConversationHistory [(role, said); ("user", forged)]).
Proof.
  assert (F : forall h, h <> [] ->
                formatConversationHistory h
                = String.concat rickCommands.nl (map line h)).
  { intros [| x h] Hh; [contradiction | reflexivity]. }
  repeat split.
  - intros h1 h2 H1 H2.
    rewrite (F h1 H1), (F h2 H2), F, map_app.
    + apply concat_app; now destruct h1, h2.
    + now destruct h1.
  - intros role content Hr. cbn. apply String.eqb_neq in Hr. now rewrite Hr.
  - intros role said forged. cbn. now rewrite !app_assoc_s.
Qed.

Lemma formatConversationHistory_joins_lines_witness :
  formatConversationHistory [("user", "hi"); ("assistant", "hello")]
  = "Teacher: hi" ++ rickCommands.nl ++ "Rick: hello".
Proof.
  destruct formatConversationHistory_joins_lines as (Happ & _ & _).
  refine (Happ [("user", "hi")] [("assistant", "hello")] _ _); discriminate.
Defined.

End ContextBuilderFacts.

(** * The statement taken from the model's answer *)

Module OllamaFacts.

Lemma trimEnd_upper (s : string) :
  JS.trimEnd (JS.toUpperCase s) = JS.toUpperCase (JS.trimEnd s).
Proof.
  induction s as [| c s IH]; [reflexivity |].
  cbn [JS.toUpperCase JS.trimEnd]. rewrite IH, isSpace_upper.
  destruct (JS.trimEnd s); cbn [JS.toUpperCase]; [| reflexivity].
  now destruct (JS.isSpace c).
Qed.

Lemma trim_upper (s : string) :
  JS.trim (JS.toUpperCase s) = JS.toUpperCase (JS.trim s).
Proof. unfold JS.trim. now rewrite trimStart_upper, trimEnd_upper. Qed.

Lemma trim_substring (s : string) : exists a b, s = a ++ JS.trim s ++ b.
Proof.
  destruct (trimStart_decomp s) as (a & Ea & _).
  destruct (trimEnd_decomp (JS.trimStart s)) as (b & Eb & _).
  exists a, b. unfold JS.trim. now rewrite <- Eb.
Qed.

Lemma split_head_prefix (sep : ascii) (s q : string) (qs : list string) :
  JS.split sep s = q :: qs -> exists b, s = q ++ b.
Proof.
  revert q qs. induction s as [| c s IH]; intros q qs; cbn [JS.split].
  - intros [= <- _]. now exists "".
  - destruct (Ascii.eqb c sep).
    + intros [= <- _]. now exists (String c s).
    + destruct (JS.split sep s) as [| q' qs'] eqn:E.
      * intros [= <- _]. exfalso. now apply (split_nonempty sep s).
      * intros [= <- _]. destruct (IH q' qs' eq_refl) as [b ->].
        now exists b.
Qed.

Lemma split_piece_substring (sep : ascii) (s p : string) :
  In p (JS.split sep s) -> exists a b, s = a ++ p ++ b.
Proof.
  revert p. induction s as [| c s IH]; intros p Hp.
  - cbn in Hp. destruct Hp as [<- | []]. now exists "", "".
  - destruct (JS.split sep (String c s)) as [| q qs] eqn:E; [contradiction |].
    destruct Hp as [<- | Hp].
    + destruct (split_head_prefix _ _ _ _ E) as [b Eb]. now exists "", b.
    + assert (Hin : In p (JS.split sep s)).
      { cbn [JS.split] in E. destruct (Ascii.eqb c sep).
        - injection E as _ <-. exact Hp.
        - destruct (JS.split sep s) as [| q' qs']; injection E as _ <-;
            [contradiction | now right]. }
      destruct (IH p Hin) as (a & b & ->). now exists (String c a), b.
Qed.

Lemma includes_substring (s a p b x : string) :
  s = a ++ p ++ b -> JS.includes p x = true -> JS.includes s x = true.
Proof. intros -> H. now apply includes_middle. Qed.

Lemma no_includes_substring (s a p b x : string) :
  s = a ++ p ++ b -> JS.includes s x = false -> JS.includes p x = false.
Proof.
  intros E H. destruct (JS.includes p x) eqn:F; [| reflexivity].
  rewrite (includes_substring s a p b x E F) in H. discriminate.
Qed.

Lemma no_includes_trim (s x : string) :
  JS.includes s x = false -> JS.includes (JS.trim s) x = false.
Proof.
  intros H. destruct (trim_substring s) as (a & b & E).
  exact (no_includes_substring s a _ b x E H).
Qed.

(** ** Removing the fences *)

Lemma removeMatches_skip (here : string -> bool) (len k : nat) (s : string) :
  ollamaService.removeMatches here len k s = ollamaService.removeMatches here len 0 (JS.drop k s).
Proof.
  revert s. induction k as [| k IH]; intros s; [now destruct s |].
  destruct s as [| c r]; [reflexivity |]. cbn [ollamaService.removeMatches JS.drop]. apply IH.
Qed.

Lemma unfenced_here (s : string) :
  ollamaService.fence s = true -> ollamaService.unfenced s = ollamaService.unfenced (JS.drop 3 s).
Proof.
  intros H. destruct s as [| c r]; [discriminate |].
  unfold ollamaService.unfenced. cbn [ollamaService.removeMatches]. rewrite H.
  now rewrite removeMatches_skip.
Qed.

Lemma unfenced_later (c : ascii) (r : string) :
  ollamaService.fence (String c r) = false -> ollamaService.unfenced (String c r) = String c (ollamaService.unfenced r).
Proof. intros H. unfold ollamaService.unfenced. cbn [ollamaService.removeMatches]. now rewrite H. Qed.

(** The text left after a string that does not begin with a backquote does
    not begin with one. *)
Lemma unfenced_head1 (s : string) :
  JS.startsWith s "`" = false -> JS.startsWith (ollamaService.unfenced s) "`" = false.
Proof.
  destruct s as [| c r]; [reflexivity |]. intros H.
  assert (F : ollamaService.fence (String c r) = false).
  { unfold ollamaService.fence. cbn [JS.startsWith] in *.
    rewrite andb_true_r in H. now rewrite H. }
  rewrite (unfenced_later c r F). cbn [JS.startsWith] in *. exact H.
Qed.

Lemma unfenced_head2 (s : string) :
  JS.startsWith s "``" = false -> JS.startsWith (ollamaService.unfenced s) "``" = false.
Proof.
  destruct s as [| c r]; [reflexivity |]. intros H.
  assert (F : ollamaService.fence (String c r) = false).
  { unfold ollamaService.fence. cbn [JS.startsWith] in *.
    destruct (Ascii.eqb c "`"); [| reflexivity]. cbn [andb] in *.
    destruct r as [| d r]; [reflexivity |].
    destruct (Ascii.eqb d "`"); [discriminate | reflexivity]. }
  rewrite (unfenced_later c r F). cbn [JS.startsWith] in *.
  destruct (Ascii.eqb c "`"); [| reflexivity]. cbn [andb] in *.
  assert (H1 : JS.startsWith r "`" = false).
  { destruct r as [| d r]; [reflexivity |]. cbn [JS.startsWith] in *.
    now rewrite andb_true_r in *. }
  pose proof (unfenced_head1 r H1) as H2.
  destruct (ollamaService.unfenced r) as [| d u]; [reflexivity |].
  cbn [JS.startsWith] in *. now rewrite andb_true_r in *.
Qed.

Lemma length_drop_le (n : nat) (s : string) :
  String.length (JS.drop n s) <= String.length s.
Proof.
  revert s; induction n as [| n IH]; intros [| c s]; simpl;
    try lia. specialize (IH s). lia.
Qed.

Lemma unfenced_no_fence (s : string) : JS.includes (ollamaService.unfenced s) "```" = false.
Proof.
  remember (String.length s) as n eqn:Hn.
  assert (Hle : String.length s <= n) by lia. clear Hn.
  revert s Hle. induction n as [| n IH]; intros s Hle.
  - destruct s; [reflexivity | simpl in Hle; lia].
  - destruct (ollamaService.fence s) eqn:F.
    + rewrite (unfenced_here s F). apply IH.
      destruct s as [| c s]; [discriminate |].
      change (JS.drop 3 (String c s)) with (JS.drop 2 s).
      pose proof (length_drop_le 2 s). cbn [String.length] in Hle. lia.
    + destruct s as [| c r]; [reflexivity |].
      rewrite (unfenced_later c r F). cbn [JS.includes].
      rewrite (IH r) by (simpl in Hle; lia). rewrite orb_false_r.
      unfold ollamaService.fence in F. cbn [JS.startsWith] in *.
      destruct (Ascii.eqb c "`"); [| reflexivity]. cbn [andb] in *.
      assert (H2 : JS.startsWith r "``" = false).
      { destruct r as [| d r]; [reflexivity |]. exact F. }
      pose proof (unfenced_head2 r H2) as H3.
      destruct (ollamaService.unfenced r) as [| d u]; [reflexivity |]. exact H3.
Qed.

Lemma find_exists {A} (f : A -> bool) (l : list A) (x : A) :
  In x l -> f x = true -> exists y, find f l = Some y.
Proof.
  intros Hin Hx. destruct (find f l) as [y |] eqn:E; [now exists y |].
  rewrite (find_none _ _ E x Hin) in Hx. discriminate.
Qed.

Section Service.

Variable Rows : Type.
Variable generateResponse : string -> nat -> Task memoryService.Db ollamaService.Generated.

(** X24.  When the model cannot be reached, [generateSQL] returns a failure
    with the error of the call and no statement.  When the model answers,
    the statement returned is trimmed; and when some line of the answer,
    fences removed, begins with SELECT in any letter case, the statement is
    such a line: it holds no line feed and [validateSQL] does not reject it
    for not being a SELECT. *)
Theorem generateSQL_takes_select_line :
  forall (context : rickController.Context Rows)
         (db db' : memoryService.Db) (result : ollamaService.Generated),
    generateResponse (ollamaService.sqlPrompt Rows context) 3 db = (Normal result, db') ->
    (ollamaService.success result = false ->
     ollamaService.generateSQL Rows generateResponse context db
     = (Normal (rickController.mkSqlResult false None (ollamaService.error result)), db')) /\
    (forall text,
        ollamaService.success result = true -> ollamaService.response result = Some text ->
        ollamaService.generateSQL Rows generateResponse context db
        = (Normal (rickController.mkSqlResult true (Some (ollamaService.extractSQL text))
                     None), db') /\
        JS.trim (ollamaService.extractSQL text) = ollamaService.extractSQL text /\
        (forall line,
            In line (JS.split (ascii_of_nat 10) (ollamaService.cleaned text)) ->
            ollamaService.isSelectLine line = true ->
            JS.includes (ollamaService.extractSQL text) rickCommands.nl = false /\
            forall teacherId,
              error (validateSQL (ollamaService.extractSQL text) teacherId)
              <> Some "Only SELECT queries are allowed")).
Proof.
  intros context db db' result Hcall.
  unfold ollamaService.generateSQL, bind. rewrite Hcall. split.
  - now intros ->.
  - intros text -> ->. cbn [negb].
    split; [reflexivity |]. split.
    + unfold ollamaService.extractSQL. apply CommandParserFacts.trim_idempotent.
    + intros line Hin Hsel.
      destruct (find_exists _ _ line Hin Hsel) as [found Hfound].
      pose proof (find_some _ _ Hfound) as [Hpiece Hfsel].
      assert (E : ollamaService.extractSQL text = JS.trim found)
        by (unfold ollamaService.extractSQL; now rewrite Hfound).
      rewrite E. split.
      * apply no_includes_trim.
        exact (split_piece_no_sep (ascii_of_nat 10) _ found Hpiece).
      * intros teacherId. unfold validateSQL.
        rewrite trim_upper, CommandParserFacts.trim_idempotent.
        unfold ollamaService.isSelectLine in Hfsel. rewrite Hfsel.
        cbn [negb].
        destruct (firstBlocked _ _); [discriminate |].
        destruct (firstForbidden _); [discriminate |].
        destruct (negb _); discriminate.
Qed.

End Service.

(** X25.  The statement taken from an answer of the model never holds a
    code ollamaService.fence (three backquotes), whatever the answer. *)
Theorem extractSQL_no_fence :
  forall text : string,
    JS.includes (ollamaService.extractSQL text) "```" = false.
Proof.
  intros text.
  assert (C : JS.includes (ollamaService.cleaned text) "```" = false).
  { unfold ollamaService.cleaned, ollamaService.removeFences.
    apply no_includes_trim. apply unfenced_no_fence. }
  unfold ollamaService.extractSQL. apply no_includes_trim.
  destruct (find _ _) as [line |] eqn:F; [| exact C].
  apply find_some in F as [Hpiece _].
  destruct (split_piece_substring _ _ _ Hpiece) as (a & b & E).
  exact (no_includes_substring _ a line b _ E C).
Qed.

Lemma generateSQL_takes_select_line_witness :
  ollamaService.generateSQL (list string)
    (fun _ _ => ret (ollamaService.mkGenerated true
       (Some "Here you go:
```SQL
select name from students where teacher_id = 7
```") None))
    (rickController.mkContext None None "who?" None None None None)
    Examples.exampleDb
  = (Normal (rickController.mkSqlResult true
       (Some "select name from students where teacher_id = 7") None),
     Examples.exampleDb).
Proof.
  destruct (generateSQL_takes_select_line (list string)
              (fun _ _ => ret (ollamaService.mkGenerated true
                 (Some "Here you go:
```SQL
select name from students where teacher_id = 7
```") None))
              (rickController.mkContext None None "who?" None None None None)
              Examples.exampleDb Examples.exampleDb _ eq_refl)
    as [_ H].
  destruct (H _ eq_refl eq_refl) as [E _]. exact E.
Defined.

End OllamaFacts.

(** * The authentication middleware *)

Module RickAuthFacts.

(** X26.  [rickAuth] lets a request through only with a tenant id that is
    set and not zero.  The id of [req.user] is taken when it is there, with
    the user's name or else username; the id of [req.session] is taken only
    when the user gives none.  A request that gives neither is answered
    with the 401 error. *)
Theorem rickAuth_sets_tenant :
  forall req : rickAuth.Request,
    (forall t n, rickAuth.rickAuth req = rickAuth.Next t n ->
       t <> 0%Z /\
       ((exists u, rickAuth.user req = Some u /\
                   rickAuth.teacher_id u = Some t /\
                   n = rickAuth.orElse (rickAuth.name u) (rickAuth.username u))
        \/
        (exists s, rickAuth.session req = Some s /\
                   rickAuth.s_teacher_id s = Some t /\
                   n = rickAuth.teacher_name s /\
                   forall u, rickAuth.user req = Some u ->
                             rickAuth.truthyId (rickAuth.teacher_id u) = None))) /\
    (forall e, rickAuth.rickAuth req = rickAuth.Unauthorized e ->
       e = "Authentication required to use Rick AI" /\
       (forall u, rickAuth.user req = Some u ->
                  rickAuth.truthyId (rickAuth.teacher_id u) = None) /\
       (forall s, rickAuth.session req = Some s ->
                  rickAuth.truthyId (rickAuth.s_teacher_id s) = None)).
Proof.
  assert (T : forall x t, rickAuth.truthyId x = Some t -> x = Some t /\ t <> 0%Z).
  { intros [z |] t; cbn; [| discriminate].
    destruct (Z.eqb_spec z 0); [discriminate |]. intros [= <-]. auto. }
  intros req. unfold rickAuth.rickAuth.
  destruct (rickAuth.user req) as [u |];
    [destruct (rickAuth.truthyId (rickAuth.teacher_id u)) as [tu |] eqn:Eu |].
  - split; [| discriminate]. intros t n [= <- <-].
    destruct (T _ _ Eu) as [E Hz]. split; [exact Hz |]. left. now exists u.
  - destruct (rickAuth.session req) as [s |];
      [destruct (rickAuth.truthyId (rickAuth.s_teacher_id s)) as [ts |] eqn:Es |].
    + split; [| discriminate]. intros t n [= <- <-].
      destruct (T _ _ Es) as [E Hz]. split; [exact Hz |]. right.
      exists s. repeat split; auto. now intros u' [= <-].
    + split; [discriminate |]. intros e [= <-]. repeat split.
      * now intros u' [= <-].
      * now intros s' [= <-].
    + split; [discriminate |]. intros e [= <-]. repeat split.
      * now intros u' [= <-].
      * discriminate.
  - destruct (rickAuth.session req) as [s |];
      [destruct (rickAuth.truthyId (rickAuth.s_teacher_id s)) as [ts |] eqn:Es |].
    + split; [| discriminate]. intros t n [= <- <-].
      destruct (T _ _ Es) as [E Hz]. split; [exact Hz |]. right.
      exists s. repeat split; auto. discriminate.
    + split; [discriminate |]. intros e [= <-]. repeat split.
      * discriminate.
      * now intros s' [= <-].
    + split; [discriminate |]. intros e [= <-]. repeat split; discriminate.
Qed.

Lemma rickAuth_sets_tenant_witness :
  rickAuth.rickAuth
    (rickAuth.mkRequest
       (Some (rickAuth.mkUser (Some 0%Z) (Some "Ann") None))
       (Some (rickAuth.mkSession (Some 7%Z) (Some "Ms T"))))
  = rickAuth.Next 7 (Some "Ms T") /\ 7%Z <> 0%Z.
Proof.
  split; [reflexivity |].
  exact (proj1 (proj1 (rickAuth_sets_tenant
                         (rickAuth.mkRequest
                            (Some (rickAuth.mkUser (Some 0%Z) (Some "Ann") None))
                            (Some (rickAuth.mkSession (Some 7%Z) (Some "Ms T")))))
                  7%Z (Some "Ms T") eq_refl)).
Defined.

End RickAuthFacts.
